(** * A shallow embedding of the diff-review pipeline

    The TypeScript sources embedded here are [code-reviewer.ts]
    (class [CodeReviewer]: [parseDiff], [filterFiles], [getSeverityWeight],
    [analyzeDiff]) and [code-analyzer.ts] (class [CodeAnalyzer]:
    [analyzeFileChange], [generateSummary], [analyzeLogicalBugs],
    [getCodeContext], [hasNullCheckNearby], [getFileExtension]).

    Conventions of the embedding.
    - A JavaScript string is the list of its UTF-16 code units; the
      embedding covers strings whose code units are below 256 and writes
      them as [string] (one [ascii] per code unit).
    - A JavaScript number that holds a line number or a counter is a [Z].
      The numbers of the source are doubles: up to [MAX_SAFE_INTEGER]
      (2^53 - 1) in absolute value [parseInt], [++], [+], [-] and
      [String] are exact and agree with the embedding; beyond it the
      source rounds and the embedding does not.  The running totals of
      added and removed lines never leave that range; the line counters
      can, since a hunk header may declare any numeral.  A property that
      rests on the arithmetic of the line counters therefore carries the
      bound as a hypothesis.
    - [Array.prototype.forEach] over a mutable accumulator is a
      [fold_left] of an explicit state; [push] appends at the end.
    - [Array.prototype.sort] is specified by ECMAScript to be stable; it is
      embedded as a stable insertion sort driven by the comparator. *)

From Stdlib Require Import List String Ascii ZArith Lia Bool Arith.
From Stdlib Require Import Permutation Sorting.Sorted.
From Stdlib Require Import Numbers.DecimalString.
Import ListNotations.

Open Scope string_scope.
Open Scope Z_scope.

(** ** JavaScript string primitives *)

Module JsString.

(** [s.startsWith(p)] *)
Definition startsWith (s p : string) : bool := String.prefix p s.

(** [s.substring(n)] for a non-negative [n]. *)
Fixpoint drop (n : nat) (s : string) : string :=
  match n, s with
  | O, _ => s
  | S _, EmptyString => EmptyString
  | S k, String _ s' => drop k s'
  end.

Definition substring1 (s : string) : string := drop 1 s.

(** [s.endsWith(p)] *)
Definition endsWith (s p : string) : bool :=
  (String.length p <=? String.length s)%nat &&
  String.eqb (drop (String.length s - String.length p) s) p.

(** [s.includes(p)] *)
Fixpoint includes (s p : string) : bool :=
  String.prefix p s ||
  match s with
  | EmptyString => false
  | String _ s' => includes s' p
  end.

(** Code units that [String.prototype.trim] strips (WhiteSpace and
    LineTerminator of ECMAScript), among the code units below 256:
    TAB, LF, VT, FF, CR, SP and NBSP. *)
Definition isWhiteSpace (c : ascii) : bool :=
  let n := nat_of_ascii c in
  ((9 <=? n) && (n <=? 13))%nat || (n =? 32)%nat || (n =? 160)%nat.

Fixpoint trimStart (s : string) : string :=
  match s with
  | EmptyString => EmptyString
  | String c s' => if isWhiteSpace c then trimStart s' else s
  end.

(** [trimEnd] keeps a character when it is not white space or when
    something other than white space follows it. *)
Fixpoint trimEnd (s : string) : string :=
  match s with
  | EmptyString => EmptyString
  | String c s' =>
      match trimEnd s' with
      | EmptyString => if isWhiteSpace c then EmptyString else String c EmptyString
      | t => String c t
      end
  end.

Definition trim (s : string) : string := trimEnd (trimStart s).

(** Line terminators recognised by [^] under the [m] flag and excluded
    by [.], among the code units below 256: LF and CR. *)
Definition isLineTerminator (c : ascii) : bool :=
  let n := nat_of_ascii c in (n =? 10)%nat || (n =? 13)%nat.

Definition LF : ascii := ascii_of_nat 10.

(** [s.split(sep)] for a separator of one code unit: always at least
    one piece. *)
Fixpoint splitOn (sep : ascii) (s : string) : list string :=
  match s with
  | EmptyString => [EmptyString]
  | String c s' =>
      if Ascii.eqb c sep then EmptyString :: splitOn sep s'
      else match splitOn sep s' with
           | [] => [String c EmptyString]
           | l :: ls => String c l :: ls
           end
  end.

(** [s.split('\n')] *)
Definition splitLines (s : string) : list string := splitOn LF s.

(** The longest prefix whose code units satisfy [p], and the rest. *)
Fixpoint spanWhile (p : ascii -> bool) (s : string) : string * string :=
  match s with
  | EmptyString => (EmptyString, EmptyString)
  | String c s' =>
      if p c then let (d, r) := spanWhile p s' in (String c d, r)
      else (EmptyString, s)
  end.

(** [s.substring(0, n)] *)
Fixpoint take (n : nat) (s : string) : string :=
  match n, s with
  | O, _ => EmptyString
  | S _, EmptyString => EmptyString
  | S k, String c s' => String c (take k s')
  end.

(** [s.toLowerCase()] on code units below 256: A-Z, and the Latin-1
    capitals U+00C0..U+00DE except the multiplication sign U+00D7. *)
Definition lowerChar (c : ascii) : ascii :=
  let n := nat_of_ascii c in
  if ((65 <=? n) && (n <=? 90))%nat
     || ((192 <=? n) && (n <=? 222) && negb (n =? 215))%nat
  then ascii_of_nat (n + 32) else c.

Fixpoint toLowerCase (s : string) : string :=
  match s with
  | EmptyString => EmptyString
  | String c s' => String (lowerChar c) (toLowerCase s')
  end.

Definition isDigit (c : ascii) : bool :=
  let n := nat_of_ascii c in ((48 <=? n) && (n <=? 57))%nat.

(** The longest prefix of decimal digits and what follows it. *)
Definition spanDigits (s : string) : string * string := spanWhile isDigit s.

(** [Number.MAX_SAFE_INTEGER], 2^53 - 1: up to it, and down to its
    negation, every integer is a double and the arithmetic of the source
    is exact. *)
Definition MAX_SAFE_INTEGER : Z := 9007199254740991.

(** [parseInt(d)] on a string of decimal digits: the value of the
    numeral, which is what the source returns for values up to
    [MAX_SAFE_INTEGER]. *)
Fixpoint parseDigits (acc : Z) (s : string) : Z :=
  match s with
  | EmptyString => acc
  | String c s' =>
      if isDigit c then parseDigits (10 * acc + (Z.of_nat (nat_of_ascii c) - 48)) s'
      else acc
  end.

Definition parseInt (s : string) : Z := parseDigits 0 s.

(** [String(n)] for an integer [n] of absolute value up to
    [MAX_SAFE_INTEGER]: all its decimal digits. *)
Definition numberToString (n : Z) : string :=
  NilZero.string_of_int (Z.to_int n).

Fixpoint spaces (n : nat) : string :=
  match n with
  | O => EmptyString
  | S k => String " " (spaces k)
  end.

(** [s.padStart(n, ' ')] *)
Definition padStart (n : nat) (s : string) : string :=
  spaces (n - String.length s) ++ s.

(** [xs.join(sep)] *)
Fixpoint join (sep : string) (xs : list string) : string :=
  match xs with
  | [] => EmptyString
  | [x] => x
  | x :: rest => x ++ sep ++ join sep rest
  end.

End JsString.

Import JsString.

(** ** Data model ([code-reviewer.ts], exported interfaces) *)

Inductive ChangeType := addition | deletion | context.

Definition ChangeType_eqb (a b : ChangeType) : bool :=
  match a, b with
  | addition, addition | deletion, deletion | context, context => true
  | _, _ => false
  end.

Record LineChange := mkLineChange {
  type : ChangeType;
  lineNumber : Z;
  content : string
}.

Record FileChange := mkFileChange {
  fileName : string;
  oldFileName : string;
  isDeleted : bool;
  isNewFile : bool;
  additions : Z;
  deletions : Z;
  changes : list LineChange;
  rawDiff : string
}.

Inductive Severity := critical | major | minor | info.

Definition severityName (s : Severity) : string :=
  match s with
  | critical => "critical"
  | major => "major"
  | minor => "minor"
  | info => "info"
  end.

Record ReviewIssue := mkReviewIssue {
  severity : Severity;
  title : string;
  description : string;
  file : string;
  line : option Z;
  suggestion : option string;
  codeSnippet : option string;
  language : option string
}.

(** ** The diff parser ([CodeReviewer.parseDiff]) *)

(** [diff.split(/^diff --git/m)]: the text before the first separator and
    the pieces that follow each separator.  Under the [m] flag [^] holds
    at offset 0 and after a line terminator; [bol] records that, and
    [skip] counts the code units of a separator still to be consumed. *)
Fixpoint splitOnDiffGit (bol : bool) (skip : nat) (s : string) : string * list string :=
  match s with
  | EmptyString => (EmptyString, [])
  | String c s' =>
      match skip with
      | S k => splitOnDiffGit false k s'
      | O =>
          if bol && startsWith s "diff --git" then
            let (p, ps) := splitOnDiffGit false 9 s' in (EmptyString, p :: ps)
          else
            let (p, ps) := splitOnDiffGit (isLineTerminator c) 0 s' in (String c p, ps)
      end
  end.

(** [diff.split(/^diff --git/m).slice(1)] *)
Definition splitHunks (diff : string) : list string :=
  snd (splitOnDiffGit true 0 diff).

Fixpoint hasLineTerminator (s : string) : bool :=
  match s with
  | EmptyString => false
  | String c s' => isLineTerminator c || hasLineTerminator s'
  end.

(** The text before and after the first occurrence of [sep]. *)
Fixpoint splitAtFirst (sep s : string) : option (string * string) :=
  if String.prefix sep s then Some (EmptyString, drop (String.length sep) s)
  else match s with
       | EmptyString => None
       | String c s' =>
           match splitAtFirst sep s' with
           | Some (a, b) => Some (String c a, b)
           | None => None
           end
       end.

(** [header.match(/^diff --git a\/(.*?) b\/(.*?)$/)], groups 1 and 2.
    Without the [m] flag [$] holds only at the end of the input and [.]
    excludes line terminators, so a match needs the text after the
    prefix to be free of them; the lazy first group then stops at the
    first [" b/"]. *)
Definition fileMatch (header : string) : option (string * string) :=
  if startsWith header "diff --git a/" then
    let rest := drop 13 header in
    if hasLineTerminator rest then None else splitAtFirst " b/" rest
  else None.

Definition dropComma (s : string) : string :=
  match s with
  | String "," s' => s'
  | _ => s
  end.

(** [/@@ -(\d+),?\d* \+(\d+),?\d* @@/] tried at offset 0 of [s]; the
    result holds groups 1 and 2.  Every quantifier of the pattern is
    followed by a code unit outside its class, so the greedy choice is
    the only one that can succeed. *)
Definition hunkHeaderAt (s : string) : option (string * string) :=
  if startsWith s "@@ -" then
    let (d1, r1) := spanDigits (drop 4 s) in
    if String.eqb d1 EmptyString then None else
    let (_, r2) := spanDigits (dropComma r1) in
    if startsWith r2 " +" then
      let (d2, r3) := spanDigits (drop 2 r2) in
      if String.eqb d2 EmptyString then None else
      let (_, r4) := spanDigits (dropComma r3) in
      if startsWith r4 " @@" then Some (d1, d2) else None
    else None
  else None.

(** [line.match(/@@ -(\d+),?\d* \+(\d+),?\d* @@/)]: the leftmost match. *)
Fixpoint matchHunkHeader (s : string) : option (string * string) :=
  match hunkHeaderAt s with
  | Some m => Some m
  | None =>
      match s with
      | EmptyString => None
      | String _ s' => matchHunkHeader s'
      end
  end.

(** The local variables of the per-file callback that the line loop
    updates.  [currentLineOld++] and [currentLineNew++] are [+ 1] on
    [Z], which is what the source computes while the counter stays
    below 2^53. *)
Record ParseState := mkParseState {
  st_additions : Z;
  st_deletions : Z;
  st_changes : list LineChange;
  currentLineOld : Z;
  currentLineNew : Z
}.

Definition initialState : ParseState := mkParseState 0 0 [] 0 0.

(** The body of [lines.forEach((line, index) => ...)]. *)
Definition parseLine (st : ParseState) (line : string) : ParseState :=
  if startsWith line "@@" then
    match matchHunkHeader line with
    | Some (o, n) =>
        mkParseState (st_additions st) (st_deletions st) (st_changes st)
                     (parseInt o) (parseInt n)
    | None => st
    end
  else if startsWith line "+" && negb (startsWith line "+++") then
    mkParseState (st_additions st + 1) (st_deletions st)
      (st_changes st ++ [mkLineChange addition (currentLineNew st) (substring1 line)])
      (currentLineOld st) (currentLineNew st + 1)
  else if startsWith line "-" && negb (startsWith line "---") then
    mkParseState (st_additions st) (st_deletions st + 1)
      (st_changes st ++ [mkLineChange deletion (currentLineOld st) (substring1 line)])
      (currentLineOld st + 1) (currentLineNew st)
  else if negb (startsWith line "\") && negb (startsWith line "diff")
          && negb (startsWith line "index") && negb (startsWith line "+++")
          && negb (startsWith line "---") && negb (startsWith line "@@")
          && negb (String.eqb (trim line) EmptyString) then
    mkParseState (st_additions st) (st_deletions st)
      (st_changes st ++ [mkLineChange context (currentLineOld st)
                           (if startsWith line " " then substring1 line else line)])
      (currentLineOld st + 1) (currentLineNew st + 1)
  else st.

Definition parseLines (st : ParseState) (lines : list string) : ParseState :=
  fold_left parseLine lines st.

(** The body of [hunks.forEach((hunk) => ...)], with [files] the array
    the callback pushes to. *)
Definition parseHunk (files : list FileChange) (hunk : string) : list FileChange :=
  let lines := splitLines hunk in
  let header := "diff --git" ++ hd EmptyString lines in
  match fileMatch header with
  | None => files
  | Some (old, new) =>
      let st := parseLines initialState lines in
      files ++ [mkFileChange new old
                  (existsb (fun l => startsWith l "deleted file mode") lines)
                  (existsb (fun l => startsWith l "new file mode") lines)
                  (st_additions st) (st_deletions st) (st_changes st)
                  ("diff --git" ++ hunk)]
  end.

Definition parseDiff (diff : string) : list FileChange :=
  fold_left parseHunk (splitHunks diff) [].

Definition nl : string := String LF EmptyString.

Definition sampleDiff : string :=
  "diff --git a/src/a.ts b/src/a.ts" ++ nl ++
  "index 1111111..2222222 100644" ++ nl ++
  "--- a/src/a.ts" ++ nl ++
  "+++ b/src/a.ts" ++ nl ++
  "@@ -10,4 +20,5 @@ function f() {" ++ nl ++
  " const a = 1;" ++ nl ++
  "-const b = 2;" ++ nl ++
  "+const b = 3;" ++ nl ++
  "+const c = 4;" ++ nl ++
  " " ++ nl ++
  " return a;" ++ nl.

(** The file that [sampleDiff] parses to. *)
Definition sampleFile : FileChange :=
  Eval vm_compute in
    hd (mkFileChange EmptyString EmptyString false false 0 0 [] EmptyString)
       (parseDiff sampleDiff).

(** ** Regular expressions ([String.prototype.match] used as a test)

    The detectors only ask whether a pattern occurs somewhere in a line.
    For patterns without back-references and assertions this is
    membership of some substring in the pattern's language, decided here
    with Brzozowski derivatives. *)

Module Regex.

Inductive regex :=
| Void
| Eps
| Chr (p : ascii -> bool)
| Cat (r1 r2 : regex)
| Alt (r1 r2 : regex)
| Star (r : regex).

(** The language of a pattern. *)
Inductive Matches : regex -> string -> Prop :=
| MEps : Matches Eps EmptyString
| MChr p c : p c = true -> Matches (Chr p) (String c EmptyString)
| MCat r1 r2 w1 w2 :
    Matches r1 w1 -> Matches r2 w2 -> Matches (Cat r1 r2) (w1 ++ w2)
| MAltL r1 r2 w : Matches r1 w -> Matches (Alt r1 r2) w
| MAltR r1 r2 w : Matches r2 w -> Matches (Alt r1 r2) w
| MStarNil r : Matches (Star r) EmptyString
| MStarCons r w1 w2 :
    Matches r w1 -> Matches (Star r) w2 -> Matches (Star r) (w1 ++ w2).

(** [Occurs r s]: some substring of [s] is in the language of [r]. *)
Definition Occurs (r : regex) (s : string) : Prop :=
  exists pre w post, s = pre ++ w ++ post /\ Matches r w.

Fixpoint nullable (r : regex) : bool :=
  match r with
  | Void => false
  | Eps => true
  | Chr _ => false
  | Cat r1 r2 => nullable r1 && nullable r2
  | Alt r1 r2 => nullable r1 || nullable r2
  | Star _ => true
  end.

Definition isVoid (r : regex) : bool :=
  match r with Void => true | _ => false end.

Definition isEps (r : regex) : bool :=
  match r with Eps => true | _ => false end.

(** Constructors that prune [Void] and [Eps], to keep derivatives small. *)
Definition cat (r1 r2 : regex) : regex :=
  if isVoid r1 || isVoid r2 then Void
  else if isEps r1 then r2 else Cat r1 r2.

Definition alt (r1 r2 : regex) : regex :=
  if isVoid r1 then r2 else if isVoid r2 then r1 else Alt r1 r2.

Fixpoint deriv (c : ascii) (r : regex) : regex :=
  match r with
  | Void => Void
  | Eps => Void
  | Chr p => if p c then Eps else Void
  | Cat r1 r2 =>
      if nullable r1 then alt (cat (deriv c r1) r2) (deriv c r2)
      else cat (deriv c r1) r2
  | Alt r1 r2 => alt (deriv c r1) (deriv c r2)
  | Star r1 => cat (deriv c r1) (Star r1)
  end.

(** Some prefix of [s] is in the language of [r]: a match at offset 0. *)
Fixpoint matchesAtStart (r : regex) (s : string) : bool :=
  nullable r ||
  match s with
  | EmptyString => false
  | String c s' => matchesAtStart (deriv c r) s'
  end.

(** [s.match(r) !== null] for a pattern without the [g] flag. *)
Fixpoint test (r : regex) (s : string) : bool :=
  matchesAtStart r s ||
  match s with
  | EmptyString => false
  | String _ s' => test r s'
  end.

(** Pattern syntax. *)
Definition chr (c : ascii) : regex := Chr (Ascii.eqb c).
Definition notChr (c : ascii) : regex := Chr (fun x => negb (Ascii.eqb c x)).

Fixpoint lit (s : string) : regex :=
  match s with
  | EmptyString => Eps
  | String c EmptyString => chr c
  | String c s' => Cat (chr c) (lit s')
  end.

Definition plus (r : regex) : regex := Cat r (Star r).
Definition opt (r : regex) : regex := Alt r Eps.

Definition isWordChar (c : ascii) : bool :=
  let n := nat_of_ascii c in
  ((48 <=? n) && (n <=? 57) || (65 <=? n) && (n <=? 90)
   || (97 <=? n) && (n <=? 122) || (n =? 95))%nat.

(** [.], [\s], [\d], [\w] *)
Definition dot : regex := Chr (fun c => negb (isLineTerminator c)).
Definition ws : regex := Chr isWhiteSpace.
Definition digit : regex := Chr isDigit.
Definition word : regex := Chr isWordChar.

Fixpoint seq (rs : list regex) : regex :=
  match rs with
  | [] => Eps
  | [r] => r
  | r :: rest => Cat r (seq rest)
  end.

Fixpoint anyOf (rs : list regex) : regex :=
  match rs with
  | [] => Void
  | [r] => r
  | r :: rest => Alt r (anyOf rest)
  end.

End Regex.

Import Regex.

(** ** [Array.prototype] helpers *)

Section ArrayOps.
Context {A : Type}.

(** [xs.sort(cmp)]: a stable sort; [x] is placed before the first
    element that [cmp] does not put before it. *)
Fixpoint insertBy (cmp : A -> A -> Z) (x : A) (l : list A) : list A :=
  match l with
  | [] => [x]
  | y :: l' => if cmp x y <=? 0 then x :: l else y :: insertBy cmp x l'
  end.

Fixpoint sortBy (cmp : A -> A -> Z) (l : list A) : list A :=
  match l with
  | [] => []
  | x :: l' => insertBy cmp x (sortBy cmp l')
  end.

(** [xs.slice(k)]: a negative [k] counts from the end. *)
Definition sliceFrom (k : Z) (l : list A) : list A :=
  if k <? 0 then skipn (List.length l - Z.to_nat (- k)) l
  else skipn (Z.to_nat k) l.

(** [xs.slice(0, k)] *)
Definition sliceTo (k : Z) (l : list A) : list A :=
  if k <? 0 then firstn (List.length l - Z.to_nat (- k)) l
  else firstn (Z.to_nat k) l.
End ArrayOps.

(** ** The file filter ([CodeReviewer.filterFiles]) *)

Definition filterFiles (files : list FileChange)
    (extensions excludePatterns : option (list string)) : list FileChange :=
  filter (fun file =>
    let hasValidExtension :=
      match extensions with
      | Some exts =>
          if (0 <? List.length exts)%nat then
            existsb (fun ext =>
              endsWith (toLowerCase (fileName file)) (toLowerCase ext)) exts
          else true
      | None => true
      end in
    if negb hasValidExtension then false else
    let shouldExclude :=
      match excludePatterns with
      | Some pats =>
          if (0 <? List.length pats)%nat then
            existsb (fun pattern =>
              includes (toLowerCase (fileName file)) (toLowerCase pattern)) pats
          else false
      | None => false
      end in
    if shouldExclude then false else true) files.

(** ** Severity ranking ([CodeReviewer.getSeverityWeight]) *)

Definition getSeverityWeight (severity : string) : Z :=
  if String.eqb severity "critical" then 4
  else if String.eqb severity "major" then 3
  else if String.eqb severity "minor" then 2
  else if String.eqb severity "info" then 1
  else 0.

(** The comparator of [issues.sort((a, b) => ...)] in [analyzeDiff]. *)
Definition compareIssues (a b : ReviewIssue) : Z :=
  getSeverityWeight (severityName (severity b))
  - getSeverityWeight (severityName (severity a)).

Definition sortIssues (issues : list ReviewIssue) : list ReviewIssue :=
  sortBy compareIssues issues.

(** ** The context window ([CodeAnalyzer.getCodeContext])

    [targetLineNumber - contextLines] and [targetLineNumber +
    contextLines] are the difference and the sum on [Z], which is what
    the source computes while they stay within [MAX_SAFE_INTEGER] in
    absolute value. *)

Definition typeIndicator (t : ChangeType) : string :=
  match t with
  | addition => "+"
  | deletion => "-"
  | context => " "
  end.

Definition compareLines (a b : LineChange) : Z := lineNumber a - lineNumber b.

(** [allLines]: the changes sorted by line number. *)
Definition allLinesOf (fileChange : FileChange) : list LineChange :=
  sortBy compareLines (changes fileChange).

Definition beforeLinesOf (allLines : list LineChange)
    (targetLineNumber contextLines : Z) : list LineChange :=
  sliceFrom (- contextLines)
    (filter (fun l => (lineNumber l <? targetLineNumber)
                      && (targetLineNumber - contextLines <=? lineNumber l))
            allLines).

Definition afterLinesOf (allLines : list LineChange)
    (targetLineNumber contextLines : Z) : list LineChange :=
  sliceTo contextLines
    (filter (fun l => (targetLineNumber <? lineNumber l)
                      && (lineNumber l <=? targetLineNumber + contextLines))
            allLines).

(** The callback of [contextLinesData.map(line => ...)]. *)
Definition formatLine (targetLineNumber : Z) (l : LineChange) : string :=
  let prefix := if lineNumber l =? targetLineNumber then "> " else "  " in
  let lineNumberStr := padStart 3 (numberToString (lineNumber l)) in
  prefix ++ lineNumberStr ++ typeIndicator (type l) ++ " " ++ content l.

(** The lines of the window, [None] when the target is not found. *)
Definition contextLinesData (fileChange : FileChange)
    (targetLineNumber contextLines : Z) : option (list LineChange) :=
  let allLines := allLinesOf fileChange in
  match find (fun l => lineNumber l =? targetLineNumber) allLines with
  | None => None
  | Some targetLine =>
      Some (beforeLinesOf allLines targetLineNumber contextLines
            ++ [targetLine]
            ++ afterLinesOf allLines targetLineNumber contextLines)%list
  end.

Definition getCodeContext (fileChange : FileChange)
    (targetLineNumber contextLines : Z) : string :=
  let allLines := allLinesOf fileChange in
  match find (fun l => lineNumber l =? targetLineNumber) allLines with
  | None => "// Line " ++ numberToString targetLineNumber ++ " not found in changes"
  | Some targetLine =>
      let data := (beforeLinesOf allLines targetLineNumber contextLines
                   ++ [targetLine]
                   ++ afterLinesOf allLines targetLineNumber contextLines)%list in
      let formattedLines := map (formatLine targetLineNumber) data in
      if (List.length formattedLines =? 1)%nat then
        "> " ++ padStart 3 (numberToString (lineNumber targetLine))
             ++ typeIndicator (type targetLine) ++ " " ++ content targetLine
      else join nl formattedLines
  end.

(** ** Detector helpers ([CodeAnalyzer]) *)

(** [fileName.toLowerCase().match(/\.[^.]*$/)]: the text from the last
    dot on. *)
Fixpoint lastDotSuffix (s : string) : option string :=
  match s with
  | EmptyString => None
  | String c s' =>
      match lastDotSuffix s' with
      | Some e => Some e
      | None => if Ascii.eqb c "." then Some s else None
      end
  end.

Definition getFileExtension (fileName : string) : string :=
  match lastDotSuffix (toLowerCase fileName) with
  | Some ext => ext
  | None => EmptyString
  end.

Definition languageMap : list (string * string) :=
  [ (".js", "javascript"); (".ts", "typescript"); (".py", "python");
    (".java", "java"); (".c", "c"); (".cpp", "cpp"); (".cs", "csharp");
    (".php", "php"); (".rb", "ruby"); (".go", "go"); (".rs", "rust");
    (".swift", "swift"); (".kt", "kotlin"); (".scala", "scala");
    (".html", "html"); (".css", "css"); (".scss", "scss"); (".less", "less");
    (".json", "json"); (".xml", "xml"); (".yaml", "yaml"); (".yml", "yaml") ].

Definition getLanguageFromExtension (ext : string) : string :=
  match find (fun kv => String.eqb (fst kv) ext) languageMap with
  | Some kv => snd kv
  | None => "text"
  end.

Definition createIssue (sev : Severity) (title description file : string)
    (line : Z) (suggestion : string) (fileChange : FileChange)
    (contextLines : Z) : ReviewIssue :=
  mkReviewIssue sev title description file (Some line) (Some suggestion)
    (Some (getCodeContext fileChange line contextLines))
    (Some (getLanguageFromExtension (getFileExtension file))).

(** The object literals the other detectors push: no [language]. *)
Definition plainIssue (sev : Severity) (title description file : string)
    (line : Z) (suggestion codeSnippet : string) : ReviewIssue :=
  mkReviewIssue sev title description file (Some line) (Some suggestion)
    (Some codeSnippet) None.

(** [fileChange.changes.filter(c => c.type === 'addition')] *)
Definition addedLinesOf (fileChange : FileChange) : list LineChange :=
  filter (fun c => ChangeType_eqb (type c) addition) (changes fileChange).

(** ** Detectors: quality, security, best practices *)

Definition DQUOTE : ascii := ascii_of_nat 34.

(** The quote class of the patterns: the apostrophe and the double
    quote. *)
Definition isQuote (c : ascii) : bool :=
  Ascii.eqb c "'" || Ascii.eqb c DQUOTE.

(** [\b] before the end of the input or a non-word code unit, for a
    position that follows a word character. *)
Definition boundaryAhead (s : string) : bool :=
  match s with
  | EmptyString => true
  | String c _ => negb (isWordChar c)
  end.

(** [(TODO|FIXME)\b] under the [i] flag, tried at offset 0. *)
Definition todoAt (s : string) : bool :=
  let l := toLowerCase s in
  (startsWith l "todo" && boundaryAhead (drop 4 s))
  || (startsWith l "fixme" && boundaryAhead (drop 5 s)).

(** [content.match(/\b(TODO|FIXME)\b/i)]; [prevWord] tells whether the
    code unit before the current offset is a word character. *)
Fixpoint testTodo (prevWord : bool) (s : string) : bool :=
  (negb prevWord && todoAt s)
  || match s with
     | EmptyString => false
     | String c s' => testTodo (isWordChar c) s'
     end.

Definition analyzeCodeQuality (fileChange : FileChange) : list ReviewIssue :=
  flat_map (fun line =>
    (if (120 <? String.length (content line))%nat then
       [createIssue minor "Long line detected"
          ("Line is " ++ numberToString (Z.of_nat (String.length (content line)))
           ++ " characters long")
          (fileName fileChange) (lineNumber line)
          "Break into multiple lines for better readability" fileChange 3]
     else [])
    ++
    (if testTodo false (content line) then
       [createIssue info "TODO/FIXME comment found"
          "Unresolved TODO or FIXME comment"
          (fileName fileChange) (lineNumber line)
          "Address the TODO or create a proper issue" fileChange 2]
     else []))%list
  (addedLinesOf fileChange).

Definition quoteClass : regex := Chr isQuote.
Definition notQuoteClass : regex := Chr (fun c => negb (isQuote c)).

(** [/(password|secret|key|token)\s*[:=]\s*Q[^Q]+Q|api_key/i], with [Q]
    the quote class;
    the letters of the pattern are ASCII, so the [i] flag amounts to
    testing the lower-cased line. *)
Definition secretPattern : regex :=
  Alt (seq [anyOf [lit "password"; lit "secret"; lit "key"; lit "token"];
            Star ws; Alt (chr ":") (chr "="); Star ws;
            quoteClass; plus notQuoteClass; quoteClass])
      (lit "api_key").

(** [snippet.replace(/(Q)[^Q]*(Q)/g, '$1***$2')], with [Q] the quote
    class.  [pending]
    holds the text read since an opening quote, that quote included; it
    is copied unchanged when no closing quote follows. *)
Fixpoint maskLiterals (pending : option (ascii * string)) (s : string) : string :=
  match s with
  | EmptyString =>
      match pending with
      | Some (q, buf) => String q buf
      | None => EmptyString
      end
  | String c s' =>
      match pending with
      | None =>
          if isQuote c then maskLiterals (Some (c, EmptyString)) s'
          else String c (maskLiterals None s')
      | Some (q, buf) =>
          if isQuote c then String q ("***" ++ String c (maskLiterals None s'))
          else maskLiterals (Some (q, buf ++ String c EmptyString)) s'
      end
  end.

Definition analyzeSecurityIssues (fileChange : FileChange) : list ReviewIssue :=
  flat_map (fun line =>
    if test secretPattern (toLowerCase (content line)) then
      [plainIssue critical "Potential hardcoded secret"
         "Possible hardcoded credential or secret"
         (fileName fileChange) (lineNumber line)
         "Move to environment variables"
         (maskLiterals None (getCodeContext fileChange (lineNumber line) 2))]
    else [])
  (addedLinesOf fileChange).

Definition notEqBang : regex :=
  Chr (fun c => negb (Ascii.eqb c "=" || Ascii.eqb c "!")).

(** [/[^=!]==[^=]|[^=!]!=[^=]/] *)
Definition looseEqualityPattern : regex :=
  Alt (seq [notEqBang; lit "=="; notChr "="])
      (seq [notEqBang; lit "!="; notChr "="]).

Definition analyzeBestPractices (fileChange : FileChange) : list ReviewIssue :=
  let fileExt := getFileExtension (fileName fileChange) in
  if String.eqb fileExt ".ts" || String.eqb fileExt ".js" then
    flat_map (fun line =>
      if test looseEqualityPattern (content line) then
        [plainIssue minor "Use strict equality"
           "Using loose equality instead of strict"
           (fileName fileChange) (lineNumber line)
           "Use === or !== for strict comparison"
           (getCodeContext fileChange (lineNumber line) 2)]
      else [])
    (addedLinesOf fileChange)
  else [].

(** ** Detector: logical bugs ([CodeAnalyzer.analyzeLogicalBugs]) *)

(** [/\w+\.\w+/] *)
Definition propertyAccessPattern : regex := seq [plus word; chr "."; plus word].
(** [/\?\./] *)
Definition optionalChainPattern : regex := lit "?.".
(** [/if\s*\(|&&|catch|try/] *)
Definition guardPattern : regex :=
  anyOf [seq [lit "if"; Star ws; chr "("]; lit "&&"; lit "catch"; lit "try"].
(** [/\[\s*\d+\s*\]/] *)
Definition literalIndexPattern : regex :=
  seq [chr "["; Star ws; plus digit; Star ws; chr "]"].
(** [/\[.*\]/] *)
Definition bracketPattern : regex := seq [chr "["; Star dot; chr "]"].
(** [/\.length/] *)
Definition lengthPattern : regex := lit ".length".
(** [/while\s*\(\s*true\s*\)|for\s*\(\s*;\s*;\s*\)/] *)
Definition infiniteLoopPattern : regex :=
  Alt (seq [lit "while"; Star ws; chr "("; Star ws; lit "true"; Star ws; chr ")"])
      (seq [lit "for"; Star ws; chr "("; Star ws; chr ";"; Star ws; chr ";";
            Star ws; chr ")"]).
(** [/if\s*\([^)]*=[^=]/] *)
Definition assignInConditionPattern : regex :=
  seq [lit "if"; Star ws; chr "("; Star (notChr ")"); chr "="; notChr "="].
(** [/return.*\n.*[^}]/] *)
Definition unreachablePattern : regex :=
  seq [lit "return"; Star dot; chr LF; Star dot; notChr "}"].
(** [/\+\s*Q|Q.*\+/], with [Q] the quote class *)
Definition coercionPattern : regex :=
  Alt (seq [chr "+"; Star ws; quoteClass]) (seq [quoteClass; Star dot; chr "+"]).

(** The patterns of [hasNullCheckNearby]:
    [/if\s*\([^)]*null/], [/if\s*\([^)]*undefined/], [/&&\s*\w+/]. *)
Definition ifNullPattern : regex :=
  seq [lit "if"; Star ws; chr "("; Star (notChr ")"); lit "null"].
Definition ifUndefinedPattern : regex :=
  seq [lit "if"; Star ws; chr "("; Star (notChr ")"); lit "undefined"].
Definition andOperandPattern : regex := seq [lit "&&"; Star ws; plus word].

Definition hasNullCheckNearby (fileChange : FileChange) (lineNumber0 : Z) : bool :=
  let contextLines :=
    filter (fun c =>
      (Z.abs (lineNumber c - lineNumber0) <=? 3)
      && (test ifNullPattern (content c)
          || test ifUndefinedPattern (content c)
          || test andOperandPattern (content c)
          || test optionalChainPattern (content c)))
    (changes fileChange) in
  (0 <? List.length contextLines)%nat.

Definition unboundedAccessTitle : string := "Array access without bounds check".
Definition unreachableTitle : string := "Potentially unreachable code".

(** The issues the loop body of [analyzeLogicalBugs] pushes for one
    added line, in the order of the source. *)
Definition logicalBugsOfLine (fileChange : FileChange) (fileExt : string)
    (line : LineChange) : list ReviewIssue :=
  ((if test propertyAccessPattern (content line)
       && negb (test optionalChainPattern (content line)) then
      let hasNullCheck := hasNullCheckNearby fileChange (lineNumber line) in
      if negb hasNullCheck && negb (test guardPattern (content line)) then
        [plainIssue major "Potential null/undefined access"
           "Object property access without null checking"
           (fileName fileChange) (lineNumber line)
           "Add null check or use optional chaining (?.)"
           (getCodeContext fileChange (lineNumber line) 3)]
      else []
    else [])
   ++
   (if test literalIndexPattern (content line)
       || test bracketPattern (content line)
          && negb (test lengthPattern (content line)) then
      [plainIssue minor unboundedAccessTitle
         "Direct array indexing without length validation"
         (fileName fileChange) (lineNumber line)
         "Check array length before accessing elements"
         (getCodeContext fileChange (lineNumber line) 2)]
    else [])
   ++
   (if test infiniteLoopPattern (content line) then
      [plainIssue major "Potential infinite loop"
         "Loop condition that may never become false"
         (fileName fileChange) (lineNumber line)
         "Add proper exit condition or break statement"
         (getCodeContext fileChange (lineNumber line) 4)]
    else [])
   ++
   (if test assignInConditionPattern (content line) then
      [plainIssue major "Assignment in conditional"
         "Assignment (=) used instead of comparison (==, ===)"
         (fileName fileChange) (lineNumber line)
         "Use comparison operator or wrap assignment in extra parentheses if intentional"
         (getCodeContext fileChange (lineNumber line) 3)]
    else [])
   ++
   (if test unreachablePattern (content line) then
      [plainIssue minor unreachableTitle
         "Code after return statement may be unreachable"
         (fileName fileChange) (lineNumber line)
         "Remove unreachable code or restructure logic"
         (getCodeContext fileChange (lineNumber line) 4)]
    else [])
   ++
   (if (String.eqb fileExt ".js" || String.eqb fileExt ".ts")
       && test coercionPattern (content line) then
      [plainIssue minor "Potential type coercion"
         "String concatenation with + operator may cause unexpected type conversion"
         (fileName fileChange) (lineNumber line)
         "Use template literals or explicit type conversion"
         (getCodeContext fileChange (lineNumber line) 2)]
    else []))%list.

Definition analyzeLogicalBugs (fileChange : FileChange) : list ReviewIssue :=
  let fileExt := getFileExtension (fileName fileChange) in
  flat_map (logicalBugsOfLine fileChange fileExt) (addedLinesOf fileChange).

(** ** Detector: documentation ([CodeAnalyzer.analyzeJSDocIssues]) *)

Definition asyncPrefix : regex := opt (seq [lit "async"; plus ws]).
Definition exportPrefix : regex := opt (seq [lit "export"; plus ws]).
Definition parenthesised : regex := seq [chr "("; Star (notChr ")"); chr ")"].

(** The four patterns of [isFunctionDeclaration]; each starts with [^],
    which without the [m] flag is offset 0. *)
Definition functionKeywordPattern : regex :=
  seq [Star ws; exportPrefix; asyncPrefix; lit "function"; plus ws; plus word].
Definition arrowFunctionPattern : regex :=
  seq [Star ws; anyOf [lit "const"; lit "let"; lit "var"]; plus ws; plus word;
       Star ws; chr "="; Star ws; asyncPrefix; parenthesised; Star ws; lit "=>"].
Definition methodPattern : regex :=
  seq [Star ws; asyncPrefix; plus word; Star ws; parenthesised; Star ws; chr "{"].
Definition modifierMethodPattern : regex :=
  seq [Star ws; anyOf [lit "public"; lit "private"; lit "protected"]; plus ws;
       asyncPrefix; plus word; Star ws; parenthesised].

Definition isFunctionDeclaration (content0 : string) : bool :=
  matchesAtStart functionKeywordPattern content0
  || matchesAtStart arrowFunctionPattern content0
  || matchesAtStart methodPattern content0
  || matchesAtStart modifierMethodPattern content0.

(** [/^[\s]*(?:export\s+)?class\s+\w+/] *)
Definition classPattern : regex :=
  seq [Star ws; exportPrefix; lit "class"; plus ws; plus word].

(** [/^\s*[\*\/]/] *)
Definition commentStartPattern : regex :=
  seq [Star ws; Alt (chr "*") (chr "/")].

(** The loop of [hasJSDocAbove] over the lines above, nearest first. *)
Fixpoint scanAbove (above : list LineChange) : bool :=
  match above with
  | [] => false
  | l :: rest =>
      if test (lit "*/") (content l) then true
      else if negb (String.eqb (trim (content l)) EmptyString)
              && negb (matchesAtStart commentStartPattern (content l))
           then false
           else scanAbove rest
  end.

Definition hasJSDocAbove (lines : list LineChange) (currentIndex : nat) : bool :=
  if (currentIndex =? 0)%nat then false
  else scanAbove (firstn 5 (rev (firstn currentIndex lines))).

(** The leftmost offset of [s] at which [f] succeeds. *)
Fixpoint firstMatch {A : Type} (f : string -> option A) (s : string) : option A :=
  match f s with
  | Some a => Some a
  | None =>
      match s with
      | EmptyString => None
      | String _ s' => firstMatch f s'
      end
  end.

(** [kw\s+(\w+)] at offset 0: group 1. *)
Definition wordAfter (kw s : string) : option string :=
  if startsWith s kw then
    let (sp, r) := spanWhile isWhiteSpace (drop (String.length kw) s) in
    if String.eqb sp EmptyString then None else
    let (w, _) := spanWhile isWordChar r in
    if String.eqb w EmptyString then None else Some w
  else None.

(** [(\w+)\s*c] at offset 0: group 1. *)
Definition wordBefore (c : ascii) (s : string) : option string :=
  let (w, r) := spanWhile isWordChar s in
  if String.eqb w EmptyString then None else
  let (_, r') := spanWhile isWhiteSpace r in
  match r' with
  | String c' _ => if Ascii.eqb c' c then Some w else None
  | EmptyString => None
  end.

(** [/(?:function\s+(\w+)|(\w+)\s*\(|(\w+)\s*=)/] at offset 0: the group
    of the first alternative that succeeds. *)
Definition functionNameAt (s : string) : option string :=
  match wordAfter "function" s with
  | Some w => Some w
  | None =>
      match wordBefore "(" s with
      | Some w => Some w
      | None => wordBefore "=" s
      end
  end.

(** Group 1 of the leftmost match of the parameter-list pattern: an
    opening parenthesis, the longest run of code units other than a
    closing parenthesis, and a closing parenthesis. *)
Definition parenGroup (s : string) : option string :=
  match splitAtFirst "(" s with
  | Some (_, r) =>
      match splitAtFirst ")" r with
      | Some (inside, _) => Some inside
      | None => None
      end
  | None => None
  end.

(** [p.trim().split(/\s+/)[0].replace(/[=:].*/, '')] *)
Definition paramName (p : string) : string :=
  let token := fst (spanWhile (fun c => negb (isWhiteSpace c)) (trim p)) in
  fst (spanWhile (fun c => negb (Ascii.eqb c "=" || Ascii.eqb c ":")) token).

Record FunctionInfo := mkFunctionInfo {
  name : string;
  params : list string;
  hasReturn : bool
}.

Definition extractFunctionInfo (content0 : string) : FunctionInfo :=
  mkFunctionInfo
    (match firstMatch functionNameAt content0 with
     | Some n => n
     | None => "anonymous"
     end)
    (match parenGroup content0 with
     | Some inside =>
         if String.eqb inside EmptyString then []
         else map paramName (splitOn "," inside)
     | None => []
     end)
    (includes content0 "return" || includes content0 "=>").

Definition generateJSDocSuggestion (functionInfo : FunctionInfo) : string :=
  let jsdoc0 := "/**" ++ nl ++ " * Description of " ++ name functionInfo ++ nl in
  let jsdoc1 :=
    fold_left (fun jsdoc param =>
      if negb (String.eqb (trim param) EmptyString)
      then jsdoc ++ " * @param {*} " ++ trim param ++ " - Description" ++ nl
      else jsdoc) (params functionInfo) jsdoc0 in
  let jsdoc2 :=
    if hasReturn functionInfo then jsdoc1 ++ " * @returns {*} Description" ++ nl
    else jsdoc1 in
  jsdoc2 ++ " */".

(** The loop of [extractJSDocBlock] over the lines from [startIndex] on. *)
Fixpoint collectBlock (lines : list LineChange) : string :=
  match lines with
  | [] => EmptyString
  | l :: rest =>
      content l ++ nl ++
      (if includes (content l) "*/" then EmptyString else collectBlock rest)
  end.

Definition extractJSDocBlock (lines : list LineChange) (startIndex : nat) : string :=
  collectBlock (skipn startIndex lines).

Definition findNextFunction (lines : list LineChange) (startIndex : nat)
    : option LineChange :=
  find (fun l => isFunctionDeclaration (content l))
       (firstn 9 (skipn (startIndex + 1) lines)).

Definition validateJSDoc (jsDocBlock : string) (functionInfo : FunctionInfo)
    : list string :=
  (flat_map (fun param =>
     if negb (String.eqb (trim param) EmptyString)
        && negb (includes jsDocBlock "@param")
        || negb (includes jsDocBlock param)
     then [("Missing @param for '" ++ param ++ "'")%string]
     else []) (params functionInfo)
   ++
   (if hasReturn functionInfo && negb (includes jsDocBlock "@returns")
       && negb (includes jsDocBlock "@return")
    then ["Missing @returns documentation"] else []))%list.

(** The issues the loop body of [analyzeJSDocIssues] pushes at index [i]. *)
Definition jsDocIssuesAt (fileChange : FileChange) (addedLines : list LineChange)
    (i : nat) (line : LineChange) : list ReviewIssue :=
  ((if isFunctionDeclaration (content line) then
      if negb (hasJSDocAbove addedLines i) then
        let functionInfo := extractFunctionInfo (content line) in
        [plainIssue minor "Missing JSDoc documentation"
           ("Function '" ++ name functionInfo ++ "' lacks JSDoc documentation")%string
           (fileName fileChange) (lineNumber line)
           (generateJSDocSuggestion functionInfo)
           (getCodeContext fileChange (lineNumber line) 3)]
      else []
    else [])
   ++
   (if matchesAtStart classPattern (content line) then
      if negb (hasJSDocAbove addedLines i) then
        let className :=
          match firstMatch (wordAfter "class") (content line) with
          | Some w => w
          | None => "Unknown"
          end in
        [plainIssue minor "Missing class JSDoc"
           ("Class '" ++ className ++ "' lacks JSDoc documentation")%string
           (fileName fileChange) (lineNumber line)
           ("Add JSDoc:" ++ nl ++ "/**" ++ nl ++ " * Description of "
            ++ className ++ " class" ++ nl ++ " */")%string
           (getCodeContext fileChange (lineNumber line) 3)]
      else []
    else [])
   ++
   (if includes (content line) "/**" then
      let jsDocBlock := extractJSDocBlock addedLines i in
      match findNextFunction addedLines i with
      | Some nextFunctionLine =>
          let functionInfo := extractFunctionInfo (content nextFunctionLine) in
          map (fun issue =>
            plainIssue minor "Incomplete JSDoc" issue
              (fileName fileChange) (lineNumber line)
              "Add missing JSDoc tags (@param, @returns, @throws)"
              (take 100 jsDocBlock ++ "...")%string)
            (validateJSDoc jsDocBlock functionInfo)
      | None => []
      end
    else []))%list.

(** [for (let i = 0; i < addedLines.length; i++)] over the suffix that
    starts at index [i]. *)
Fixpoint jsDocLoop (fileChange : FileChange) (addedLines : list LineChange)
    (i : nat) (rest : list LineChange) : list ReviewIssue :=
  match rest with
  | [] => []
  | line :: rest' =>
      (jsDocIssuesAt fileChange addedLines i line
       ++ jsDocLoop fileChange addedLines (S i) rest')%list
  end.

Definition analyzeJSDocIssues (fileChange : FileChange) : list ReviewIssue :=
  let fileExt := getFileExtension (fileName fileChange) in
  if negb (String.eqb fileExt ".js") && negb (String.eqb fileExt ".ts")
     && negb (String.eqb fileExt ".jsx") && negb (String.eqb fileExt ".tsx")
  then []
  else
    let addedLines := addedLinesOf fileChange in
    jsDocLoop fileChange addedLines 0 addedLines.

(** ** Detector: performance ([CodeAnalyzer.analyzePerformanceIssues]) *)

(** [/for\s*\([^)]*\.length[^)]*\)/] *)
Definition loopLengthPattern : regex :=
  seq [lit "for"; Star ws; chr "("; Star (notChr ")"); lit ".length";
       Star (notChr ")"); chr ")"].
(** [/for\s*\(/] *)
Definition forPattern : regex := seq [lit "for"; Star ws; chr "("].
(** [/for\s*\(|while\s*\(|forEach\s*\(/] *)
Definition anyLoopPattern : regex :=
  anyOf [seq [lit "for"; Star ws; chr "("]; seq [lit "while"; Star ws; chr "("];
         seq [lit "forEach"; Star ws; chr "("]].
(** [/\.(readFileSync|writeFileSync|existsSync|statSync)\s*\(/] *)
Definition syncFilePattern : regex :=
  seq [chr ".";
       anyOf [lit "readFileSync"; lit "writeFileSync"; lit "existsSync";
              lit "statSync"];
       Star ws; chr "("].
(** [/\+=.*Q/], with [Q] the quote class *)
Definition concatPattern : regex := seq [lit "+="; Star dot; quoteClass].
(** [/function.*\(.*\).*\{/] *)
Definition functionBodyPattern : regex :=
  seq [lit "function"; Star dot; chr "("; Star dot; chr ")"; Star dot; chr "{"].

Definition hasNestedLoop (fileChange : FileChange) (lineNumber0 : Z) : bool :=
  let nextLines :=
    filter (fun c => (lineNumber0 <? lineNumber c)
                     && (lineNumber c <=? lineNumber0 + 20))
           (changes fileChange) in
  existsb (fun l => test anyLoopPattern (content l)) nextLines.

Definition hasExpensiveOperation (content0 : string) : bool :=
  test (seq [lit "sort"; Star ws; chr "("]) content0
  || test (seq [lit "filter"; Star ws; chr "("]) content0
  || test (seq [lit "map"; Star ws; chr "("]) content0
  || test (seq [lit "reduce"; Star ws; chr "("]) content0
  || test (Alt (lit "JSON.parse") (lit "JSON.stringify")) content0
  || test (Alt (lit "RegExp") (seq [lit "new"; plus ws; lit "RegExp"])) content0.

(** The superscript two of the nested-loop description, U+00B2. *)
Definition superscriptTwo : string := String (ascii_of_nat 178) EmptyString.

Definition performanceIssuesOfLine (fileChange : FileChange) (fileExt : string)
    (line : LineChange) : list ReviewIssue :=
  ((if test loopLengthPattern (content line) then
      [plainIssue minor "Inefficient loop condition"
         "Array length accessed in every loop iteration"
         (fileName fileChange) (lineNumber line)
         "Cache array length in a variable before the loop"
         (getCodeContext fileChange (lineNumber line) 3)]
    else [])
   ++
   (if test forPattern (content line)
       && hasNestedLoop fileChange (lineNumber line) then
      [plainIssue minor "Nested loop detected"
         ("Nested loops can have O(n" ++ superscriptTwo ++ ") complexity")%string
         (fileName fileChange) (lineNumber line)
         "Consider optimizing with better data structures or algorithms"
         (getCodeContext fileChange (lineNumber line) 4)]
    else [])
   ++
   (if test syncFilePattern (content line) then
      [plainIssue major "Synchronous file operation"
         "Synchronous operations block the event loop"
         (fileName fileChange) (lineNumber line)
         "Use asynchronous alternatives with async/await"
         (getCodeContext fileChange (lineNumber line) 3)]
    else [])
   ++
   (if test concatPattern (content line)
       && (String.eqb fileExt ".js" || String.eqb fileExt ".ts") then
      [plainIssue minor "Inefficient string concatenation"
         "String concatenation in loops can be inefficient"
         (fileName fileChange) (lineNumber line)
         "Use array.join() or template literals for better performance"
         (getCodeContext fileChange (lineNumber line) 3)]
    else [])
   ++
   (if test functionBodyPattern (content line)
       && hasExpensiveOperation (content line) then
      [plainIssue info "Consider memoization"
         "Function with expensive operations could benefit from memoization"
         (fileName fileChange) (lineNumber line)
         "Consider caching results for repeated calls with same parameters"
         (getCodeContext fileChange (lineNumber line) 4)]
    else []))%list.

Definition analyzePerformanceIssues (fileChange : FileChange) : list ReviewIssue :=
  let fileExt := getFileExtension (fileName fileChange) in
  flat_map (performanceIssuesOfLine fileChange fileExt) (addedLinesOf fileChange).

(** ** The analyzer entry points *)

(** [CodeAnalyzer.analyzeFileChange]; the promise it returns always
    resolves, and is embedded as its value. *)
Definition analyzeFileChange (fileChange : FileChange) (prompt : string)
    : list ReviewIssue :=
  (analyzeCodeQuality fileChange
   ++ analyzeSecurityIssues fileChange
   ++ analyzeBestPractices fileChange
   ++ analyzeLogicalBugs fileChange
   ++ analyzeJSDocIssues fileChange
   ++ analyzePerformanceIssues fileChange)%list.

(** The pictographs of the summary lie outside the code units the
    embedding covers; they are constants holding their UTF-8 bytes, and
    no function inspects them. *)
Definition checkMark : string := "✅".
Definition alarmSign : string := "🚨".
Definition warningSign : string := "⚠️".

(** [CodeAnalyzer.generateSummary] *)
Definition generateSummary (files : list FileChange) (issues : list ReviewIssue)
    (prompt : string) : string :=
  let totalFiles := Z.of_nat (List.length files) in
  let totalAdditions := fold_left (fun sum f => sum + additions f) files 0 in
  let totalDeletions := fold_left (fun sum f => sum + deletions f) files 0 in
  let criticalIssues :=
    Z.of_nat (List.length (filter (fun i =>
      String.eqb (severityName (severity i)) "critical") issues)) in
  let majorIssues :=
    Z.of_nat (List.length (filter (fun i =>
      String.eqb (severityName (severity i)) "major") issues)) in
  let summary0 :=
    "This code review analyzed " ++ numberToString totalFiles ++ " files with "
    ++ numberToString totalAdditions ++ " additions and "
    ++ numberToString totalDeletions ++ " deletions." ++ nl ++ nl in
  if (List.length issues =? 0)%nat then
    summary0 ++ checkMark ++ " **Excellent work!** No significant issues were found."
  else
    let summary1 :=
      summary0 ++ "Found " ++ numberToString (Z.of_nat (List.length issues))
      ++ " issues:" ++ nl in
    let summary2 :=
      if 0 <? criticalIssues then
        summary1 ++ "- " ++ alarmSign ++ " " ++ numberToString criticalIssues
        ++ " critical issues" ++ nl
      else summary1 in
    if 0 <? majorIssues then
      summary2 ++ "- " ++ warningSign ++ " " ++ numberToString majorIssues
      ++ " major issues" ++ nl
    else summary2.

(** ** The orchestrator ([CodeReviewer.analyzeDiff]) *)

(** The fields of [ReviewOptions] that [analyzeDiff] reads. *)
Record ReviewOptions := mkReviewOptions {
  reviewPrompt : option string;
  fileExtensions : option (list string);
  excludePatterns : option (list string)
}.

Record ReviewResult := mkReviewResult {
  filesChanged : Z;
  linesAdded : Z;
  linesRemoved : Z;
  issues : list ReviewIssue;
  summary : option string
}.

(** [ReviewPromptManager.getTemplate('comprehensive')]: the template
    literal of [review-prompts.ts]. *)
Definition comprehensiveTemplate : string :=
  join nl
    [ EmptyString;
      "      Perform a comprehensive code review focusing on:";
      "      1. Code quality and maintainability";
      "      2. Security vulnerabilities and best practices";
      "      3. Performance considerations";
      "      4. Logic errors and potential bugs";
      "      5. Adherence to coding standards";
      "      6. Documentation and comments";
      "      7. Test coverage considerations";
      "      ";
      "      For each issue found, provide:";
      "      - Severity level (critical/major/minor/info)";
      "      - Clear description of the problem";
      "      - Specific suggestion for improvement";
      "      - Line number reference where applicable";
      "    " ].

(** The accumulators of the loop over the filtered files: [issues],
    [totalLinesAdded], [totalLinesRemoved]. *)
Definition analyzeStep (prompt : string) (acc : list ReviewIssue * Z * Z)
    (fileChange : FileChange) : list ReviewIssue * Z * Z :=
  let '(issues0, totalLinesAdded, totalLinesRemoved) := acc in
  ((issues0 ++ analyzeFileChange fileChange prompt)%list,
   totalLinesAdded + additions fileChange,
   totalLinesRemoved + deletions fileChange).

(** The issues in emission order, before the final sort. *)
Definition emittedIssues (prompt : string) (filteredFiles : list FileChange)
    : list ReviewIssue :=
  fst (fst (fold_left (analyzeStep prompt) filteredFiles ([], 0, 0))).

(** [reviewPrompt || this.promptManager.getTemplate('comprehensive')] *)
Definition resolvePrompt (options : ReviewOptions) : string :=
  match reviewPrompt options with
  | Some p => if String.eqb p EmptyString then comprehensiveTemplate else p
  | None => comprehensiveTemplate
  end.

Definition filteredFilesOf (diff : string) (options : ReviewOptions)
    : list FileChange :=
  filterFiles (parseDiff diff) (fileExtensions options) (excludePatterns options).

Definition analyzeDiff (diff : string) (options : ReviewOptions) : ReviewResult :=
  let filteredFiles := filteredFilesOf diff options in
  let prompt := resolvePrompt options in
  let '(issues0, totalLinesAdded, totalLinesRemoved) :=
    fold_left (analyzeStep prompt) filteredFiles ([], 0, 0) in
  let summary0 := generateSummary filteredFiles issues0 prompt in
  mkReviewResult (Z.of_nat (List.length filteredFiles))
    totalLinesAdded totalLinesRemoved (sortIssues issues0) (Some summary0).

(** ** Notions used to state the properties *)

(** How the line loop of the parser treats a line. *)
Inductive LineKind :=
| HunkHeaderLine | AdditionLine | DeletionLine | ContextLine | SkippedLine.

Definition lineKind (line : string) : LineKind :=
  if startsWith line "@@" then HunkHeaderLine
  else if startsWith line "+" && negb (startsWith line "+++") then AdditionLine
  else if startsWith line "-" && negb (startsWith line "---") then DeletionLine
  else if negb (startsWith line "\") && negb (startsWith line "diff")
          && negb (startsWith line "index") && negb (startsWith line "+++")
          && negb (startsWith line "---") && negb (startsWith line "@@")
          && negb (String.eqb (trim line) EmptyString) then ContextLine
  else SkippedLine.

(** A line that is empty or holds white space only. *)
Definition isBlank (line : string) : bool := String.eqb (trim line) EmptyString.

Definition noHunkHeader (line : string) : Prop := startsWith line "@@" = false.

Definition countIf {A : Type} (p : A -> bool) (l : list A) : Z :=
  Z.of_nat (List.length (filter p l)).

Definition countType (t : ChangeType) (cs : list LineChange) : Z :=
  countIf (fun c => ChangeType_eqb (type c) t) cs.

(** Recorded changes that advance the old-file counter, and the new-file
    counter. *)
Definition advancesOld (cs : list LineChange) : Z :=
  countIf (fun c => negb (ChangeType_eqb (type c) addition)) cs.
Definition advancesNew (cs : list LineChange) : Z :=
  countIf (fun c => negb (ChangeType_eqb (type c) deletion)) cs.

(** The number of the [i]-th recorded change [c] of a hunk as the data
    model words it: the declared offset plus the recorded changes before
    it that advance the side, with additions and context lines on the
    new side, deletions on the old side. *)
Definition numberInHunkPerDataModel (oldStart newStart : Z)
    (hunkChanges : list LineChange) (i : nat) (c : LineChange) : Z :=
  match type c with
  | addition | context => newStart + advancesNew (firstn i hunkChanges)
  | deletion => oldStart + advancesOld (firstn i hunkChanges)
  end.

(** The changes a hunk body records when the counters start at the
    offsets its header declares. *)
Definition hunkChangesOf (oldStart newStart : Z) (body : list string)
    : list LineChange :=
  st_changes (parseLines (mkParseState 0 0 [] oldStart newStart) body).

(** The unified diff format: a line of a hunk body starts with a space
    (context), [+] (added), [-] (removed) or a backslash (the marker for a
    missing final line feed).  A blank line stands for an empty context
    line whose leading space was lost. *)
Definition diffBodyLine (line : string) : bool :=
  isBlank line || startsWith line " " || startsWith line "+"
  || startsWith line "-" || startsWith line "\".

(** A body line that the line loop does not skip, or the backslash
    marker: it is not blank and does not start with [+++] or [---],
    which the loop takes for file headers. *)
Definition plainBodyLine (line : string) : bool :=
  diffBodyLine line && negb (isBlank line)
  && negb (startsWith line "+++") && negb (startsWith line "---").

(** The change a body line stands for in the format, by its first code
    unit; the backslash marker stands for none. *)
Definition changeTypeOf (line : string) : option ChangeType :=
  match line with
  | String "+" _ => Some addition
  | String "-" _ => Some deletion
  | String " " _ => Some context
  | _ => None
  end.

Definition isChangeLine (line : string) : bool :=
  match changeTypeOf line with
  | Some _ => true
  | None => false
  end.

(** Whether a line of a hunk body is a line of the old file, and of the
    new file: a context line, blank ones included, is a line of both, a
    removed line of the old file only, an added line of the new file
    only, and the backslash marker of neither. *)
Definition inOldFile (line : string) : bool :=
  isBlank line || startsWith line " " || startsWith line "-".
Definition inNewFile (line : string) : bool :=
  isBlank line || startsWith line " " || startsWith line "+".

(** The number that line [i] of a hunk body has in its file, for a hunk
    whose header declares the offsets [oldStart] and [newStart]: the
    offset of the side plus the number of earlier body lines that belong
    to that file.  An added line is a line of the new file; a removed
    line and a context line are numbered here in the old file. *)
Definition lineNumberInFile (oldStart newStart : Z) (body : list string)
    (i : nat) (t : ChangeType) : Z :=
  match t with
  | addition => newStart + countIf inNewFile (firstn i body)
  | deletion | context => oldStart + countIf inOldFile (firstn i body)
  end.

(** The same number as the data model words it: a context line is
    numbered in the new file. *)
Definition lineNumberPerDataModel (oldStart newStart : Z) (body : list string)
    (i : nat) (t : ChangeType) : Z :=
  match t with
  | addition | context => newStart + countIf inNewFile (firstn i body)
  | deletion => oldStart + countIf inOldFile (firstn i body)
  end.

(** The header line of a per-file block, and whether it parses. *)
Definition headerOf (hunk : string) : string :=
  "diff --git" ++ hd EmptyString (splitLines hunk).
Definition headerMatches (hunk : string) : bool :=
  match fileMatch (headerOf hunk) with
  | Some _ => true
  | None => false
  end.

(** The filter as the specification words it. *)
Definition IsSuffixOf (p s : string) : Prop := exists pre, s = pre ++ p.
Definition IsSubstringOf (p s : string) : Prop :=
  exists pre post, s = pre ++ p ++ post.

Definition PassesExtensions (extensions : option (list string))
    (f : FileChange) : Prop :=
  match extensions with
  | None | Some [] => True
  | Some exts =>
      exists ext, In ext exts
        /\ IsSuffixOf (toLowerCase ext) (toLowerCase (fileName f))
  end.

Definition PassesExcludes (excludePatterns : option (list string))
    (f : FileChange) : Prop :=
  match excludePatterns with
  | None | Some [] => True
  | Some pats =>
      forall pattern, In pattern pats ->
        ~ IsSubstringOf (toLowerCase pattern) (toLowerCase (fileName f))
  end.


Definition hasSeverity (s : Severity) (i : ReviewIssue) : bool :=
  String.eqb (severityName (severity i)) (severityName s).

Definition weightOf (i : ReviewIssue) : Z :=
  getSeverityWeight (severityName (severity i)).

Definition withSeverity (s : Severity) (i : ReviewIssue) : ReviewIssue :=
  mkReviewIssue s (title i) (description i) (file i) (line i) (suggestion i)
    (codeSnippet i) (language i).

(** A diff with one hunk whose two sides start at different offsets. *)
Definition shiftedDiff : string :=
  "diff --git a/x.ts b/x.ts" ++ nl ++
  "@@ -10,1 +20,1 @@" ++ nl ++
  " const a = 1;" ++ nl.

Definition shiftedContext : LineChange :=
  mkLineChange context 10 "const a = 1;".

(** The running counts agree with the recorded changes. *)
Definition CountsAgree (st : ParseState) : Prop :=
  st_additions st = countType addition (st_changes st)
  /\ st_deletions st = countType deletion (st_changes st).

(** The sort key of the issue ranking: heavier issues come first. *)
Definition negWeight (i : ReviewIssue) : Z := - weightOf i.

(** [c] occurs in [s]. *)
Fixpoint hasChar (c : ascii) (s : string) : bool :=
  match s with
  | EmptyString => false
  | String x s' => Ascii.eqb x c || hasChar c s'
  end.

Definition emptyFile : FileChange :=
  mkFileChange EmptyString EmptyString false false 0 0 [] EmptyString.

(** A diff that adds a line with code after a [return]. *)
Definition returnDiff : string :=
  "diff --git a/x.js b/x.js" ++ nl ++
  "@@ -7,1 +7,2 @@" ++ nl ++
  "+return a[0]; cleanup();" ++ nl.

Definition returnFile : FileChange :=
  Eval vm_compute in hd emptyFile (parseDiff returnDiff).

(** A diff that adds a line indexing an array behind a length check. *)
Definition guardedIndexDiff : string :=
  "diff --git a/x.js b/x.js" ++ nl ++
  "@@ -7,1 +7,2 @@" ++ nl ++
  "+if (a.length > 0) first = a[0];" ++ nl.

Definition guardedIndexFile : FileChange :=
  Eval vm_compute in hd emptyFile (parseDiff guardedIndexDiff).

Definition guardedIndexLine : LineChange :=
  mkLineChange addition 7 "if (a.length > 0) first = a[0];".

(** No recorded change holds a line feed. *)
Definition LineFeedFree (cs : list LineChange) : Prop :=
  Forall (fun c => hasChar LF (content c) = false) cs.

(** Proof steps for the issue lists of a detector: split the list into
    the blocks of the loop body, then settle the one issue of a block. *)
Ltac split_issue_blocks H :=
  repeat match type of H with
  | In _ (_ ++ _) => apply in_app_or in H; destruct H as [H|H]
  end.

Ltac one_issue H :=
  repeat match type of H with
  | context [if ?b then _ else _] => destruct b
  end;
  cbn [In] in H;
  match type of H with
  | False => contradiction
  | _ \/ False => destruct H as [<-|[]]; cbn [title plainIssue]; discriminate
  end.



(** A diff with two hunks, nine lines apart. *)
Definition farDiff : string :=
  "diff --git a/x.js b/x.js" ++ nl ++
  "@@ -1,0 +1,1 @@" ++ nl ++
  "+first();" ++ nl ++
  "@@ -9,0 +10,1 @@" ++ nl ++
  "+second();" ++ nl.

Definition farFile : FileChange :=
  Eval vm_compute in hd emptyFile (parseDiff farDiff).

(** Every code unit of [s] satisfies [p]. *)
Fixpoint allChars (p : ascii -> bool) (s : string) : bool :=
  match s with
  | EmptyString => true
  | String c s' => p c && allChars p s'
  end.

(** [s] is a non-empty string of decimal digits. *)
Definition isNumeral (s : string) : Prop :=
  allChars isDigit s = true /\ s <> EmptyString.

(** [s] is empty or a comma. *)
Definition isOptionalComma (s : string) : Prop := s = EmptyString \/ s = ",".

(** ** Further notions used to state properties *)

(** The concatenation of a list of strings. *)
Fixpoint concatAll (xs : list string) : string :=
  match xs with
  | [] => EmptyString
  | x :: rest => x ++ concatAll rest
  end.

(** The text before the first per-file separator: the piece that
    [.slice(1)] discards. *)
Definition preambleOf (diff : string) : string :=
  fst (splitOnDiffGit true 0 diff).

(** No line of [diff] starts with the separator: wherever the separator
    occurs, a code unit other than a line terminator comes before it. *)
Definition NoSeparatorAtLineStart (diff : string) : Prop :=
  forall pre post, diff = pre ++ "diff --git" ++ post ->
    exists pre' c, pre = pre' ++ String c EmptyString
                   /\ isLineTerminator c = false.

(** The change the line loop records for the header line of a block. *)
Definition headerChange (fc : FileChange) : LineChange :=
  mkLineChange context 0 ("a/" ++ oldFileName fc ++ " b/" ++ fileName fc).

Definition isAddition (c : LineChange) : bool := ChangeType_eqb (type c) addition.

(** The optional count of a hunk header side: nothing, or a comma and
    digits. *)
Definition isCountSuffix (s : string) : Prop :=
  s = EmptyString \/ exists d, s = "," ++ d /\ allChars isDigit d = true.

(** The counters are not negative, and neither is any recorded number. *)
Definition NonNegative (st : ParseState) : Prop :=
  0 <= currentLineOld st /\ 0 <= currentLineNew st
  /\ Forall (fun c => 0 <= lineNumber c) (st_changes st).

(** The numbers recorded on each side increase strictly and stay below
    the counter of that side, and above or at its start. *)
Definition Increasing (oldStart newStart : Z) (st : ParseState) : Prop :=
  let news := map lineNumber (filter isAddition (st_changes st)) in
  let olds := map lineNumber (filter (fun c => negb (isAddition c)) (st_changes st)) in
  StronglySorted Z.lt news /\ Forall (fun x => newStart <= x < currentLineNew st) news
  /\ StronglySorted Z.lt olds /\ Forall (fun x => oldStart <= x < currentLineOld st) olds
  /\ oldStart <= currentLineOld st /\ newStart <= currentLineNew st.

(** [r] is empty or starts with a code unit outside [p]. *)
Definition stopsAt (p : ascii -> bool) (r : string) : bool :=
  match r with
  | EmptyString => true
  | String c _ => negb (p c)
  end.

(** A hunk header line with the given starts, optional counts and
    trailing text. *)
Definition hunkHeaderLine (o k1 n k2 rest : string) : string :=
  "@@ -" ++ o ++ k1 ++ " +" ++ n ++ k2 ++ " @@" ++ rest.

Definition isDeletion (c : LineChange) : bool := ChangeType_eqb (type c) deletion.

(** The sum of [f] over a list. *)
Definition sumBy {A : Type} (f : A -> Z) (l : list A) : Z :=
  fold_right (fun x acc => f x + acc) 0 l.

(** The summary of a review that found nothing in no file. *)
Definition emptySummary : string :=
  "This code review analyzed 0 files with 0 additions and 0 deletions."
  ++ nl ++ nl ++ checkMark
  ++ " **Excellent work!** No significant issues were found.".

(** ** The rules the detectors implement *)

(** The files a rule looks at: any file, files with extension [.js] or
    [.ts], or files with extension [.js], [.ts], [.jsx] or [.tsx]. *)
Inductive RuleScope := AnyFile | ScriptFile | DocumentedFile.

Definition inScope (scope : RuleScope) (fileExt : string) : bool :=
  match scope with
  | AnyFile => true
  | ScriptFile => String.eqb fileExt ".js" || String.eqb fileExt ".ts"
  | DocumentedFile =>
      String.eqb fileExt ".js" || String.eqb fileExt ".ts"
      || String.eqb fileExt ".jsx" || String.eqb fileExt ".tsx"
  end.

(** Severity, title and scope of each rule, in the order in which the
    detectors run. *)
Definition ruleTable : list (Severity * string * RuleScope) :=
  [ (minor, "Long line detected", AnyFile);
    (info, "TODO/FIXME comment found", AnyFile);
    (critical, "Potential hardcoded secret", AnyFile);
    (minor, "Use strict equality", ScriptFile);
    (major, "Potential null/undefined access", AnyFile);
    (minor, "Array access without bounds check", AnyFile);
    (major, "Potential infinite loop", AnyFile);
    (major, "Assignment in conditional", AnyFile);
    (minor, "Potentially unreachable code", AnyFile);
    (minor, "Potential type coercion", ScriptFile);
    (minor, "Missing JSDoc documentation", DocumentedFile);
    (minor, "Missing class JSDoc", DocumentedFile);
    (minor, "Incomplete JSDoc", DocumentedFile);
    (minor, "Inefficient loop condition", AnyFile);
    (minor, "Nested loop detected", AnyFile);
    (major, "Synchronous file operation", AnyFile);
    (minor, "Inefficient string concatenation", ScriptFile);
    (info, "Consider memoization", AnyFile) ].

(** An issue of file [fc] that instantiates a rule of the table at an
    added line of the file. *)
Definition FollowsRule (fc : FileChange) (i : ReviewIssue) : Prop :=
  exists l scope,
    In l (addedLinesOf fc)
    /\ file i = fileName fc
    /\ line i = Some (lineNumber l)
    /\ In (severity i, title i, scope) ruleTable
    /\ inScope scope (getFileExtension (fileName fc)) = true.

(** Proof steps: pick the entry of the rule table, and settle an issue
    list that holds at most one issue. *)
Ltac in_table := cbn [In ruleTable]; repeat (first [left; reflexivity | right]).

Ltac rule_instance l scope :=
  exists l, scope; split; [assumption|];
  split; [reflexivity|]; split; [reflexivity|]; split; [in_table|].

(** The one issue the detectors emit for [guardedIndexFile]. *)
Definition guardedIndexIssue : ReviewIssue :=
  plainIssue minor unboundedAccessTitle
    "Direct array indexing without length validation" "x.js" 7
    "Check array length before accessing elements"
    ">   7+ if (a.length > 0) first = a[0];".

(** A diff that only removes a line. *)
Definition removalDiff : string :=
  "diff --git a/x.js b/x.js" ++ nl ++
  "@@ -3,1 +3,0 @@" ++ nl ++
  "-const password = 'abc';" ++ nl.

Definition removalFile : FileChange :=
  Eval vm_compute in hd emptyFile (parseDiff removalDiff).

Definition secretTitle : string := "Potential hardcoded secret".

(** The text [getCodeContext] returns when no change carries the number. *)
Definition notFoundText (targetLineNumber : Z) : string :=
  "// Line " ++ numberToString targetLineNumber ++ " not found in changes".

Definition notQuote (c : ascii) : bool := negb (isQuote c).

(** Code units a parameter name taken from a declaration never holds. *)
Definition nameChar (c : ascii) : bool :=
  negb (isWhiteSpace c) && negb (Ascii.eqb c "=" || Ascii.eqb c ":").

(** ** The template store ([ReviewPromptManager], [review-prompts.ts])

    [templates] is a plain object used as a map from names to prompt
    texts.  Its own properties are an association list; a name that is
    not an own property is looked up on [Object.prototype], whose members
    are not strings. *)

Definition Templates := list (string * string).

(** What [this.templates[name]] evaluates to. *)
Inductive TemplateValue :=
| Text (s : string)
| Inherited
| Undefined.

Definition objectPrototypeKeys : list string :=
  [ "constructor"; "__defineGetter__"; "__defineSetter__"; "hasOwnProperty";
    "__lookupGetter__"; "__lookupSetter__"; "isPrototypeOf";
    "propertyIsEnumerable"; "toString"; "valueOf"; "__proto__";
    "toLocaleString" ].

Definition isInheritedKey (name : string) : bool :=
  existsb (String.eqb name) objectPrototypeKeys.

Fixpoint ownGet (t : Templates) (name : string) : option string :=
  match t with
  | [] => None
  | (k, v) :: rest => if String.eqb k name then Some v else ownGet rest name
  end.

(** Writing an own property: in place when it exists, at the end
    otherwise. *)
Fixpoint ownSet (t : Templates) (name v : string) : Templates :=
  match t with
  | [] => [(name, v)]
  | (k, w) :: rest =>
      if String.eqb k name then (k, v) :: rest else (k, w) :: ownSet rest name v
  end.

(** [delete this.templates[name]] *)
Fixpoint ownDelete (t : Templates) (name : string) : Templates :=
  match t with
  | [] => []
  | (k, w) :: rest =>
      if String.eqb k name then ownDelete rest name else (k, w) :: ownDelete rest name
  end.

(** [this.templates[name]] *)
Definition lookup (t : Templates) (name : string) : TemplateValue :=
  match ownGet t name with
  | Some v => Text v
  | None => if isInheritedKey name then Inherited else Undefined
  end.

(** [this.templates[name] = prompt]: assigning a string to [__proto__]
    goes to the setter of [Object.prototype], which ignores it. *)
Definition assign (t : Templates) (name prompt : string) : Templates :=
  if String.eqb name "__proto__" then t else ownSet t name prompt.

(** Truthiness of a looked-up value. *)
Definition truthy (v : TemplateValue) : bool :=
  match v with
  | Text s => negb (String.eqb s EmptyString)
  | Inherited => true
  | Undefined => false
  end.

Definition getTemplate (t : Templates) (name : string) : TemplateValue :=
  if truthy (lookup t name) then lookup t name else lookup t "comprehensive".

Definition addTemplate (t : Templates) (name prompt : string) : Templates :=
  assign t name prompt.

(** The store after the call, and the value returned. *)
Definition removeTemplate (t : Templates) (name : string) : Templates * bool :=
  if truthy (lookup t name) then (ownDelete t name, true) else (t, false).

Definition updateTemplate (t : Templates) (name prompt : string) : Templates * bool :=
  if truthy (lookup t name) then (assign t name prompt, true) else (t, false).

(** A small store for examples. *)
Definition twoTemplates : Templates :=
  [("comprehensive", "Review everything."); ("security", "Review security.")].

(** [s] is a non-empty run of word characters. *)
Definition isWord (s : string) : Prop :=
  allChars isWordChar s = true /\ s <> EmptyString.

(** [s] ends with a line terminator. *)
Fixpoint endsLine (s : string) : bool :=
  match s with
  | EmptyString => false
  | String c EmptyString => isLineTerminator c
  | String _ s' => endsLine s'
  end.

(** Nothing, or text made of whole lines. *)
Definition wholeLines (s : string) : bool :=
  match s with
  | EmptyString => true
  | _ => endsLine s
  end.

(** The text of [sampleDiff] after its separator, and the first four
    lines of the body of its hunk. *)
Definition sampleBlock : string := drop 10 sampleDiff.

Definition sampleBody : list string :=
  [" const a = 1;"; "-const b = 2;"; "+const b = 3;"; "+const c = 4;"].

(** A diff that removes two lines, the first of which is three dashes. *)
Definition dashesDiff : string :=
  "diff --git a/notes.md b/notes.md" ++ nl ++
  "@@ -5,2 +5,0 @@" ++ nl ++
  "----" ++ nl ++
  "-x" ++ nl.

Definition dashesFile : FileChange :=
  Eval vm_compute in hd emptyFile (parseDiff dashesDiff).

(** The first line of a block names two paths: it is
    [ a/<old-path> b/<new-path>], with no line terminator in what
    follows [ a/]. *)
Definition NamesTwoPaths (firstLine : string) : Prop :=
  exists old new,
    firstLine = " a/" ++ old ++ " b/" ++ new
    /\ allChars (fun c => negb (isLineTerminator c)) (old ++ " b/" ++ new) = true.

(** The section that git writes for a changed binary file. *)
Definition binaryDiff : string :=
  "diff --git a/logo.png b/logo.png" ++ nl ++
  "index 1111111..2222222 100644" ++ nl ++
  "Binary files a/logo.png and b/logo.png differ" ++ nl.





(** * Properties *)

Open Scope list_scope.

(** ** Counting *)

Lemma countIf_app {A : Type} (p : A -> bool) (l1 l2 : list A) :
  countIf p (l1 ++ l2) = countIf p l1 + countIf p l2.
Proof.
  unfold countIf. rewrite filter_app, length_app. lia.
Qed.

Lemma countIf_nil {A : Type} (p : A -> bool) : countIf p [] = 0.
Proof. reflexivity. Qed.

Lemma countIf_single {A : Type} (p : A -> bool) (x : A) :
  countIf p [x] = if p x then 1 else 0.
Proof. unfold countIf; simpl. destruct (p x); reflexivity. Qed.

Lemma countIf_nonneg {A : Type} (p : A -> bool) (l : list A) : 0 <= countIf p l.
Proof. unfold countIf. lia. Qed.

(** ** The line loop, by kind of line *)

Lemma parseLine_by_kind (st : ParseState) (line : string) :
  parseLine st line =
  match lineKind line with
  | HunkHeaderLine =>
      match matchHunkHeader line with
      | Some (o, n) =>
          mkParseState (st_additions st) (st_deletions st) (st_changes st)
                       (parseInt o) (parseInt n)
      | None => st
      end
  | AdditionLine =>
      mkParseState (st_additions st + 1) (st_deletions st)
        (st_changes st ++ [mkLineChange addition (currentLineNew st) (substring1 line)])
        (currentLineOld st) (currentLineNew st + 1)
  | DeletionLine =>
      mkParseState (st_additions st) (st_deletions st + 1)
        (st_changes st ++ [mkLineChange deletion (currentLineOld st) (substring1 line)])
        (currentLineOld st + 1) (currentLineNew st)
  | ContextLine =>
      mkParseState (st_additions st) (st_deletions st)
        (st_changes st ++ [mkLineChange context (currentLineOld st)
                             (if startsWith line " " then substring1 line else line)])
        (currentLineOld st + 1) (currentLineNew st + 1)
  | SkippedLine => st
  end.
Proof.
  unfold parseLine, lineKind.
  destruct (startsWith line "@@"); [reflexivity|].
  destruct (startsWith line "+" && negb (startsWith line "+++")); [reflexivity|].
  destruct (startsWith line "-" && negb (startsWith line "---")); [reflexivity|].
  match goal with |- context [if ?b then _ else _] => destruct b end; reflexivity.
Qed.

Lemma parseLines_app (st : ParseState) (l1 l2 : list string) :
  parseLines st (l1 ++ l2) = parseLines (parseLines st l1) l2.
Proof. unfold parseLines. apply fold_left_app. Qed.

Lemma parseLines_cons (st : ParseState) (l : string) (ls : list string) :
  parseLines st (l :: ls) = parseLines (parseLine st l) ls.
Proof. reflexivity. Qed.

Lemma parseLine_counts (st : ParseState) (line : string) :
  CountsAgree st -> CountsAgree (parseLine st line).
Proof.
  intros [Ha Hd]. rewrite parseLine_by_kind.
  destruct (lineKind line); unfold CountsAgree, countType in *; simpl.
  - destruct (matchHunkHeader line) as [[o n]|]; simpl; auto.
  - rewrite !countIf_app, !countIf_single; simpl. lia.
  - rewrite !countIf_app, !countIf_single; simpl. lia.
  - rewrite !countIf_app, !countIf_single; simpl. lia.
  - auto.
Qed.

Lemma parseLines_counts (lines : list string) (st : ParseState) :
  CountsAgree st -> CountsAgree (parseLines st lines).
Proof.
  revert st. induction lines as [|l ls IH]; intros st H; [exact H|].
  rewrite parseLines_cons. apply IH, parseLine_counts, H.
Qed.

(** Every file the parser returns was built by [parseHunk] from a block
    whose header parsed. *)
Lemma parseHunk_files (P : FileChange -> Prop) (hunk : string)
    (files : list FileChange) :
  Forall P files ->
  (forall old new, fileMatch (headerOf hunk) = Some (old, new) ->
     P (mkFileChange new old
          (existsb (fun l => startsWith l "deleted file mode") (splitLines hunk))
          (existsb (fun l => startsWith l "new file mode") (splitLines hunk))
          (st_additions (parseLines initialState (splitLines hunk)))
          (st_deletions (parseLines initialState (splitLines hunk)))
          (st_changes (parseLines initialState (splitLines hunk)))
          ("diff --git" ++ hunk))) ->
  Forall P (parseHunk files hunk).
Proof.
  intros HF HP. unfold parseHunk. fold (headerOf hunk).
  destruct (fileMatch (headerOf hunk)) as [[old new]|]; auto.
  apply Forall_app; split; auto.
Qed.

Lemma parseDiff_files (P : FileChange -> Prop) (diff : string) :
  (forall hunk old new, fileMatch (headerOf hunk) = Some (old, new) ->
     P (mkFileChange new old
          (existsb (fun l => startsWith l "deleted file mode") (splitLines hunk))
          (existsb (fun l => startsWith l "new file mode") (splitLines hunk))
          (st_additions (parseLines initialState (splitLines hunk)))
          (st_deletions (parseLines initialState (splitLines hunk)))
          (st_changes (parseLines initialState (splitLines hunk)))
          ("diff --git" ++ hunk))) ->
  Forall P (parseDiff diff).
Proof.
  intros HP. unfold parseDiff.
  assert (G : forall hs files, Forall P files -> Forall P (fold_left parseHunk hs files)).
  { induction hs as [|h hs IH]; intros files HF; simpl; auto.
    apply IH, parseHunk_files; auto. }
  apply G. constructor.
Qed.

(** The changes of a parsed file are what the line loop records over the
    lines of its block. *)
Lemma parseDiff_changes (diff : string) (fc : FileChange) :
  In fc (parseDiff diff) ->
  exists hunk, changes fc = st_changes (parseLines initialState (splitLines hunk)).
Proof.
  intros Hin.
  pose proof (parseDiff_files
    (fun f => exists hunk,
       changes f = st_changes (parseLines initialState (splitLines hunk))) diff) as H.
  rewrite Forall_forall in H. apply H; [|exact Hin].
  intros hunk old new _. exists hunk. reflexivity.
Qed.

(** C3. For every file the parser returns from any diff text, the field
    [additions] is the number of recorded changes of type [addition] and
    the field [deletions] the number of recorded changes of type
    [deletion]. *)
Theorem C3_counts_match_changes (diff : string) (fc : FileChange) :
  In fc (parseDiff diff) ->
  additions fc = countType addition (changes fc)
  /\ deletions fc = countType deletion (changes fc).
Proof.
  intros Hin.
  pose proof (parseDiff_files
    (fun f => additions f = countType addition (changes f)
              /\ deletions f = countType deletion (changes f)) diff) as H.
  rewrite Forall_forall in H. apply H; auto.
  intros hunk old new _. simpl.
  apply (parseLines_counts (splitLines hunk) initialState).
  split; reflexivity.
Qed.

Lemma C3_counts_match_changes_witness :
  In sampleFile (parseDiff sampleDiff)
  /\ additions sampleFile = countType addition (changes sampleFile)
  /\ deletions sampleFile = countType deletion (changes sampleFile).
Proof.
  assert (Hin : In sampleFile (parseDiff sampleDiff))
    by (vm_compute; left; reflexivity).
  split; [exact Hin|].
  exact (C3_counts_match_changes sampleDiff sampleFile Hin).
Defined.

(** ** Line numbers within a hunk *)

(** The parser only ever appends to the recorded changes. *)
Lemma parseLine_extends (st : ParseState) (line : string) :
  exists rest, st_changes (parseLine st line) = st_changes st ++ rest.
Proof.
  rewrite parseLine_by_kind. destruct (lineKind line); simpl.
  - destruct (matchHunkHeader line) as [[o n]|]; exists []; simpl;
      now rewrite app_nil_r.
  - eexists; reflexivity.
  - eexists; reflexivity.
  - eexists; reflexivity.
  - exists []; now rewrite app_nil_r.
Qed.

Lemma parseLines_extends (lines : list string) (st : ParseState) :
  exists rest, st_changes (parseLines st lines) = st_changes st ++ rest.
Proof.
  revert st. induction lines as [|l ls IH]; intros st.
  - exists []. simpl. now rewrite app_nil_r.
  - rewrite parseLines_cons.
    destruct (IH (parseLine st l)) as [r1 H1].
    destruct (parseLine_extends st l) as [r2 H2].
    exists (r2 ++ r1). rewrite H1, H2. now rewrite app_assoc.
Qed.

(** ** Hunk bodies in the unified diff format *)

Lemma prefix_empty (s : string) : String.prefix EmptyString s = true.
Proof. destruct s; reflexivity. Qed.

Lemma startsWith_head (c a : ascii) (s p : string) :
  startsWith (String c s) (String a p) = true -> a = c.
Proof.
  unfold startsWith. simpl. destruct (ascii_dec a c); [auto | discriminate].
Qed.

Lemma trimEnd_nonblank (c : ascii) (s : string) :
  isWhiteSpace c = false -> trimEnd (String c s) <> EmptyString.
Proof.
  intros H. simpl. destruct (trimEnd s); [rewrite H|]; discriminate.
Qed.

(** A blank line is empty or starts with a white-space code unit. *)
Lemma isBlank_head (c : ascii) (s : string) :
  isBlank (String c s) = true -> isWhiteSpace c = true.
Proof.
  unfold isBlank, trim. intros H.
  destruct (isWhiteSpace c) eqn:E; [reflexivity|].
  simpl trimStart in H. rewrite E in H.
  apply String.eqb_eq in H. now apply trimEnd_nonblank in H.
Qed.

Lemma isBlank_not_startsWith (line : string) (a : ascii) (p : string) :
  isBlank line = true -> isWhiteSpace a = false ->
  startsWith line (String a p) = false.
Proof.
  intros Hb Ha. destruct line as [|c s]; [reflexivity|].
  destruct (startsWith (String c s) (String a p)) eqn:E; [|reflexivity].
  apply startsWith_head in E. subst a.
  apply isBlank_head in Hb. congruence.
Qed.

Lemma isBlank_kind (line : string) :
  isBlank line = true -> lineKind line = SkippedLine.
Proof.
  intros Hb. unfold lineKind.
  rewrite (isBlank_not_startsWith line "@" "@" Hb eq_refl).
  rewrite (isBlank_not_startsWith line "+" EmptyString Hb eq_refl).
  rewrite (isBlank_not_startsWith line "-" EmptyString Hb eq_refl).
  unfold isBlank in Hb. rewrite Hb. simpl.
  rewrite !andb_false_r. reflexivity.
Qed.

Lemma noHunkHeader_kind (line : string) :
  noHunkHeader line -> lineKind line <> HunkHeaderLine.
Proof.
  unfold noHunkHeader, lineKind. intros ->.
  repeat match goal with |- context [if ?b then _ else _] => destruct b end;
    discriminate.
Qed.

Lemma countIf_cons {A : Type} (p : A -> bool) (x : A) (l : list A) :
  countIf p (x :: l) = (if p x then 1 else 0) + countIf p l.
Proof.
  change (x :: l) with ([x] ++ l). now rewrite countIf_app, countIf_single.
Qed.

Lemma snoc_not_self {A : Type} (l : list A) (x : A) : l <> l ++ [x].
Proof.
  intros H. apply (f_equal (@List.length A)) in H.
  rewrite length_app in H. simpl in H. lia.
Qed.

Lemma snoc_inj {A : Type} (l : list A) (x y : A) : l ++ [x] = l ++ [y] -> x = y.
Proof. intros H. apply app_inv_head in H. now injection H. Qed.

(** The first code unit of a line of a hunk body that is not blank. *)
Lemma diffBodyLine_head (line : string) :
  diffBodyLine line = true -> isBlank line = false ->
  exists c s, line = String c s
    /\ (c = " "%char \/ c = "+"%char \/ c = "-"%char \/ c = "\"%char).
Proof.
  unfold diffBodyLine. intros H B. rewrite B in H. cbn [orb] in H.
  destruct line as [|c s]; [discriminate H|]. exists c, s. split; [reflexivity|].
  repeat (apply orb_true_iff in H; destruct H as [H|H]);
    apply startsWith_head in H; auto.
Qed.

(** How the line loop treats a line of a hunk body: it skips a blank
    line, a line starting with [+++] or [---] and the backslash marker,
    and records every other line as the change the format says. *)
Lemma diffBodyLine_kind (line : string) :
  diffBodyLine line = true ->
  lineKind line =
    if isBlank line || startsWith line "+++" || startsWith line "---"
    then SkippedLine
    else match changeTypeOf line with
         | Some addition => AdditionLine
         | Some deletion => DeletionLine
         | Some context => ContextLine
         | None => SkippedLine
         end.
Proof.
  intros H. destruct (isBlank line) eqn:B; [now apply isBlank_kind|].
  destruct (diffBodyLine_head line H B) as (c & s & -> & E).
  unfold lineKind. fold (isBlank (String c s)). rewrite B.
  destruct E as [E|[E|[E|E]]]; subst c; cbn; rewrite ?prefix_empty.
  - reflexivity.
  - destruct (String.prefix "++" s); reflexivity.
  - destruct (String.prefix "--" s); reflexivity.
  - reflexivity.
Qed.

(** Which file a line of a hunk body belongs to, by the change it stands
    for. *)
Lemma diffBodyLine_files (line : string) :
  diffBodyLine line = true -> isBlank line = false ->
  inOldFile line = match changeTypeOf line with
                   | Some deletion | Some context => true
                   | _ => false
                   end
  /\ inNewFile line = match changeTypeOf line with
                      | Some addition | Some context => true
                      | _ => false
                      end.
Proof.
  intros H B. destruct (diffBodyLine_head line H B) as (c & s & -> & E).
  unfold inOldFile, inNewFile. rewrite B.
  destruct E as [E|[E|[E|E]]]; subst c; cbn; rewrite ?prefix_empty;
    split; reflexivity.
Qed.

(** The step of the line loop on a line that it does not skip, or on the
    backslash marker. *)
Lemma parseLine_plainBodyLine (st : ParseState) (line : string) :
  plainBodyLine line = true ->
  parseLine st line =
    match changeTypeOf line with
    | Some addition =>
        mkParseState (st_additions st + 1) (st_deletions st)
          (st_changes st ++ [mkLineChange addition (currentLineNew st) (substring1 line)])
          (currentLineOld st) (currentLineNew st + 1)
    | Some deletion =>
        mkParseState (st_additions st) (st_deletions st + 1)
          (st_changes st ++ [mkLineChange deletion (currentLineOld st) (substring1 line)])
          (currentLineOld st + 1) (currentLineNew st)
    | Some context =>
        mkParseState (st_additions st) (st_deletions st)
          (st_changes st ++ [mkLineChange context (currentLineOld st) (substring1 line)])
          (currentLineOld st + 1) (currentLineNew st + 1)
    | None => st
    end.
Proof.
  unfold plainBodyLine. intros H.
  apply andb_true_iff in H. destruct H as [H H4].
  apply andb_true_iff in H. destruct H as [H H3].
  apply andb_true_iff in H. destruct H as [Hd Hb].
  apply negb_true_iff in Hb, H3, H4.
  rewrite parseLine_by_kind, (diffBodyLine_kind line Hd), Hb, H3, H4.
  cbn [orb].
  destruct (diffBodyLine_head line Hd Hb) as (c & s & -> & E).
  destruct E as [E|[E|[E|E]]]; subst c; cbn [changeTypeOf]; try reflexivity.
  unfold startsWith. cbn [String.prefix]. rewrite prefix_empty.
  destruct (ascii_dec " " " ") as [_|N]; [reflexivity | now elim N].
Qed.

Lemma lineNumberInFile_app (o n : Z) (l1 l2 : list string) (i : nat)
    (t : ChangeType) :
  (i <= List.length l1)%nat ->
  lineNumberInFile o n (l1 ++ l2) i t = lineNumberInFile o n l1 i t.
Proof.
  intros H. unfold lineNumberInFile. rewrite firstn_app.
  replace (i - List.length l1)%nat with 0%nat by lia.
  cbn [firstn]. now rewrite app_nil_r.
Qed.

(** Over a hunk body without skipped lines, the line loop records one
    change per line that stands for one, numbered by the position of the
    line in its file. *)
Lemma parseLines_plainBody (o n : Z) (body : list string) (a d : Z)
    (cs0 : list LineChange) :
  Forall (fun b => plainBodyLine b = true) body ->
  exists hc a' d',
    parseLines (mkParseState a d cs0 o n) body
    = mkParseState a' d' (cs0 ++ hc)
        (o + countIf inOldFile body) (n + countIf inNewFile body)
    /\ List.length hc = List.length (filter isChangeLine body)
    /\ forall i line t,
         nth_error body i = Some line -> changeTypeOf line = Some t ->
         nth_error hc (List.length (filter isChangeLine (firstn i body)))
         = Some (mkLineChange t (lineNumberInFile o n body i t) (substring1 line)).
Proof.
  induction body as [|l done IH] using rev_ind; intros HF.
  - exists [], a, d. cbn [parseLines fold_left]. rewrite !countIf_nil, app_nil_r, !Z.add_0_r.
    split; [reflexivity|]. split; [reflexivity|].
    intros i line t Hi. destruct i; discriminate.
  - apply Forall_app in HF. destruct HF as [HF Hl].
    inversion Hl as [|? ? Hp _]; subst.
    destruct (IH HF) as (hc & a' & d' & E & Hlen & Hnth).
    assert (Hb : isBlank l = false /\ diffBodyLine l = true).
    { unfold plainBodyLine in Hp.
      apply andb_true_iff in Hp. destruct Hp as [Hp _].
      apply andb_true_iff in Hp. destruct Hp as [Hp _].
      apply andb_true_iff in Hp. destruct Hp as [Hd Hb].
      apply negb_true_iff in Hb. auto. }
    destruct Hb as [Hb Hd].
    destruct (diffBodyLine_files l Hd Hb) as [Ho Hn].
    (* the changes recorded so far, extended by what [l] stands for *)
    set (new := match changeTypeOf l with
                | Some t => [mkLineChange t (lineNumberInFile o n (done ++ [l])
                                               (List.length done) t) (substring1 l)]
                | None => []
                end).
    assert (Hpos : forall t, lineNumberInFile o n (done ++ [l]) (List.length done) t
                   = match t with
                     | addition => n + countIf inNewFile done
                     | deletion | context => o + countIf inOldFile done
                     end).
    { intros t. unfold lineNumberInFile.
      rewrite firstn_app, Nat.sub_diag, firstn_all. cbn [firstn].
      now rewrite app_nil_r. }
    assert (Hstep : exists a'' d'',
              parseLines (mkParseState a d cs0 o n) (done ++ [l])
              = mkParseState a'' d'' (cs0 ++ hc ++ new)
                  (o + countIf inOldFile (done ++ [l]))
                  (n + countIf inNewFile (done ++ [l]))).
    { rewrite parseLines_app, E. cbn [parseLines fold_left].
      rewrite (parseLine_plainBodyLine _ l Hp).
      rewrite !countIf_app, !countIf_single, Ho, Hn.
      subst new. destruct (changeTypeOf l) as [[| |]|];
        rewrite ?Hpos; cbn [st_additions st_deletions st_changes
                            currentLineOld currentLineNew];
        do 2 eexists; rewrite ?app_nil_r, ?app_assoc;
        (f_equal; lia). }
    destruct Hstep as (a'' & d'' & Hstep).
    exists (hc ++ new), a'', d''. split; [exact Hstep|].
    assert (Hnew : List.length new = List.length (filter isChangeLine [l])).
    { subst new. cbn [filter]. unfold isChangeLine.
      destruct (changeTypeOf l); reflexivity. }
    split.
    + rewrite filter_app, !length_app. lia.
    + intros i line t Hi Ht.
      destruct (Nat.lt_ge_cases i (List.length done)) as [Hlt|Hge].
      * rewrite nth_error_app1 in Hi by exact Hlt.
        rewrite lineNumberInFile_app by lia.
        rewrite firstn_app.
        replace (i - List.length done)%nat with 0%nat by lia.
        cbn [firstn]. rewrite app_nil_r.
        pose proof (Hnth i line t Hi Ht) as Hk.
        rewrite nth_error_app1; [exact Hk|].
        apply nth_error_Some. congruence.
      * rewrite nth_error_app2 in Hi by exact Hge.
        destruct (i - List.length done)%nat as [|k] eqn:Ek;
          [|destruct k; discriminate].
        cbn [nth_error] in Hi. injection Hi as <-.
        assert (i = List.length done) by lia. subst i.
        rewrite firstn_app, Nat.sub_diag, firstn_all. cbn [firstn].
        rewrite app_nil_r, <- Hlen, nth_error_app2 by lia.
        rewrite Nat.sub_diag. subst new. rewrite Ht. reflexivity.
Qed.

Lemma parseLine_header (st : ParseState) (hdr o n : string) :
  startsWith hdr "@@" = true -> matchHunkHeader hdr = Some (o, n) ->
  parseLine st hdr =
  mkParseState (st_additions st) (st_deletions st) (st_changes st)
               (parseInt o) (parseInt n).
Proof.
  intros H1 H2. unfold parseLine. rewrite H1, H2. reflexivity.
Qed.

(** The changes of a parsed file are what the line loop records over the
    lines of the text that follows the separator in its [rawDiff]. *)
Lemma parseDiff_block (diff : string) (fc : FileChange) (block : string) :
  In fc (parseDiff diff) ->
  rawDiff fc = ("diff --git" ++ block)%string ->
  changes fc = st_changes (parseLines initialState (splitLines block)).
Proof.
  intros Hin.
  pose proof (parseDiff_files
    (fun f => forall b, rawDiff f = ("diff --git" ++ b)%string ->
       changes f = st_changes (parseLines initialState (splitLines b))) diff) as H.
  rewrite Forall_forall in H. revert block. apply H; [|exact Hin].
  intros hunk old new _ b Hb. cbn [rawDiff changes] in *.
  assert (hunk = b) by (cbn in Hb; congruence). now subst b.
Qed.

(** C1 (as the code has it). In every parsed file, a hunk header that
    parses numbers the lines of its hunk from the offsets it declares,
    whatever came before it.  For a hunk body in the unified diff format
    of which the loop skips no line (none is blank, none starts with
    [+++] or [---]) and whose numbers stay within the safe integers, the
    file's changes hold one change per body line other than the
    backslash marker, in order, with the line's text after its first code
    unit as content: an added line is an addition carrying the line's
    number in the new file; a removed line is a deletion and a context
    line a context change, both carrying the line's number in the old
    file. *)
Theorem C1_hunk_line_numbers
    (diff : string) (fc : FileChange) (block : string)
    (pre : list string) (hdr o n : string) (body post : list string) :
  In fc (parseDiff diff) ->
  rawDiff fc = ("diff --git" ++ block)%string ->
  splitLines block = pre ++ hdr :: body ++ post ->
  startsWith hdr "@@" = true ->
  matchHunkHeader hdr = Some (o, n) ->
  Forall (fun b => plainBodyLine b = true) body ->
  parseInt o + Z.of_nat (List.length body) <= MAX_SAFE_INTEGER ->
  parseInt n + Z.of_nat (List.length body) <= MAX_SAFE_INTEGER ->
  exists hunkChanges rest,
    changes fc = st_changes (parseLines initialState pre) ++ hunkChanges ++ rest
    /\ List.length hunkChanges = List.length (filter isChangeLine body)
    /\ forall i line t,
         nth_error body i = Some line -> changeTypeOf line = Some t ->
         nth_error hunkChanges (List.length (filter isChangeLine (firstn i body)))
         = Some (mkLineChange t
                   (lineNumberInFile (parseInt o) (parseInt n) body i t)
                   (substring1 line)).
Proof.
  intros Hin Hraw Hlines H1 H2 HF _ _.
  rewrite (parseDiff_block diff fc block Hin Hraw), Hlines.
  rewrite parseLines_app, parseLines_cons.
  rewrite (parseLine_header _ hdr o n H1 H2).
  set (st0 := parseLines initialState pre).
  rewrite parseLines_app.
  destruct (parseLines_plainBody (parseInt o) (parseInt n) body
              (st_additions st0) (st_deletions st0) (st_changes st0) HF)
    as (hc & a' & d' & E & Hlen & Hnth).
  rewrite E.
  destruct (parseLines_extends post
              (mkParseState a' d' (st_changes st0 ++ hc)
                 (parseInt o + countIf inOldFile body)
                 (parseInt n + countIf inNewFile body))) as [rest Hrest].
  exists hc, rest. split; [|split; assumption].
  rewrite Hrest. cbn [st_changes]. now rewrite app_assoc.
Qed.

Lemma C1_hunk_line_numbers_witness :
  exists hunkChanges rest,
    changes sampleFile
    = st_changes (parseLines initialState
        [" a/src/a.ts b/src/a.ts"; "index 1111111..2222222 100644";
         "--- a/src/a.ts"; "+++ b/src/a.ts"])
      ++ hunkChanges ++ rest
    /\ List.length hunkChanges = List.length (filter isChangeLine sampleBody)
    /\ forall i line t,
         nth_error sampleBody i = Some line -> changeTypeOf line = Some t ->
         nth_error hunkChanges
           (List.length (filter isChangeLine (firstn i sampleBody)))
         = Some (mkLineChange t
                   (lineNumberInFile (parseInt "10") (parseInt "20") sampleBody i t)
                   (substring1 line)).
Proof.
  apply (C1_hunk_line_numbers sampleDiff sampleFile sampleBlock
           [" a/src/a.ts b/src/a.ts"; "index 1111111..2222222 100644";
            "--- a/src/a.ts"; "+++ b/src/a.ts"]
           "@@ -10,4 +20,5 @@ function f() {" "10" "20"
           sampleBody [" "; " return a;"; EmptyString]).
  - vm_compute. left. reflexivity.
  - reflexivity.
  - reflexivity.
  - reflexivity.
  - reflexivity.
  - repeat constructor.
  - vm_compute. discriminate.
  - vm_compute. discriminate.
Defined.

(** C1 (as the data model words it) fails.  A context line of a hunk
    whose sides start at 10 and 20 is recorded with the old-file number
    10, where the data model asks for the new-file number 20.  And where
    the loop skips a line of the hunk, later numbers fall behind: the
    context line after the blank line of the sample is line 13 of the old
    file and is recorded as line 12; the line removed after a removed
    line of three dashes is line 6 of the old file and is recorded as
    line 5.  Outside the hunks, the first line of the block is recorded
    as a context change numbered 0, which is the number of no line. *)
Lemma C1_context_number_counterexample :
  (exists fc,
     In fc (parseDiff shiftedDiff)
     /\ nth_error (changes fc) 1 = Some shiftedContext
     /\ nth_error (hunkChangesOf 10 20 [" const a = 1;"]) 0 = Some shiftedContext
     /\ lineNumber shiftedContext = 10
     /\ numberInHunkPerDataModel 10 20
          (hunkChangesOf 10 20 [" const a = 1;"]) 0 shiftedContext = 20)
  /\ lineNumberInFile 10 20 [" const a = 1;"] 0 context = 10
  /\ lineNumberPerDataModel 10 20 [" const a = 1;"] 0 context = 20
  /\ In sampleFile (parseDiff sampleDiff)
  /\ nth_error (sampleBody ++ [" "; " return a;"]) 5 = Some " return a;"
  /\ lineNumberInFile 10 20 (sampleBody ++ [" "; " return a;"]) 5 context = 13
  /\ nth_error (changes sampleFile) 5 = Some (mkLineChange context 12 "return a;")
  /\ In dashesFile (parseDiff dashesDiff)
  /\ lineNumberInFile 5 5 ["----"; "-x"] 1 deletion = 6
  /\ nth_error (changes dashesFile) 1 = Some (mkLineChange deletion 5 "x")
  /\ nth_error (changes sampleFile) 0
     = Some (mkLineChange context 0 "a/src/a.ts b/src/a.ts").
Proof.
  split.
  - eexists. split; [vm_compute; left; reflexivity|]. repeat split.
  - split; [reflexivity|]. split; [reflexivity|].
    split; [vm_compute; left; reflexivity|].
    split; [reflexivity|]. split; [reflexivity|]. split; [reflexivity|].
    split; [vm_compute; left; reflexivity|].
    split; [reflexivity|]. split; reflexivity.
Qed.

(** ** Skipped lines *)

(** A line that is blank or starts with [+++] or [---] leaves the state
    of the line loop as it is. *)
Lemma parseLine_skips (st : ParseState) (b : string) :
  isBlank b = true \/ startsWith b "+++" = true \/ startsWith b "---" = true ->
  parseLine st b = st.
Proof.
  intros H. rewrite parseLine_by_kind.
  destruct H as [H|H]; [now rewrite (isBlank_kind b H)|].
  assert (K : lineKind b = SkippedLine); [|now rewrite K].
  unfold lineKind.
  destruct b as [|c s]; [destruct H as [H|H]; discriminate H|].
  destruct H as [H|H]; pose proof (startsWith_head _ _ _ _ H) as <-;
    rewrite H; cbn; rewrite ?prefix_empty; cbn;
    rewrite ?andb_false_r; reflexivity.
Qed.

(** Each counter falls behind the number of body lines of its file by
    the lines of that file that the loop skips: the blank lines, and the
    removed lines that start with [---] or the added lines that start
    with [+++]. *)
Lemma parseLine_counters_lag (st : ParseState) (line : string) :
  diffBodyLine line = true ->
  currentLineOld (parseLine st line)
    + (if isBlank line then 1 else 0) + (if startsWith line "---" then 1 else 0)
    = currentLineOld st + (if inOldFile line then 1 else 0)
  /\ currentLineNew (parseLine st line)
    + (if isBlank line then 1 else 0) + (if startsWith line "+++" then 1 else 0)
    = currentLineNew st + (if inNewFile line then 1 else 0).
Proof.
  intros Hd. rewrite parseLine_by_kind, (diffBodyLine_kind line Hd).
  unfold inOldFile, inNewFile.
  destruct (isBlank line) eqn:B.
  - rewrite (isBlank_not_startsWith line "-" "--" B eq_refl).
    rewrite (isBlank_not_startsWith line "+" "++" B eq_refl).
    cbn. lia.
  - destruct (diffBodyLine_head line Hd B) as (c & s & -> & E).
    destruct E as [E|[E|[E|E]]]; subst c; cbn; rewrite ?prefix_empty.
    + cbn. lia.
    + destruct (String.prefix "++" s); cbn; lia.
    + destruct (String.prefix "--" s); cbn; lia.
    + cbn. lia.
Qed.

Lemma parseLines_counters_lag (body : list string) (st : ParseState) :
  Forall (fun b => diffBodyLine b = true) body ->
  currentLineOld (parseLines st body)
    + countIf isBlank body + countIf (fun b => startsWith b "---") body
    = currentLineOld st + countIf inOldFile body
  /\ currentLineNew (parseLines st body)
    + countIf isBlank body + countIf (fun b => startsWith b "+++") body
    = currentLineNew st + countIf inNewFile body.
Proof.
  revert st. induction body as [|l ls IH]; intros st HF.
  - cbn [parseLines fold_left]. rewrite !countIf_nil. lia.
  - inversion HF as [|? ? Hl Hls]; subst.
    rewrite parseLines_cons, !countIf_cons.
    destruct (IH (parseLine st l) Hls) as [Ho Hn].
    destruct (parseLine_counters_lag st l Hl) as [Lo Ln].
    lia.
Qed.

(** C10 (as the code has it). A blank line (empty, or white space only)
    leaves the state of the line loop unchanged: it records no change and
    advances neither counter; so does a line that starts with [+++] or
    [---].  As a consequence, in a hunk body in the unified diff format
    whose numbers stay within the safe integers, the number recorded for
    a later change of the hunk is lower than the line's number in its
    file by the number of earlier lines of that file that the loop
    skipped: the blank lines, and on the old side the removed lines that
    start with [---], on the new side the added lines that start with
    [+++]. *)
Theorem C10_blank_lines_lower_later_numbers
    (st0 : ParseState) (hdr o n : string) (body : list string)
    (l : string) (c : LineChange) :
  startsWith hdr "@@" = true ->
  matchHunkHeader hdr = Some (o, n) ->
  Forall (fun b => diffBodyLine b = true) body ->
  parseInt o + Z.of_nat (List.length body) <= MAX_SAFE_INTEGER ->
  parseInt n + Z.of_nat (List.length body) <= MAX_SAFE_INTEGER ->
  st_changes (parseLine (parseLines st0 (hdr :: body)) l)
    = st_changes (parseLines st0 (hdr :: body)) ++ [c] ->
  (forall b st,
     isBlank b = true \/ startsWith b "+++" = true \/ startsWith b "---" = true ->
     parseLine st b = st)
  /\ match type c with
     | addition =>
         lineNumber c + countIf isBlank body
           + countIf (fun b => startsWith b "+++") body
         = parseInt n + countIf inNewFile body
     | deletion | context =>
         lineNumber c + countIf isBlank body
           + countIf (fun b => startsWith b "---") body
         = parseInt o + countIf inOldFile body
     end.
Proof.
  intros H1 H2 HB _ _ Hc. split.
  - intros b st Hb. now apply parseLine_skips.
  - rewrite parseLines_cons, (parseLine_header _ hdr o n H1 H2) in Hc.
    set (s1 := mkParseState (st_additions st0) (st_deletions st0) (st_changes st0)
                 (parseInt o) (parseInt n)) in *.
    destruct (parseLines_counters_lag body s1 HB) as [Ho Hn].
    cbn [s1 currentLineOld currentLineNew] in Ho, Hn.
    rewrite parseLine_by_kind in Hc.
    destruct (lineKind l); cbn [st_changes] in Hc.
    + destruct (matchHunkHeader l) as [[o' n']|]; cbn [st_changes] in Hc;
        now apply snoc_not_self in Hc.
    + apply snoc_inj in Hc. subst c. cbn [type lineNumber]. lia.
    + apply snoc_inj in Hc. subst c. cbn [type lineNumber]. lia.
    + apply snoc_inj in Hc. subst c. cbn [type lineNumber]. lia.
    + now apply snoc_not_self in Hc.
Qed.

Lemma C10_blank_lines_lower_later_numbers_witness :
  (forall b st,
     isBlank b = true \/ startsWith b "+++" = true \/ startsWith b "---" = true ->
     parseLine st b = st)
  /\ lineNumber (mkLineChange context 11 "return a;")
     + countIf isBlank [" const a = 1;"; " "; "+++c;"; "--- d"; EmptyString]
     + countIf (fun b => startsWith b "---")
         [" const a = 1;"; " "; "+++c;"; "--- d"; EmptyString]
     = parseInt "10"
       + countIf inOldFile [" const a = 1;"; " "; "+++c;"; "--- d"; EmptyString].
Proof.
  apply (C10_blank_lines_lower_later_numbers initialState
           "@@ -10,5 +20,5 @@ function f() {" "10" "20"
           [" const a = 1;"; " "; "+++c;"; "--- d"; EmptyString]
           " return a;" (mkLineChange context 11 "return a;")).
  - reflexivity.
  - reflexivity.
  - repeat constructor.
  - vm_compute. discriminate.
  - vm_compute. discriminate.
  - reflexivity.
Defined.

(** C10 (as worded) fails: blank lines are not the only lines of a hunk
    that the loop skips.  In a hunk that starts at line 5 and removes the
    line [---] and then the line [x], no line is blank, yet the deletion
    of [x], line 6 of the old file, is recorded as line 5. *)
Lemma C10_removed_dashes_counterexample :
  In dashesFile (parseDiff dashesDiff)
  /\ changes dashesFile
     = [mkLineChange context 0 "a/notes.md b/notes.md"; mkLineChange deletion 5 "x"]
  /\ Forall (fun b => diffBodyLine b = true) ["----"]
  /\ countIf isBlank ["----"] = 0
  /\ st_changes (parseLine (parseLines initialState ["@@ -5,2 +5,0 @@"; "----"]) "-x")
     = st_changes (parseLines initialState ["@@ -5,2 +5,0 @@"; "----"])
       ++ [mkLineChange deletion 5 "x"]
  /\ parseInt "5" + countIf inOldFile ["----"] = 6
  /\ lineNumber (mkLineChange deletion 5 "x") + countIf isBlank ["----"]
     <> parseInt "5" + countIf inOldFile ["----"].
Proof.
  split; [vm_compute; left; reflexivity|].
  split; [reflexivity|].
  split; [repeat constructor|].
  split; [reflexivity|].
  split; [reflexivity|].
  split; [reflexivity|].
  vm_compute. discriminate.
Qed.

(** ** The stable sort *)

Section SortFacts.
Context {A : Type} (key : A -> Z) (cmp : A -> A -> Z).
Hypothesis cmp_key : forall x y, cmp x y <= 0 <-> key x <= key y.

Lemma insertBy_perm (x : A) (l : list A) : Permutation (x :: l) (insertBy cmp x l).
Proof.
  induction l as [|y l IH]; simpl; [apply Permutation_refl|].
  destruct (cmp x y <=? 0); [apply Permutation_refl|].
  eapply perm_trans; [apply perm_swap|]. now apply perm_skip.
Qed.

Lemma sortBy_perm (l : list A) : Permutation l (sortBy cmp l).
Proof.
  induction l as [|x l IH]; simpl; [constructor|].
  eapply perm_trans; [apply perm_skip, IH | apply insertBy_perm].
Qed.

Lemma insertBy_sorted (x : A) (l : list A) :
  StronglySorted (fun a b => key a <= key b) l ->
  StronglySorted (fun a b => key a <= key b) (insertBy cmp x l).
Proof.
  induction l as [|y l IH]; intros HS; simpl.
  - constructor; constructor.
  - inversion HS as [|? ? HS' Hall]; subst.
    destruct (cmp x y <=? 0) eqn:E.
    + apply Z.leb_le, cmp_key in E.
      constructor; [exact HS|]. constructor; [exact E|].
      eapply Forall_impl; [|exact Hall]. intros a Ha; simpl in *; lia.
    + apply Z.leb_gt in E.
      assert (Hyx : key y <= key x).
      { destruct (Z.le_gt_cases (key x) (key y)) as [H|H]; [|lia].
        apply cmp_key in H. lia. }
      constructor; [apply IH, HS'|].
      eapply Permutation_Forall; [apply insertBy_perm|].
      constructor; assumption.
Qed.

Lemma sortBy_sorted (l : list A) :
  StronglySorted (fun a b => key a <= key b) (sortBy cmp l).
Proof.
  induction l as [|x l IH]; simpl; [constructor|]. now apply insertBy_sorted.
Qed.

(** Stability: the elements of one key keep their order. *)
Lemma insertBy_stable (v : Z) (x : A) (l : list A) :
  filter (fun a => key a =? v) (insertBy cmp x l)
  = filter (fun a => key a =? v) (x :: l).
Proof.
  induction l as [|y l IH]; [reflexivity|].
  simpl insertBy. destruct (cmp x y <=? 0) eqn:E; [reflexivity|].
  apply Z.leb_gt in E.
  assert (Hne : key x <> key y).
  { intros Heq. assert (H : key x <= key y) by lia. apply cmp_key in H. lia. }
  simpl in *. rewrite IH.
  destruct (key x =? v) eqn:Ex, (key y =? v) eqn:Ey; try reflexivity.
  apply Z.eqb_eq in Ex, Ey. congruence.
Qed.

Lemma sortBy_stable (v : Z) (l : list A) :
  filter (fun a => key a =? v) (sortBy cmp l) = filter (fun a => key a =? v) l.
Proof.
  induction l as [|x l IH]; [reflexivity|].
  simpl sortBy. rewrite insertBy_stable. simpl. now rewrite IH.
Qed.

Lemma find_filter (p : A -> bool) (l : list A) :
  find p l = hd_error (filter p l).
Proof.
  induction l as [|x l IH]; [reflexivity|]. simpl. now destruct (p x).
Qed.

Lemma sortBy_find (v : Z) (l : list A) :
  find (fun a => key a =? v) (sortBy cmp l) = find (fun a => key a =? v) l.
Proof. now rewrite !find_filter, sortBy_stable. Qed.
End SortFacts.

(** ** The ranking of issues *)

Lemma compareIssues_key (x y : ReviewIssue) :
  compareIssues x y <= 0 <-> negWeight x <= negWeight y.
Proof. unfold compareIssues, negWeight, weightOf. lia. Qed.

Lemma hasSeverity_weight (s : Severity) (i : ReviewIssue) :
  hasSeverity s i = (negWeight i =? - getSeverityWeight (severityName s)).
Proof.
  unfold hasSeverity, negWeight, weightOf.
  destruct (severity i), s; reflexivity.
Qed.

Lemma analyzeDiff_issues (diff : string) (options : ReviewOptions) :
  issues (analyzeDiff diff options)
  = sortIssues (emittedIssues (resolvePrompt options) (filteredFilesOf diff options)).
Proof.
  unfold analyzeDiff, emittedIssues.
  destruct (fold_left _ _ _) as [[i a] r]. reflexivity.
Qed.

Lemma sortIssues_descending (l : list ReviewIssue) :
  StronglySorted (fun a b => weightOf a >= weightOf b) (sortIssues l).
Proof.
  pose proof (sortBy_sorted negWeight compareIssues compareIssues_key l) as H.
  unfold sortIssues.
  induction H as [|x xs HS IH Hall]; constructor; auto.
  eapply Forall_impl; [|exact Hall]. unfold negWeight. intros; simpl in *; lia.
Qed.

Lemma sortIssues_stable (s : Severity) (l : list ReviewIssue) :
  filter (hasSeverity s) (sortIssues l) = filter (hasSeverity s) l.
Proof.
  rewrite !(filter_ext _ _ (hasSeverity_weight s)).
  apply (sortBy_stable negWeight compareIssues compareIssues_key).
Qed.

(** C2. The issues of every review result are the emitted issues sorted
    by severity weight, highest first (critical 4, major 3, minor 2,
    info 1), and the sort is stable: the issues of one severity keep the
    order in which they were emitted.  Issues of severities minor,
    critical, major, info, critical come out as critical, critical,
    major, minor, info, the two critical ones in their original order. *)
Theorem C2_issues_sorted_by_weight_stably :
  (forall diff options,
     let emitted :=
       emittedIssues (resolvePrompt options) (filteredFilesOf diff options) in
     let out := issues (analyzeDiff diff options) in
     Permutation emitted out
     /\ StronglySorted (fun a b => weightOf a >= weightOf b) out
     /\ forall s, filter (hasSeverity s) out = filter (hasSeverity s) emitted)
  /\ (getSeverityWeight "critical" = 4 /\ getSeverityWeight "major" = 3
      /\ getSeverityWeight "minor" = 2 /\ getSeverityWeight "info" = 1)
  /\ (forall a b c d e,
        sortIssues [withSeverity minor a; withSeverity critical b;
                    withSeverity major c; withSeverity info d;
                    withSeverity critical e]
        = [withSeverity critical b; withSeverity critical e;
           withSeverity major c; withSeverity minor a; withSeverity info d]).
Proof.
  split; [|split].
  - intros diff options emitted out. subst out. rewrite analyzeDiff_issues.
    fold emitted. split; [|split].
    + apply sortBy_perm.
    + apply sortIssues_descending.
    + intros s. apply sortIssues_stable.
  - repeat split.
  - intros a b c d e. reflexivity.
Qed.

(** ** String facts for the filter *)

Lemma drop_app_length (a b : string) : drop (String.length a) (a ++ b)%string = b.
Proof. induction a as [|c a IH]; simpl; auto. Qed.

Lemma string_length_app (a b : string) :
  String.length (a ++ b)%string = (String.length a + String.length b)%nat.
Proof. induction a as [|c a IH]; simpl; auto. Qed.

Lemma drop_split (n : nat) (s : string) :
  (n <= String.length s)%nat ->
  exists pre, s = (pre ++ drop n s)%string /\ String.length pre = n.
Proof.
  revert s. induction n as [|n IH]; intros s Hn.
  - exists EmptyString. split; reflexivity.
  - destruct s as [|c s]; simpl in Hn; [lia|].
    destruct (IH s) as (pre & Hs & Hl); [lia|].
    exists (String c pre). simpl. split; [now rewrite <- Hs | now rewrite Hl].
Qed.

Lemma endsWith_spec (s p : string) : endsWith s p = true <-> IsSuffixOf p s.
Proof.
  unfold endsWith, IsSuffixOf. split.
  - intros H. apply andb_true_iff in H. destruct H as [Hl He].
    apply Nat.leb_le in Hl. apply String.eqb_eq in He.
    destruct (drop_split (String.length s - String.length p) s) as (pre & Hs & _);
      [lia|].
    exists pre. now rewrite He in Hs.
  - intros [pre ->]. apply andb_true_iff. split.
    + apply Nat.leb_le. rewrite string_length_app. lia.
    + apply String.eqb_eq. rewrite string_length_app.
      replace (String.length pre + String.length p - String.length p)%nat
        with (String.length pre) by lia.
      apply drop_app_length.
Qed.

Lemma prefix_spec (p s : string) :
  String.prefix p s = true <-> exists post, s = (p ++ post)%string.
Proof.
  revert s. induction p as [|a p IH]; intros s.
  - split; [intros _; now exists s | intros _; destruct s; reflexivity].
  - destruct s as [|c s]; simpl.
    + split; [discriminate | intros [post H]; discriminate].
    + destruct (ascii_dec a c) as [->|Hne].
      * rewrite IH. split; intros [post H]; exists post.
        -- now rewrite H.
        -- now injection H.
      * split; [discriminate|]. intros [post H]. injection H as H1 _. congruence.
Qed.

Lemma includes_spec (s p : string) : includes s p = true <-> IsSubstringOf p s.
Proof.
  unfold IsSubstringOf. induction s as [|c s IH].
  - cbn [includes]. rewrite orb_false_r, prefix_spec. split.
    + intros [post H]. exists EmptyString, post. exact H.
    + intros (pre & post & H). destruct pre; [now exists post|discriminate].
  - cbn [includes]. rewrite orb_true_iff, prefix_spec, IH. split.
    + intros [[post H] | (pre & post & H)].
      * exists EmptyString, post. exact H.
      * exists (String c pre), post. simpl. now rewrite H.
    + intros (pre & post & H). destruct pre as [|c' pre].
      * left. now exists post.
      * right. simpl in H. injection H as _ H. now exists pre, post.
Qed.

(** ** The hunk header pattern *)

Lemma spanWhile_spec (p : ascii -> bool) (s d r : string) :
  spanWhile p s = (d, r) -> s = (d ++ r)%string /\ allChars p d = true.
Proof.
  revert d r. induction s as [|c s IH]; intros d r; simpl.
  - intros H. injection H as <- <-. auto.
  - destruct (p c) eqn:E.
    + destruct (spanWhile p s) as [d' r'] eqn:S. intros H. injection H as <- <-.
      destruct (IH d' r' eq_refl) as [-> Hd]. simpl. rewrite E. auto.
    + intros H. injection H as <- <-. auto.
Qed.

Lemma dropComma_spec (s : string) :
  exists c, isOptionalComma c /\ s = (c ++ dropComma s)%string.
Proof.
  destruct s as [|x s]; [exists EmptyString; split; [now left | reflexivity]|].
  simpl. destruct (Ascii.eqb x ",") eqn:E.
  - apply Ascii.eqb_eq in E. subst x. exists ",". split; [now right | reflexivity].
  - exists EmptyString. split; [now left|].
    destruct x as [[] [] [] [] [] [] [] []]; try reflexivity; discriminate.
Qed.

Lemma startsWith_split (s p : string) :
  startsWith s p = true -> s = (p ++ drop (String.length p) s)%string.
Proof.
  unfold startsWith. intros H. apply prefix_spec in H. destruct H as [post ->].
  now rewrite drop_app_length.
Qed.

(** A hunk header that parses reads
    [@@ -<old>[,<digits>] +<new>[,<digits>] @@], and the two groups are
    the numerals [<old>] and [<new>]: the declared starting offsets. *)
Lemma hunkHeaderAt_sound (s o n : string) :
  hunkHeaderAt s = Some (o, n) ->
  exists c1 d1 c2 d2 rest,
    s = ("@@ -" ++ o ++ c1 ++ d1 ++ " +" ++ n ++ c2 ++ d2 ++ " @@" ++ rest)%string
    /\ isNumeral o /\ isNumeral n
    /\ isOptionalComma c1 /\ isOptionalComma c2
    /\ allChars isDigit d1 = true /\ allChars isDigit d2 = true.
Proof.
  unfold hunkHeaderAt, spanDigits.
  destruct (startsWith s "@@ -") eqn:E0; [|discriminate].
  apply startsWith_split in E0. simpl String.length in E0.
  destruct (spanWhile isDigit (drop 4 s)) as [g1 r1] eqn:S1.
  destruct (String.eqb g1 EmptyString) eqn:N1; [discriminate|].
  destruct (spanWhile isDigit (dropComma r1)) as [d1 r2] eqn:S2.
  destruct (startsWith r2 " +") eqn:E1; [|discriminate].
  apply startsWith_split in E1. simpl String.length in E1.
  destruct (spanWhile isDigit (drop 2 r2)) as [g2 r3] eqn:S3.
  destruct (String.eqb g2 EmptyString) eqn:N2; [discriminate|].
  destruct (spanWhile isDigit (dropComma r3)) as [d2 r4] eqn:S4.
  destruct (startsWith r4 " @@") eqn:E2; [|discriminate].
  apply startsWith_split in E2. simpl String.length in E2.
  intros H. injection H as <- <-.
  apply spanWhile_spec in S1, S2, S3, S4.
  destruct S1 as [S1 D1], S2 as [S2 D2], S3 as [S3 D3], S4 as [S4 D4].
  destruct (dropComma_spec r1) as (c1 & C1 & R1).
  destruct (dropComma_spec r3) as (c2 & C2 & R3).
  apply String.eqb_neq in N1, N2.
  exists c1, d1, c2, d2, (drop 3 r4).
  repeat split; try assumption.
  rewrite E0 at 1. rewrite S1. f_equal. f_equal. rewrite R1 at 1. f_equal.
  rewrite S2. f_equal. rewrite E1 at 1. f_equal.
  rewrite S3. f_equal. rewrite R3 at 1. f_equal.
  rewrite S4. f_equal. exact E2.
Qed.

Lemma matchHunkHeader_sound (s o n : string) :
  matchHunkHeader s = Some (o, n) ->
  exists pre s', s = (pre ++ s')%string /\ hunkHeaderAt s' = Some (o, n).
Proof.
  induction s as [|c s IH]; cbn [matchHunkHeader].
  - destruct (hunkHeaderAt EmptyString) as [m|] eqn:E; [|discriminate].
    intros H. injection H as ->. exists EmptyString, EmptyString. auto.
  - destruct (hunkHeaderAt (String c s)) as [m|] eqn:E.
    + intros H. injection H as ->. exists EmptyString, (String c s). auto.
    + intros H. destruct (IH H) as (pre & s' & -> & Hs).
      exists (String c pre), s'. auto.
Qed.

(** The predicate [filterFiles] keeps a file by. *)
Lemma keep_spec (extensions excludePatterns : option (list string)) (f : FileChange) :
  (let hasValidExtension :=
     match extensions with
     | Some exts =>
         if (0 <? List.length exts)%nat then
           existsb (fun ext =>
             endsWith (toLowerCase (fileName f)) (toLowerCase ext)) exts
         else true
     | None => true
     end in
   if negb hasValidExtension then false else
   let shouldExclude :=
     match excludePatterns with
     | Some pats =>
         if (0 <? List.length pats)%nat then
           existsb (fun pattern =>
             includes (toLowerCase (fileName f)) (toLowerCase pattern)) pats
         else false
     | None => false
     end in
   if shouldExclude then false else true) = true
  <-> PassesExtensions extensions f /\ PassesExcludes excludePatterns f.
Proof.
  cbv zeta.
  assert (HE : match extensions with
               | Some exts =>
                   if (0 <? List.length exts)%nat then
                     existsb (fun ext =>
                       endsWith (toLowerCase (fileName f)) (toLowerCase ext)) exts
                   else true
               | None => true
               end = true <-> PassesExtensions extensions f).
  { unfold PassesExtensions. destruct extensions as [[|e es]|];
      try (simpl; tauto).
    change (0 <? List.length (e :: es))%nat with true. cbv iota.
    rewrite existsb_exists. split.
    - intros (x & Hx & H). exists x. split; [exact Hx|]. now apply endsWith_spec.
    - intros (x & Hx & H). exists x. split; [exact Hx|]. now apply endsWith_spec. }
  assert (HX : match excludePatterns with
               | Some pats =>
                   if (0 <? List.length pats)%nat then
                     existsb (fun pattern =>
                       includes (toLowerCase (fileName f)) (toLowerCase pattern)) pats
                   else false
               | None => false
               end = false <-> PassesExcludes excludePatterns f).
  { unfold PassesExcludes. destruct excludePatterns as [[|e es]|];
      try (simpl; tauto).
    change (0 <? List.length (e :: es))%nat with true. cbv iota.
    rewrite <- not_true_iff_false, existsb_exists. split.
    - intros H x Hx Hs. apply H. exists x. split; [exact Hx|]. now apply includes_spec.
    - intros H (x & Hx & Hi). apply (H x Hx). now apply includes_spec. }
  destruct (match extensions with Some _ => _ | None => _ end);
    destruct (match excludePatterns with Some _ => _ | None => _ end); simpl;
    intuition congruence.
Qed.

(** C7. For every list of files and every optional extension list and
    exclude list, the filter returns the input files, in their input
    order, that end with one of the extensions (compared in lower case;
    no constraint when the list is absent or empty) and contain none of
    the exclude patterns (compared in lower case; no constraint when the
    list is absent or empty). *)
Theorem C7_filter_is_conjunctive_and_ordered
    (files : list FileChange) (extensions excludePatterns : option (list string)) :
  exists keep : FileChange -> bool,
    filterFiles files extensions excludePatterns = filter keep files
    /\ forall f, keep f = true
         <-> PassesExtensions extensions f /\ PassesExcludes excludePatterns f.
Proof.
  eexists. split; [reflexivity|].
  intros f. apply keep_spec.
Qed.

(** ** Blocks whose header does not parse *)

Lemma parseHunk_unmatched (files : list FileChange) (hunk : string) :
  headerMatches hunk = false -> parseHunk files hunk = files.
Proof.
  unfold headerMatches, parseHunk. fold (headerOf hunk).
  destruct (fileMatch (headerOf hunk)) as [[old new]|]; [discriminate | reflexivity].
Qed.

Lemma parseHunk_matched (files : list FileChange) (hunk : string) :
  headerMatches hunk = true ->
  exists fc, parseHunk files hunk = files ++ [fc]
             /\ rawDiff fc = ("diff --git" ++ hunk)%string.
Proof.
  unfold headerMatches, parseHunk. fold (headerOf hunk).
  destruct (fileMatch (headerOf hunk)) as [[old new]|]; [|discriminate].
  intros _. eexists. split; reflexivity.
Qed.

Lemma fold_parseHunk_rawDiff (hunks : list string) (files : list FileChange) :
  map rawDiff (fold_left parseHunk hunks files)
  = map rawDiff files
    ++ map (fun h => ("diff --git" ++ h)%string) (filter headerMatches hunks).
Proof.
  revert files. induction hunks as [|h hs IH]; intros files; simpl.
  - now rewrite app_nil_r.
  - rewrite IH. destruct (headerMatches h) eqn:E.
    + destruct (parseHunk_matched files h E) as (fc & -> & Hr).
      rewrite map_app. simpl. rewrite Hr, <- app_assoc. reflexivity.
    + now rewrite (parseHunk_unmatched files h E).
Qed.

Lemma splitAtFirst_sound (sep s a b : string) :
  splitAtFirst sep s = Some (a, b) -> s = (a ++ sep ++ b)%string.
Proof.
  revert a b. induction s as [|c s IH]; intros a b.
  - cbn [splitAtFirst]. destruct (String.prefix sep EmptyString) eqn:E; [|discriminate].
    intros H. injection H as <- <-. apply prefix_spec in E. destruct E as [post E].
    simpl. rewrite E at 2. now rewrite drop_app_length.
  - cbn [splitAtFirst]. destruct (String.prefix sep (String c s)) eqn:E.
    + intros H. injection H as <- <-. apply prefix_spec in E. destruct E as [post E].
      simpl. rewrite E at 2. rewrite drop_app_length. exact E.
    + destruct (splitAtFirst sep s) as [[a' b']|]; [|discriminate].
      intros H. injection H as <- <-. simpl. now rewrite <- (IH a' b' eq_refl).
Qed.

(** A header that parses has the shape the pattern describes. *)
Lemma fileMatch_sound (header old new : string) :
  fileMatch header = Some (old, new) ->
  header = ("diff --git a/" ++ old ++ " b/" ++ new)%string.
Proof.
  unfold fileMatch. destruct (startsWith header "diff --git a/") eqn:E; [|discriminate].
  apply prefix_spec in E. destruct E as [post ->].
  change 13%nat with (String.length "diff --git a/"). rewrite drop_app_length.
  destruct (hasLineTerminator post); [discriminate|].
  intros H. apply splitAtFirst_sound in H. now rewrite H.
Qed.

Lemma prefix_app (p s : string) : String.prefix p (p ++ s)%string = true.
Proof.
  induction p as [|c p IH]; [apply prefix_empty|]. cbn.
  destruct (ascii_dec c c) as [_|N]; [exact IH | now elim N].
Qed.

(** [splitAtFirst] finds a separator that occurs. *)
Lemma splitAtFirst_complete (sep a b : string) :
  exists p, splitAtFirst sep (a ++ sep ++ b)%string = Some p.
Proof.
  induction a as [|c a IH].
  - cbn [append]. destruct (sep ++ b)%string as [|x r] eqn:E;
      cbn [splitAtFirst]; rewrite <- E, prefix_app; eexists; reflexivity.
  - cbn [append splitAtFirst].
    destruct (String.prefix sep (String c (a ++ sep ++ b))); [eexists; reflexivity|].
    destruct IH as [[x y] ->]. eexists; reflexivity.
Qed.

Lemma hasLineTerminator_allChars (s : string) :
  hasLineTerminator s = false
  <-> allChars (fun c => negb (isLineTerminator c)) s = true.
Proof.
  induction s as [|c s IH]; cbn [hasLineTerminator allChars]; [tauto|].
  destruct (isLineTerminator c); cbn [orb negb andb]; [split; discriminate | exact IH].
Qed.

(** The pattern of the header matches exactly the blocks whose first
    line names two paths. *)
Lemma headerMatches_spec (hunk : string) :
  headerMatches hunk = true <-> NamesTwoPaths (hd EmptyString (splitLines hunk)).
Proof.
  unfold headerMatches, headerOf, NamesTwoPaths, fileMatch.
  set (first := hd EmptyString (splitLines hunk)). split.
  - destruct (startsWith ("diff --git" ++ first) "diff --git a/") eqn:E; [|discriminate].
    apply prefix_spec in E. destruct E as [post E].
    assert (Ef : first = (" a/" ++ post)%string)
      by (cbn [append] in E; injection E as E; exact E).
    rewrite Ef. change ("diff --git" ++ " a/" ++ post)%string
      with ("diff --git a/" ++ post)%string.
    change 13%nat with (String.length "diff --git a/"). rewrite drop_app_length.
    destruct (hasLineTerminator post) eqn:T; [discriminate|].
    destruct (splitAtFirst " b/" post) as [[old new]|] eqn:S; [|discriminate].
    intros _. exists old, new. apply splitAtFirst_sound in S. subst post.
    split; [reflexivity | now apply hasLineTerminator_allChars].
  - intros (old & new & -> & T).
    change ("diff --git" ++ " a/" ++ old ++ " b/" ++ new)%string
      with ("diff --git a/" ++ (old ++ " b/" ++ new))%string.
    unfold startsWith. rewrite prefix_app.
    change 13%nat with (String.length "diff --git a/"). rewrite drop_app_length.
    apply hasLineTerminator_allChars in T. rewrite T.
    destruct (splitAtFirst_complete " b/" old new) as [[x y] ->]. reflexivity.
Qed.

(** C8 (as the code has it). The pattern of the header matches the
    blocks whose first line is [ a/<old-path> b/<new-path>] with no line
    terminator in the paths.  For every diff text the parser returns one
    file per such block, in the order of the blocks, whose paths are the
    two paths of that line; a block whose first line is of another form
    leaves the list of files as it was.  The parser is a total
    function: no diff text makes it fail. *)
Theorem C8_unmatched_blocks_are_dropped (diff : string) :
  (forall hunk,
     headerMatches hunk = true <-> NamesTwoPaths (hd EmptyString (splitLines hunk)))
  /\ map rawDiff (parseDiff diff)
     = map (fun h => ("diff --git" ++ h)%string) (filter headerMatches (splitHunks diff))
  /\ (forall files hunk,
        ~ NamesTwoPaths (hd EmptyString (splitLines hunk)) ->
        parseHunk files hunk = files)
  /\ (forall fc, In fc (parseDiff diff) ->
        exists hunk, In hunk (splitHunks diff)
          /\ rawDiff fc = ("diff --git" ++ hunk)%string
          /\ hd EmptyString (splitLines hunk)
             = (" a/" ++ oldFileName fc ++ " b/" ++ fileName fc)%string).
Proof.
  split; [exact headerMatches_spec|]. split; [|split].
  - unfold parseDiff. now rewrite fold_parseHunk_rawDiff.
  - intros files hunk H. apply parseHunk_unmatched.
    destruct (headerMatches hunk) eqn:E; [|reflexivity].
    now apply headerMatches_spec in E.
  - unfold parseDiff.
    assert (G : forall hs files fc,
              In fc (fold_left parseHunk hs files) ->
              In fc files
              \/ exists hunk, In hunk hs
                   /\ rawDiff fc = ("diff --git" ++ hunk)%string
                   /\ hd EmptyString (splitLines hunk)
                      = (" a/" ++ oldFileName fc ++ " b/" ++ fileName fc)%string).
    { induction hs as [|h hs IH]; intros files fc Hin; simpl in Hin; [now left|].
      destruct (IH _ _ Hin) as [Hf | (hunk & Hh & He)].
      - unfold parseHunk in Hf. fold (headerOf h) in Hf.
        destruct (fileMatch (headerOf h)) as [[old new]|] eqn:E; [|now left].
        apply in_app_or in Hf. destruct Hf as [Hf|[<-|[]]]; [now left|].
        right. exists h. split; [now left|]. split; [reflexivity|].
        cbn [oldFileName fileName].
        apply fileMatch_sound in E. unfold headerOf in E.
        cbn [append] in E. injection E as E. exact E.
      - right. exists hunk. split; [now right | exact He]. }
    intros fc Hin. destruct (G _ _ _ Hin) as [[]|H]. exact H.
Qed.

(** C8 (as worded) fails for binary sections: the section that git
    writes for a binary file has an ordinary header, so the parser does
    not drop it.  It returns a file for it, with the line that says the
    files differ recorded as a context line. *)
Lemma C8_binary_section_counterexample :
  NamesTwoPaths (hd EmptyString (splitLines (drop 10 binaryDiff)))
  /\ parseDiff binaryDiff <> []
  /\ parseDiff binaryDiff
     = [mkFileChange "logo.png" "logo.png" false false 0 0
          [mkLineChange context 0 "a/logo.png b/logo.png";
           mkLineChange context 1 "Binary files a/logo.png and b/logo.png differ"]
          binaryDiff].
Proof.
  split; [exists "logo.png", "logo.png"; split; reflexivity|].
  split; [vm_compute; discriminate | reflexivity].
Qed.

(** ** Correctness of the pattern matcher *)

Lemma sapp_nil_r (s : string) : (s ++ EmptyString)%string = s.
Proof. induction s as [|c s IH]; simpl; congruence. Qed.

Lemma sapp_assoc (a b c : string) : ((a ++ b) ++ c)%string = (a ++ (b ++ c))%string.
Proof. induction a as [|x a IH]; simpl; congruence. Qed.

Lemma sapp_eq_nil (a b : string) :
  (a ++ b)%string = EmptyString -> a = EmptyString /\ b = EmptyString.
Proof. destruct a; simpl; [auto | discriminate]. Qed.

Module RegexFacts.

Lemma Matches_Void (w : string) : ~ Matches Void w.
Proof. intros H. inversion H. Qed.

Lemma Matches_Eps_inv (w : string) : Matches Eps w -> w = EmptyString.
Proof. intros H. now inversion H. Qed.

Lemma Matches_Chr_inv (p : ascii -> bool) (w : string) :
  Matches (Chr p) w -> exists c, w = String c EmptyString /\ p c = true.
Proof. intros H. inversion H; subst. eauto. Qed.

Lemma Matches_Cat_inv (r1 r2 : regex) (w : string) :
  Matches (Cat r1 r2) w ->
  exists w1 w2, w = (w1 ++ w2)%string /\ Matches r1 w1 /\ Matches r2 w2.
Proof. intros H. inversion H; subst. eauto. Qed.

Lemma Matches_Alt_inv (r1 r2 : regex) (w : string) :
  Matches (Alt r1 r2) w -> Matches r1 w \/ Matches r2 w.
Proof. intros H. inversion H; subst; auto. Qed.

Lemma nullable_spec (r : regex) : nullable r = true <-> Matches r EmptyString.
Proof.
  induction r as [| |p|r1 IH1 r2 IH2|r1 IH1 r2 IH2|r IH]; simpl.
  - split; [discriminate | intros H; inversion H].
  - split; [constructor | reflexivity].
  - split; [discriminate | intros H; inversion H].
  - rewrite andb_true_iff, IH1, IH2. split.
    + intros [H1 H2]. change EmptyString with (EmptyString ++ EmptyString)%string.
      now constructor.
    + intros H. apply Matches_Cat_inv in H. destruct H as (w1 & w2 & E & H1 & H2).
      symmetry in E. apply sapp_eq_nil in E. destruct E as [-> ->]. auto.
  - rewrite orb_true_iff, IH1, IH2. split.
    + intros [H|H]; [now apply MAltL | now apply MAltR].
    + apply Matches_Alt_inv.
  - split; [constructor | reflexivity].
Qed.

Lemma cat_spec (r1 r2 : regex) (w : string) :
  Matches (cat r1 r2) w <-> Matches (Cat r1 r2) w.
Proof.
  unfold cat.
  destruct (isVoid r1) eqn:V1.
  { destruct r1; try discriminate. simpl. split.
    - intros H; inversion H.
    - intros H. apply Matches_Cat_inv in H. destruct H as (w1 & w2 & _ & H1 & _).
      now apply Matches_Void in H1. }
  destruct (isVoid r2) eqn:V2.
  { destruct r2; try discriminate. simpl. split.
    - intros H; inversion H.
    - intros H. apply Matches_Cat_inv in H. destruct H as (w1 & w2 & _ & _ & H2).
      now apply Matches_Void in H2. }
  simpl. destruct (isEps r1) eqn:E1; [|tauto].
  destruct r1; try discriminate. split.
  - intros H. change w with (EmptyString ++ w)%string. constructor; [constructor|exact H].
  - intros H. apply Matches_Cat_inv in H. destruct H as (w1 & w2 & -> & H1 & H2).
    apply Matches_Eps_inv in H1. subst. exact H2.
Qed.

Lemma alt_spec (r1 r2 : regex) (w : string) :
  Matches (alt r1 r2) w <-> Matches (Alt r1 r2) w.
Proof.
  unfold alt.
  destruct (isVoid r1) eqn:V1.
  { destruct r1; try discriminate. split.
    - intros H. now apply MAltR.
    - intros H. apply Matches_Alt_inv in H. destruct H as [H|H]; [|exact H].
      now apply Matches_Void in H. }
  destruct (isVoid r2) eqn:V2; [|tauto].
  destruct r2; try discriminate. split.
  - intros H. now apply MAltL.
  - intros H. apply Matches_Alt_inv in H. destruct H as [H|H]; [exact H|].
    now apply Matches_Void in H.
Qed.

(** A word of [Star r] that starts with [c] starts with a word of [r]
    that starts with [c]. *)
Lemma Matches_Star_cons (r : regex) (c : ascii) (w : string) :
  Matches (Star r) (String c w) ->
  exists w1 w2, w = (w1 ++ w2)%string
                /\ Matches r (String c w1) /\ Matches (Star r) w2.
Proof.
  intros H. remember (Star r) as sr eqn:Er. remember (String c w) as cw eqn:Ew.
  revert r c w Er Ew.
  induction H as [| | | | | |r0 w1 w2 H1 _ H2 IH2]; intros rr cc ww Er Ew;
    try discriminate.
  injection Er as ->.
  destruct w1 as [|c1 w1].
  - simpl in Ew. apply (IH2 rr cc ww eq_refl Ew).
  - simpl in Ew. injection Ew as -> <-. exists w1, w2. auto.
Qed.

Lemma Matches_Cat_cons (r1 r2 : regex) (c : ascii) (w : string) :
  Matches (Cat r1 r2) (String c w) <->
  (exists w1 w2, w = (w1 ++ w2)%string /\ Matches r1 (String c w1) /\ Matches r2 w2)
  \/ (Matches r1 EmptyString /\ Matches r2 (String c w)).
Proof.
  split.
  - intros H. apply Matches_Cat_inv in H. destruct H as (w1 & w2 & E & H1 & H2).
    destruct w1 as [|c1 w1].
    + right. simpl in E. subst. auto.
    + left. simpl in E. injection E as -> ->. exists w1, w2. auto.
  - intros [(w1 & w2 & -> & H1 & H2) | [H1 H2]].
    + change (String c (w1 ++ w2)) with (String c w1 ++ w2)%string. now constructor.
    + change (String c w) with (EmptyString ++ String c w)%string. now constructor.
Qed.

Lemma deriv_spec (r : regex) (c : ascii) (w : string) :
  Matches (deriv c r) w <-> Matches r (String c w).
Proof.
  revert w. induction r as [| |p|r1 IH1 r2 IH2|r1 IH1 r2 IH2|r IH]; intros w; simpl.
  - split; intros H; inversion H.
  - split; intros H; inversion H.
  - destruct (p c) eqn:E; split; intros H.
    + apply Matches_Eps_inv in H. subst. now constructor.
    + apply Matches_Chr_inv in H. destruct H as (c' & E' & _).
      injection E' as _ ->. constructor.
    + inversion H.
    + apply Matches_Chr_inv in H. destruct H as (c' & E' & Hp).
      injection E' as -> _. congruence.
  - rewrite Matches_Cat_cons.
    destruct (nullable r1) eqn:N.
    + rewrite alt_spec. split.
      * intros H. apply Matches_Alt_inv in H. destruct H as [Hl|Hr].
        -- left. apply cat_spec, Matches_Cat_inv in Hl.
           destruct Hl as (w1 & w2 & -> & Hm1 & Hm2).
           exists w1, w2. split; [reflexivity|]. split; [now apply IH1 | exact Hm2].
        -- right. split; [now apply nullable_spec | now apply IH2].
      * intros [(w1 & w2 & -> & H1 & H2) | [H1 H2]].
        -- apply MAltL, cat_spec. constructor; [now apply IH1 | exact H2].
        -- apply MAltR. now apply IH2.
    + rewrite cat_spec. split.
      * intros H. apply Matches_Cat_inv in H. destruct H as (w1 & w2 & -> & Hm1 & Hm2).
        left. exists w1, w2. split; [reflexivity|]. split; [now apply IH1 | exact Hm2].
      * intros [(w1 & w2 & -> & H1 & H2) | [H1 H2]].
        -- constructor; [now apply IH1 | exact H2].
        -- apply nullable_spec in H1. congruence.
  - rewrite alt_spec. split.
    + intros H. apply Matches_Alt_inv in H.
      destruct H as [H|H]; [apply MAltL, IH1 | apply MAltR, IH2]; assumption.
    + intros H. apply Matches_Alt_inv in H.
      destruct H as [H|H]; [apply MAltL, IH1 | apply MAltR, IH2]; assumption.
  - rewrite cat_spec. split.
    + intros H. apply Matches_Cat_inv in H. destruct H as (w1 & w2 & -> & Hm1 & Hm2).
      change (String c (w1 ++ w2)) with (String c w1 ++ w2)%string.
      constructor; [now apply IH | exact Hm2].
    + intros H. apply Matches_Star_cons in H. destruct H as (w1 & w2 & -> & H1 & H2).
      constructor; [now apply IH | exact H2].
Qed.

Lemma matchesAtStart_spec (r : regex) (s : string) :
  matchesAtStart r s = true <->
  exists w post, s = (w ++ post)%string /\ Matches r w.
Proof.
  revert r. induction s as [|c s IH]; intros r; cbn [matchesAtStart].
  - rewrite orb_false_r, nullable_spec. split.
    + intros H. exists EmptyString, EmptyString. auto.
    + intros (w & post & E & H). symmetry in E. apply sapp_eq_nil in E.
      destruct E as [-> _]. exact H.
  - rewrite orb_true_iff, nullable_spec, IH. split.
    + intros [H | (w & post & -> & H)].
      * exists EmptyString, (String c s). auto.
      * exists (String c w), post. split; [reflexivity | now apply deriv_spec].
    + intros (w & post & E & H). destruct w as [|c' w].
      * now left.
      * right. simpl in E. injection E as <- ->. exists w, post.
        split; [reflexivity | now apply deriv_spec].
Qed.

(** The matcher decides occurrence of the pattern in the line. *)
Lemma test_spec (r : regex) (s : string) : test r s = true <-> Occurs r s.
Proof.
  unfold Occurs. induction s as [|c s IH]; cbn [test].
  - rewrite orb_false_r, matchesAtStart_spec. split.
    + intros (w & post & E & H). exists EmptyString, w, post. auto.
    + intros (pre & w & post & E & H). symmetry in E. apply sapp_eq_nil in E.
      destruct E as [-> E]. exists w, post. auto.
  - rewrite orb_true_iff, matchesAtStart_spec, IH. split.
    + intros [(w & post & E & H) | (pre & w & post & -> & H)].
      * exists EmptyString, w, post. auto.
      * exists (String c pre), w, post. auto.
    + intros (pre & w & post & E & H). destruct pre as [|c' pre].
      * left. exists w, post. auto.
      * right. simpl in E. injection E as <- ->. exists pre, w, post. auto.
Qed.

End RegexFacts.

(** ** Parsed lines hold no line feed *)

Lemma hasChar_app (c : ascii) (a b : string) :
  hasChar c (a ++ b)%string = hasChar c a || hasChar c b.
Proof.
  induction a as [|x a IH]; simpl; [reflexivity|]. now rewrite IH, orb_assoc.
Qed.

Lemma hasChar_drop (c : ascii) (n : nat) (s : string) :
  hasChar c s = false -> hasChar c (drop n s) = false.
Proof.
  revert s. induction n as [|n IH]; intros s H; [exact H|].
  destruct s as [|x s]; [reflexivity|]. simpl in *.
  apply orb_false_iff in H. destruct H as [_ H]. now apply IH.
Qed.

Lemma splitOn_no_sep (sep : ascii) (s : string) :
  Forall (fun l => hasChar sep l = false) (splitOn sep s).
Proof.
  induction s as [|x s IH]; simpl.
  - constructor; [reflexivity | constructor].
  - destruct (Ascii.eqb x sep) eqn:E.
    + constructor; [reflexivity | exact IH].
    + destruct (splitOn sep s) as [|l ls]; inversion IH; subst.
      * constructor; [simpl; now rewrite E | constructor].
      * constructor; [simpl; rewrite E; assumption | assumption].
Qed.

Lemma parseLine_lineFeedFree (st : ParseState) (line : string) :
  hasChar LF line = false ->
  LineFeedFree (st_changes st) -> LineFeedFree (st_changes (parseLine st line)).
Proof.
  intros Hl Hs. rewrite parseLine_by_kind. unfold LineFeedFree in *.
  destruct (lineKind line); simpl.
  - destruct (matchHunkHeader line) as [[o n]|]; exact Hs.
  - apply Forall_app. split; [exact Hs|]. constructor; [|constructor].
    simpl. now apply hasChar_drop.
  - apply Forall_app. split; [exact Hs|]. constructor; [|constructor].
    simpl. now apply hasChar_drop.
  - apply Forall_app. split; [exact Hs|]. constructor; [|constructor].
    simpl. destruct (startsWith line " "); [now apply hasChar_drop | exact Hl].
  - exact Hs.
Qed.

Lemma parseLines_lineFeedFree (lines : list string) (st : ParseState) :
  Forall (fun l => hasChar LF l = false) lines ->
  LineFeedFree (st_changes st) -> LineFeedFree (st_changes (parseLines st lines)).
Proof.
  revert st. induction lines as [|l ls IH]; intros st HF Hs; [exact Hs|].
  inversion HF; subst. rewrite parseLines_cons.
  apply IH; [assumption|]. now apply parseLine_lineFeedFree.
Qed.

Lemma parseDiff_lineFeedFree (diff : string) (fc : FileChange) :
  In fc (parseDiff diff) -> LineFeedFree (changes fc).
Proof.
  intros Hin.
  pose proof (parseDiff_files (fun f => LineFeedFree (changes f)) diff) as H.
  rewrite Forall_forall in H. apply H; [|exact Hin].
  intros hunk old new _. simpl.
  apply parseLines_lineFeedFree; [apply splitOn_no_sep | constructor].
Qed.

(** ** The rule for code after [return] *)

Import RegexFacts.

(** Every word of the pattern holds a line feed. *)
Lemma unreachablePattern_lineFeed (w : string) :
  Matches unreachablePattern w -> hasChar LF w = true.
Proof.
  unfold unreachablePattern. cbn [seq]. intros H.
  apply Matches_Cat_inv in H. destruct H as (w1 & r1 & -> & _ & H).
  apply Matches_Cat_inv in H. destruct H as (w2 & r2 & -> & _ & H).
  apply Matches_Cat_inv in H. destruct H as (w3 & r3 & -> & H3 & _).
  apply Matches_Chr_inv in H3. destruct H3 as (c & -> & Hc).
  apply Ascii.eqb_eq in Hc. subst c.
  assert (E : hasChar LF (String LF EmptyString) = true) by reflexivity.
  rewrite !hasChar_app, E. now rewrite ?orb_true_r, ?orb_true_l.
Qed.

Lemma unreachablePattern_needs_lineFeed (s : string) :
  hasChar LF s = false -> test unreachablePattern s = false.
Proof.
  intros H. destruct (test unreachablePattern s) eqn:E; [|reflexivity].
  apply test_spec in E. destruct E as (pre & w & post & -> & Hm).
  apply unreachablePattern_lineFeed in Hm.
  rewrite !hasChar_app, Hm, orb_true_r in H. discriminate.
Qed.

Lemma logicalBugsOfLine_titles (fc : FileChange) (ext : string) (l : LineChange)
    (i : ReviewIssue) :
  test unreachablePattern (content l) = false ->
  In i (logicalBugsOfLine fc ext l) -> title i <> unreachableTitle.
Proof.
  intros Hf Hin. unfold logicalBugsOfLine in Hin. rewrite Hf in Hin.
  unfold unreachableTitle, unboundedAccessTitle in *.
  split_issue_blocks Hin; one_issue Hin.
Qed.

(** C4 (what the code does). On the files the parser returns, the
    logical-bug detector never emits the issue for code after [return]:
    its pattern asks for a line feed inside the line, and no parsed line
    holds one. *)
Theorem C4_unreachable_rule_never_fires
    (diff : string) (fc : FileChange) (i : ReviewIssue) :
  In fc (parseDiff diff) -> In i (analyzeLogicalBugs fc) ->
  title i <> unreachableTitle.
Proof.
  intros Hfc Hi. unfold analyzeLogicalBugs in Hi.
  apply in_flat_map in Hi. destruct Hi as (l & Hl & Hi).
  apply (logicalBugsOfLine_titles fc (getFileExtension (fileName fc)) l i);
    [|exact Hi].
  apply unreachablePattern_needs_lineFeed.
  unfold addedLinesOf in Hl. apply filter_In in Hl. destruct Hl as [Hl _].
  pose proof (parseDiff_lineFeedFree diff fc Hfc) as HF.
  unfold LineFeedFree in HF. rewrite Forall_forall in HF. now apply HF.
Qed.

Lemma C4_unreachable_rule_never_fires_witness :
  In returnFile (parseDiff returnDiff)
  /\ analyzeLogicalBugs returnFile
     = [plainIssue minor unboundedAccessTitle
          "Direct array indexing without length validation" "x.js" 7
          "Check array length before accessing elements"
          ">   7+ return a[0]; cleanup();"]
  /\ title (plainIssue minor unboundedAccessTitle
          "Direct array indexing without length validation" "x.js" 7
          "Check array length before accessing elements"
          ">   7+ return a[0]; cleanup();") <> unreachableTitle.
Proof.
  assert (H1 : In returnFile (parseDiff returnDiff)) by (vm_compute; left; reflexivity).
  assert (H2 : analyzeLogicalBugs returnFile
     = [plainIssue minor unboundedAccessTitle
          "Direct array indexing without length validation" "x.js" 7
          "Check array length before accessing elements"
          ">   7+ return a[0]; cleanup();"]) by (vm_compute; reflexivity).
  split; [exact H1|]. split; [exact H2|].
  apply (C4_unreachable_rule_never_fires returnDiff returnFile _ H1).
  rewrite H2. left. reflexivity.
Defined.

(** C5 (what the code does). An added line with a literal index between
    brackets is flagged for array access without a bounds check even when
    the same line holds a [.length] check: the test for [.length] only
    guards the second alternative of the condition. *)
Theorem C5_literal_index_flagged_despite_length_check
    (fc : FileChange) (l : LineChange) :
  In l (addedLinesOf fc) ->
  test literalIndexPattern (content l) = true ->
  test lengthPattern (content l) = true ->
  exists i, In i (analyzeLogicalBugs fc)
            /\ title i = unboundedAccessTitle
            /\ line i = Some (lineNumber l).
Proof.
  intros Hl Hidx _.
  exists (plainIssue minor unboundedAccessTitle
            "Direct array indexing without length validation"
            (fileName fc) (lineNumber l)
            "Check array length before accessing elements"
            (getCodeContext fc (lineNumber l) 2)).
  split; [|split; reflexivity].
  unfold analyzeLogicalBugs. apply in_flat_map. exists l. split; [exact Hl|].
  unfold logicalBugsOfLine. rewrite Hidx. cbn [orb].
  apply in_or_app. right. apply in_or_app. left. left. reflexivity.
Qed.

Lemma C5_literal_index_flagged_despite_length_check_witness :
  In guardedIndexFile (parseDiff guardedIndexDiff)
  /\ test lengthPattern (content guardedIndexLine) = true
  /\ exists i, In i (analyzeLogicalBugs guardedIndexFile)
               /\ title i = unboundedAccessTitle
               /\ line i = Some (lineNumber guardedIndexLine).
Proof.
  split; [vm_compute; left; reflexivity|].
  split; [vm_compute; reflexivity|].
  apply (C5_literal_index_flagged_despite_length_check guardedIndexFile guardedIndexLine).
  - vm_compute. left. reflexivity.
  - vm_compute. reflexivity.
  - vm_compute. reflexivity.
Defined.

(** C9. The detectors do not read the review prompt: any two prompts
    give the same issues for a file, and the same summary for given files
    and issues. *)
Theorem C9_prompt_is_not_read
    (fileChange : FileChange) (files : list FileChange)
    (issues0 : list ReviewIssue) (p1 p2 : string) :
  analyzeFileChange fileChange p1 = analyzeFileChange fileChange p2
  /\ generateSummary files issues0 p1 = generateSummary files issues0 p2.
Proof. split; reflexivity. Qed.

(** ** The context window *)

Lemma filter_perm {A : Type} (p : A -> bool) (l l' : list A) :
  Permutation l l' -> Permutation (filter p l) (filter p l').
Proof.
  induction 1 as [|x l l' _ IH|x y l|l l' l'' _ IH1 _ IH2]; simpl.
  - constructor.
  - destruct (p x); [now constructor | exact IH].
  - destruct (p x), (p y); try apply Permutation_refl. apply perm_swap.
  - eapply perm_trans; eassumption.
Qed.


Lemma compareLines_key (x y : LineChange) :
  compareLines x y <= 0 <-> lineNumber x <= lineNumber y.
Proof. unfold compareLines. lia. Qed.

Lemma allLines_perm (fc : FileChange) : Permutation (changes fc) (allLinesOf fc).
Proof. apply sortBy_perm. Qed.


Lemma allLines_find (fc : FileChange) (target : Z) :
  find (fun l => lineNumber l =? target) (allLinesOf fc)
  = find (fun l => lineNumber l =? target) (changes fc).
Proof. apply (sortBy_find lineNumber compareLines compareLines_key). Qed.



Lemma join_single (sep x : string) : join sep [x] = x.
Proof. reflexivity. Qed.


Lemma find_some_any {A : Type} (p : A -> bool) (l : list A) (x : A) :
  In x l -> p x = true -> exists y, find p l = Some y.
Proof.
  intros Hx Hp. destruct (find p l) as [y|] eqn:E; [now exists y|].
  rewrite (find_none _ _ E x Hx) in Hp. discriminate.
Qed.

Lemma sliceFrom_incl {A : Type} (k : Z) (l : list A) (x : A) :
  In x (sliceFrom k l) -> In x l.
Proof.
  unfold sliceFrom. destruct (k <? 0); intros H;
    match type of H with In _ (skipn ?n _) =>
      rewrite <- (firstn_skipn n l); apply in_or_app; now right end.
Qed.

Lemma sliceTo_incl {A : Type} (k : Z) (l : list A) (x : A) :
  In x (sliceTo k l) -> In x l.
Proof.
  unfold sliceTo. destruct (k <? 0); intros H;
    match type of H with In _ (firstn ?n _) =>
      rewrite <- (firstn_skipn n l); apply in_or_app; now left end.
Qed.








(** * Further properties of the parser *)

(** ** Splitting the diff text into blocks *)

Lemma splitOnDiffGit_skip (k : nat) (bol : bool) (s : string) :
  (k <= String.length s)%nat -> (0 < k)%nat ->
  splitOnDiffGit bol k s = splitOnDiffGit false 0 (drop k s).
Proof.
  revert bol s. induction k as [|k IH]; intros bol s Hk Hpos; [lia|].
  destruct s as [|c s]; [simpl in Hk; lia|].
  simpl in Hk. cbn [splitOnDiffGit drop].
  destruct k as [|k]; [destruct s; reflexivity|].
  apply IH; lia.
Qed.

Lemma splitOnDiffGit_at_separator (rest : string) :
  splitOnDiffGit true 0 ("diff --git" ++ rest)%string
  = (EmptyString, fst (splitOnDiffGit false 0 rest)
                  :: snd (splitOnDiffGit false 0 rest)).
Proof.
  change ("diff --git" ++ rest)%string with (String "d" ("iff --git" ++ rest)%string).
  cbn [splitOnDiffGit].
  assert (E : startsWith (String "d" ("iff --git" ++ rest)) "diff --git" = true).
  { apply prefix_spec. now exists rest. }
  rewrite E. cbn [andb].
  rewrite (splitOnDiffGit_skip 9 false); [|rewrite string_length_app; simpl; lia|lia].
  change 9%nat with (String.length "iff --git"). rewrite drop_app_length.
  destruct (splitOnDiffGit false 0 rest). reflexivity.
Qed.

(** Splitting loses nothing: the pieces, each behind its separator, read
    back as the text. *)
Lemma splitOnDiffGit_roundtrip (n : nat) (s : string) (bol : bool) :
  (String.length s <= n)%nat ->
  s = (fst (splitOnDiffGit bol 0 s)
       ++ concatAll (map (fun h => "diff --git" ++ h) (snd (splitOnDiffGit bol 0 s))))%string.
Proof.
  revert s bol. induction n as [|n IH]; intros s bol Hn.
  - destruct s; [reflexivity | simpl in Hn; lia].
  - destruct s as [|c s']; [reflexivity|].
    cbn [splitOnDiffGit].
    destruct (bol && startsWith (String c s') "diff --git") eqn:E.
    + apply andb_true_iff in E. destruct E as [-> E].
      apply startsWith_split in E. simpl String.length in E.
      set (rest := drop 10 (String c s')) in *.
      assert (Hlen : (String.length rest <= n)%nat).
      { apply (f_equal String.length) in E. rewrite string_length_app in E.
        simpl in E, Hn. lia. }
      pose proof (splitOnDiffGit_at_separator rest) as A.
      rewrite <- E in A. cbn [splitOnDiffGit] in A.
      assert (E' : startsWith (String c s') "diff --git" = true).
      { apply prefix_spec. now exists rest. }
      rewrite E' in A. cbn [andb] in A.
      destruct (splitOnDiffGit false 9 s') as [p ps]. injection A as -> ->.
      cbn [fst snd map concatAll].
      etransitivity; [exact E|].
      change (EmptyString ++ ?x)%string with x.
      rewrite sapp_assoc. f_equal.
      apply (IH rest false Hlen).
    + simpl in Hn.
      pose proof (IH s' (isLineTerminator c) ltac:(lia)) as R.
      destruct (splitOnDiffGit (isLineTerminator c) 0 s') as [p ps].
      cbn [fst snd] in *.
      change (String c p ++ ?x)%string with (String c (p ++ x)%string).
      f_equal. exact R.
Qed.

Lemma snoc_string_inj (a b : string) (x y : ascii) :
  (a ++ String x EmptyString)%string = (b ++ String y EmptyString)%string -> x = y.
Proof.
  revert b. induction a as [|c a IH]; intros b H.
  - destruct b as [|d b]; simpl in H; [now injection H|].
    injection H as _ H. destruct b; discriminate.
  - destruct b as [|d b]; simpl in H.
    + injection H as _ H. destruct a; discriminate.
    + injection H as _ H. now apply IH in H.
Qed.

Lemma splitOnDiffGit_none (s : string) (bol : bool) :
  (bol = true -> startsWith s "diff --git" = false) ->
  (forall pre c post, s = (pre ++ String c ("diff --git" ++ post))%string ->
     isLineTerminator c = false) ->
  splitOnDiffGit bol 0 s = (s, []).
Proof.
  revert bol. induction s as [|c s IH]; intros bol H1 H2; [reflexivity|].
  cbn [splitOnDiffGit].
  assert (E : bol && startsWith (String c s) "diff --git" = false).
  { destruct bol; [now rewrite H1 | reflexivity]. }
  rewrite E. rewrite (IH (isLineTerminator c)); [reflexivity| |].
  - intros Hc. destruct (startsWith s "diff --git") eqn:S; [|reflexivity].
    apply prefix_spec in S. destruct S as [post ->].
    rewrite (H2 EmptyString c post eq_refl) in Hc. discriminate.
  - intros pre c' post ->. apply (H2 (String c pre) c' post). reflexivity.
Qed.

Lemma parseDiff_noSeparator (diff : string) :
  NoSeparatorAtLineStart diff -> parseDiff diff = [].
Proof.
  intros H. unfold parseDiff, splitHunks.
  rewrite splitOnDiffGit_none; [reflexivity| |].
  - intros _. destruct (startsWith diff "diff --git") eqn:S; [|reflexivity].
    apply prefix_spec in S. destruct S as [post E].
    destruct (H EmptyString post E) as (pre' & c & Hp & _).
    destruct pre'; discriminate.
  - intros pre c post E.
    assert (E' : diff = ((pre ++ String c EmptyString) ++ "diff --git" ++ post)%string).
    { rewrite E, sapp_assoc. reflexivity. }
    destruct (H _ _ E') as (pre' & c' & Hp & Hc).
    apply snoc_string_inj in Hp. now subst c'.
Qed.

(** X1. A diff text in which no line starts with the separator (the
    empty text among them) parses to no file at all. *)
Theorem X1_no_separator_no_files (diff : string) :
  NoSeparatorAtLineStart diff -> parseDiff diff = [].
Proof. exact (parseDiff_noSeparator diff). Qed.

Lemma X1_no_separator_no_files_witness :
  NoSeparatorAtLineStart "x diff --git a/x b/x"
  /\ parseDiff "x diff --git a/x b/x" = [].
Proof.
  assert (H : NoSeparatorAtLineStart "x diff --git a/x b/x").
  { intros pre post E.
    destruct pre as [|c1 pre]; [discriminate E|].
    destruct pre as [|c2 pre]; [discriminate E|].
    destruct pre as [|c3 pre].
    - simpl in E. injection E as <- <- _. exists "x", " "%char. split; reflexivity.
    - exfalso. simpl in E. injection E as _ _ _ E.
      repeat (destruct pre as [|? pre]; simpl in E; try discriminate E). }
  split; [exact H|]. exact (X1_no_separator_no_files _ H).
Defined.

Lemma filter_all {A : Type} (p : A -> bool) (l : list A) :
  Forall (fun x => p x = true) l -> filter p l = l.
Proof.
  induction 1 as [|x l Hx _ IH]; [reflexivity|]. simpl. now rewrite Hx, IH.
Qed.

(** X2. When the header of every block parses, the [rawDiff] fields of
    the parsed files, put one after the other behind the text that
    precedes the first block, read back as the diff text: the parser
    partitions its input. *)
Theorem X2_raw_diffs_reassemble_the_text (diff : string) :
  Forall (fun h => headerMatches h = true) (splitHunks diff) ->
  diff = (preambleOf diff ++ concatAll (map rawDiff (parseDiff diff)))%string.
Proof.
  intros H. unfold parseDiff. rewrite fold_parseHunk_rawDiff. simpl map at 1.
  rewrite (filter_all _ _ H).
  apply (splitOnDiffGit_roundtrip (String.length diff) diff true). lia.
Qed.

Lemma X2_raw_diffs_reassemble_the_text_witness :
  Forall (fun h => headerMatches h = true) (splitHunks farDiff)
  /\ farDiff = (preambleOf farDiff ++ concatAll (map rawDiff (parseDiff farDiff)))%string.
Proof.
  assert (H : Forall (fun h => headerMatches h = true) (splitHunks farDiff)).
  { vm_compute. repeat constructor. }
  split; [exact H|]. exact (X2_raw_diffs_reassemble_the_text farDiff H).
Defined.

(** ** The header line of a block *)

Lemma sapp_inv_head (a b c : string) : (a ++ b)%string = (a ++ c)%string -> b = c.
Proof.
  induction a as [|x a IH]; simpl; [auto|]. intros H. injection H as H. auto.
Qed.

Lemma splitOn_cons (sep : ascii) (s : string) :
  exists l ls, splitOn sep s = l :: ls.
Proof.
  destruct s as [|c s]; simpl; [eauto|].
  destruct (Ascii.eqb c sep); [eauto|].
  destruct (splitOn sep s); eauto.
Qed.

Lemma header_remainder_is_context (rest : string) :
  lineKind (" a/" ++ rest) = ContextLine.
Proof.
  unfold lineKind. cbn -[trim String.eqb].
  destruct (String.eqb (trim (String " " (String "a" (String "/" rest)))) EmptyString)
    eqn:E; [|reflexivity].
  apply String.eqb_eq in E. unfold trim in E. cbn [trimStart] in E.
  change (isWhiteSpace " ") with true in E. change (isWhiteSpace "a") with false in E.
  cbv iota in E. now apply trimEnd_nonblank in E.
Qed.

(** X3. The first change of every parsed file is not a line of the
    file: the line loop also visits the header line of the block, whose
    remainder [ a/<old> b/<new>] it records as a context line with
    number 0.  So [changes] is never empty. *)
Theorem X3_header_line_is_recorded_as_context (diff : string) (fc : FileChange) :
  In fc (parseDiff diff) ->
  hd_error (changes fc) = Some (headerChange fc).
Proof.
  intros Hin.
  pose proof (parseDiff_files
    (fun f => hd_error (changes f) = Some (headerChange f)) diff) as H.
  rewrite Forall_forall in H. apply H; [|exact Hin].
  intros hunk old new Hm. unfold headerChange. simpl.
  apply fileMatch_sound in Hm. unfold headerOf in Hm.
  destruct (splitOn_cons LF hunk) as (l0 & ls & Hs).
  unfold splitLines in *. rewrite Hs in *. simpl hd in Hm.
  change ("diff --git a/" ++ old ++ " b/" ++ new)%string
    with ("diff --git" ++ (" a/" ++ old ++ " b/" ++ new))%string in Hm.
  apply sapp_inv_head in Hm. subst l0.
  rewrite parseLines_cons.
  destruct (parseLines_extends ls
              (parseLine initialState (" a/" ++ old ++ " b/" ++ new)%string))
    as [r Hr].
  rewrite Hr. rewrite parseLine_by_kind, header_remainder_is_context.
  reflexivity.
Qed.

Lemma X3_header_line_is_recorded_as_context_witness :
  In sampleFile (parseDiff sampleDiff)
  /\ hd_error (changes sampleFile) = Some (headerChange sampleFile).
Proof.
  assert (Hin : In sampleFile (parseDiff sampleDiff))
    by (vm_compute; left; reflexivity).
  split; [exact Hin|].
  exact (X3_header_line_is_recorded_as_context sampleDiff sampleFile Hin).
Defined.

(** ** Recorded numbers and contents *)

Lemma parseDigits_nonneg (s : string) (acc : Z) : 0 <= acc -> 0 <= parseDigits acc s.
Proof.
  revert acc. induction s as [|c s IH]; intros acc H; cbn [parseDigits]; [exact H|].
  destruct (isDigit c) eqn:E; [|exact H]. apply IH.
  unfold isDigit in E. apply andb_true_iff in E. destruct E as [E _].
  apply Nat.leb_le in E. lia.
Qed.

Lemma parseInt_nonneg (s : string) : 0 <= parseInt s.
Proof. apply parseDigits_nonneg. lia. Qed.

Lemma parseLine_nonNegative (st : ParseState) (line : string) :
  NonNegative st -> NonNegative (parseLine st line).
Proof.
  intros (Ho & Hn & Hall). rewrite parseLine_by_kind. unfold NonNegative.
  destruct (lineKind line); simpl.
  - destruct (matchHunkHeader line) as [[o n]|]; simpl; auto using parseInt_nonneg.
  - repeat split; try lia. apply Forall_app. split; [exact Hall|]. now repeat constructor.
  - repeat split; try lia. apply Forall_app. split; [exact Hall|]. now repeat constructor.
  - repeat split; try lia. apply Forall_app. split; [exact Hall|]. now repeat constructor.
  - auto.
Qed.

Lemma parseLines_nonNegative (lines : list string) (st : ParseState) :
  NonNegative st -> NonNegative (parseLines st lines).
Proof.
  revert st. induction lines as [|l ls IH]; intros st H; [exact H|].
  rewrite parseLines_cons. apply IH, parseLine_nonNegative, H.
Qed.

(** X4. No parsed change carries a negative line number, whatever the
    diff text: the counters start at 0, a hunk header sets them to
    numerals, and they only grow. *)
Theorem X4_line_numbers_are_not_negative
    (diff : string) (fc : FileChange) (c : LineChange) :
  In fc (parseDiff diff) -> In c (changes fc) -> 0 <= lineNumber c.
Proof.
  intros Hfc Hc.
  pose proof (parseDiff_files
    (fun f => Forall (fun x => 0 <= lineNumber x) (changes f)) diff) as H.
  rewrite Forall_forall in H.
  assert (HF : Forall (fun x => 0 <= lineNumber x) (changes fc)).
  { apply H; [|exact Hfc]. intros hunk old new _. simpl.
    apply (parseLines_nonNegative (splitLines hunk) initialState).
    repeat split; simpl; try lia. constructor. }
  rewrite Forall_forall in HF. now apply HF.
Qed.

Lemma X4_line_numbers_are_not_negative_witness :
  0 <= lineNumber (mkLineChange addition 21 "const b = 3;").
Proof.
  apply (X4_line_numbers_are_not_negative sampleDiff sampleFile).
  - vm_compute. left. reflexivity.
  - vm_compute. do 3 right. left. reflexivity.
Defined.

(** X5. The content of a parsed change never holds a line feed: every
    content is a piece of one line of the block. *)
Theorem X5_contents_hold_no_line_feed
    (diff : string) (fc : FileChange) (c : LineChange) :
  In fc (parseDiff diff) -> In c (changes fc) -> hasChar LF (content c) = false.
Proof.
  intros Hfc Hc. pose proof (parseDiff_lineFeedFree diff fc Hfc) as H.
  unfold LineFeedFree in H. rewrite Forall_forall in H. now apply H.
Qed.

Lemma X5_contents_hold_no_line_feed_witness :
  hasChar LF (content (mkLineChange addition 21 "const b = 3;")) = false.
Proof.
  apply (X5_contents_hold_no_line_feed sampleDiff sampleFile).
  - vm_compute. left. reflexivity.
  - vm_compute. do 3 right. left. reflexivity.
Defined.

Lemma StronglySorted_snoc (l : list Z) (x : Z) :
  StronglySorted Z.lt l -> Forall (fun y => y < x) l ->
  StronglySorted Z.lt (l ++ [x]).
Proof.
  induction 1 as [|y l HS IH Hall]; intros HF; simpl.
  - repeat constructor.
  - inversion HF; subst. constructor; [now apply IH|].
    apply Forall_app. split; [exact Hall | now repeat constructor].
Qed.

Lemma Increasing_init (o n : Z) : Increasing o n (mkParseState 0 0 [] o n).
Proof. unfold Increasing; simpl. repeat split; try constructor; lia. Qed.

Lemma parseLine_increasing (o n : Z) (st : ParseState) (line : string) :
  noHunkHeader line -> Increasing o n st -> Increasing o n (parseLine st line).
Proof.
  intros Hh Hi. rewrite parseLine_by_kind.
  pose proof (noHunkHeader_kind line Hh) as Hk.
  destruct Hi as (S1 & F1 & S2 & F2 & Bo & Bn).
  destruct (lineKind line); try congruence; unfold Increasing; simpl;
    rewrite ?filter_app, ?map_app; simpl; rewrite ?app_nil_r.
  - repeat split; try lia; try assumption.
    + apply StronglySorted_snoc; [exact S1|].
      eapply Forall_impl; [|exact F1]. simpl; intros; lia.
    + apply Forall_app. split.
      * eapply Forall_impl; [|exact F1]. simpl; intros; lia.
      * repeat constructor; lia.
  - repeat split; try lia; try assumption.
    + apply StronglySorted_snoc; [exact S2|].
      eapply Forall_impl; [|exact F2]. simpl; intros; lia.
    + apply Forall_app. split.
      * eapply Forall_impl; [|exact F2]. simpl; intros; lia.
      * repeat constructor; lia.
  - repeat split; try lia.
    + exact S1.
    + eapply Forall_impl; [|exact F1]. simpl; intros; lia.
    + apply StronglySorted_snoc; [exact S2|].
      eapply Forall_impl; [|exact F2]. simpl; intros; lia.
    + apply Forall_app. split.
      * eapply Forall_impl; [|exact F2]. simpl; intros; lia.
      * repeat constructor; lia.
  - repeat split; assumption.
Qed.

Lemma parseLines_increasing (o n : Z) (body : list string) (st : ParseState) :
  Forall noHunkHeader body -> Increasing o n st -> Increasing o n (parseLines st body).
Proof.
  revert st. induction body as [|l ls IH]; intros st HF Hi; [exact Hi|].
  inversion HF; subst. rewrite parseLines_cons.
  apply IH; [assumption|]. now apply parseLine_increasing.
Qed.

(** X6. Within a hunk whose numbers stay within the safe integers
    (each offset plus the number of lines of the hunk is at most
    [MAX_SAFE_INTEGER]), the numbers of the additions increase strictly,
    starting at or above the new-file offset, and so do the numbers of
    the deletions and context lines taken together, starting at or above
    the old-file offset. *)
Theorem X6_numbers_increase_within_a_hunk (o n : Z) (body : list string) :
  Forall noHunkHeader body ->
  0 <= o -> 0 <= n ->
  o + Z.of_nat (List.length body) <= MAX_SAFE_INTEGER ->
  n + Z.of_nat (List.length body) <= MAX_SAFE_INTEGER ->
  let hunkChanges := hunkChangesOf o n body in
  let news := map lineNumber (filter isAddition hunkChanges) in
  let olds := map lineNumber (filter (fun c => negb (isAddition c)) hunkChanges) in
  StronglySorted Z.lt news /\ Forall (fun x => n <= x) news
  /\ StronglySorted Z.lt olds /\ Forall (fun x => o <= x) olds.
Proof.
  intros HF _ _ _ _. cbv zeta.
  destruct (parseLines_increasing o n body _ HF (Increasing_init o n))
    as (S1 & F1 & S2 & F2 & _).
  unfold hunkChangesOf. repeat split; try assumption.
  - eapply Forall_impl; [|exact F1]. simpl; intros; lia.
  - eapply Forall_impl; [|exact F2]. simpl; intros; lia.
Qed.

Lemma X6_numbers_increase_within_a_hunk_witness :
  let hunkChanges :=
    hunkChangesOf 10 20 [" const a = 1;"; "-const b = 2;"; "+const b = 3;"; "+c"] in
  let news := map lineNumber (filter isAddition hunkChanges) in
  let olds := map lineNumber (filter (fun c => negb (isAddition c)) hunkChanges) in
  StronglySorted Z.lt news /\ Forall (fun x => 20 <= x) news
  /\ StronglySorted Z.lt olds /\ Forall (fun x => 10 <= x) olds.
Proof.
  apply (X6_numbers_increase_within_a_hunk 10 20
           [" const a = 1;"; "-const b = 2;"; "+const b = 3;"; "+c"]).
  - repeat constructor.
  - lia.
  - lia.
  - vm_compute. discriminate.
  - vm_compute. discriminate.
Defined.

(** ** Hunk headers that parse *)

Lemma spanWhile_complete (p : ascii -> bool) (d r : string) :
  allChars p d = true -> stopsAt p r = true -> spanWhile p (d ++ r) = (d, r).
Proof.
  intros Hd Hr. induction d as [|c d IH]; simpl in *.
  - destruct r as [|x r]; [reflexivity|]. simpl in Hr.
    apply negb_true_iff in Hr. cbn [spanWhile]. now rewrite Hr.
  - apply andb_true_iff in Hd. destruct Hd as [Hc Hd].
    rewrite Hc, (IH Hd). reflexivity.
Qed.

(** After a start numeral, an optional count followed by [tail] (which
    does not start with a digit or a comma) is skipped up to [tail]. *)
Lemma count_suffix_skipped (k tail : string) :
  isCountSuffix k -> stopsAt isDigit tail = true ->
  stopsAt (fun c => Ascii.eqb c ",") tail = true ->
  stopsAt isDigit (k ++ tail) = true
  /\ spanDigits (dropComma (k ++ tail)) = (fst (spanDigits (dropComma (k ++ tail))), tail).
Proof.
  intros [->|(d & -> & Hd)] Ht Hc.
  - split; [exact Ht|]. simpl.
    assert (E : dropComma tail = tail).
    { destruct tail as [|x t]; [reflexivity|]. simpl in Hc.
      apply negb_true_iff in Hc. simpl.
      destruct x as [[] [] [] [] [] [] [] []]; try reflexivity; discriminate. }
    rewrite E. unfold spanDigits.
    pose proof (spanWhile_complete isDigit EmptyString tail eq_refl Ht) as Q.
    simpl in Q. rewrite Q. reflexivity.
  - split; [reflexivity|].
    change (("," ++ d) ++ tail)%string with (String "," (d ++ tail)).
    cbn [dropComma]. unfold spanDigits.
    rewrite (spanWhile_complete isDigit d tail Hd Ht). reflexivity.
Qed.

Lemma hunkHeaderAt_complete (o k1 n k2 rest : string) :
  isNumeral o -> isNumeral n -> isCountSuffix k1 -> isCountSuffix k2 ->
  hunkHeaderAt (hunkHeaderLine o k1 n k2 rest) = Some (o, n).
Proof.
  intros [Ho No] [Hn Nn] K1 K2. unfold hunkHeaderLine, hunkHeaderAt.
  assert (E0 : startsWith ("@@ -" ++ o ++ k1 ++ " +" ++ n ++ k2 ++ " @@" ++ rest) "@@ -"
               = true).
  { apply prefix_spec. eexists. reflexivity. }
  rewrite E0.
  change 4%nat with (String.length "@@ -"). rewrite drop_app_length.
  destruct (count_suffix_skipped k1 (" +" ++ n ++ k2 ++ " @@" ++ rest)%string K1
              eq_refl eq_refl) as [S1 D1].
  destruct (count_suffix_skipped k2 (" @@" ++ rest)%string K2 eq_refl eq_refl)
    as [S2 D2].
  unfold spanDigits at 1.
  rewrite (spanWhile_complete isDigit o _ Ho S1).
  apply String.eqb_neq in No, Nn. rewrite No.
  rewrite D1.
  assert (E1 : startsWith (" +" ++ n ++ k2 ++ " @@" ++ rest) " +" = true).
  { apply prefix_spec. eexists. reflexivity. }
  rewrite E1.
  change 2%nat with (String.length " +"). rewrite drop_app_length.
  unfold spanDigits at 1.
  rewrite (spanWhile_complete isDigit n _ Hn S2). rewrite Nn.
  rewrite D2.
  assert (E2 : startsWith (" @@" ++ rest) " @@" = true).
  { apply prefix_spec. eexists. reflexivity. }
  rewrite E2. reflexivity.
Qed.

(** X7. Every line of the form [@@ -<old>[,<count>] +<new>[,<count>] @@],
    with anything after it, resets the counters to the two numerals,
    whatever the state before; the counts are not read. *)
Theorem X7_well_formed_header_sets_counters
    (st : ParseState) (o k1 n k2 rest : string) :
  isNumeral o -> isNumeral n -> isCountSuffix k1 -> isCountSuffix k2 ->
  parseLine st (hunkHeaderLine o k1 n k2 rest)
  = mkParseState (st_additions st) (st_deletions st) (st_changes st)
                 (parseInt o) (parseInt n).
Proof.
  intros Ho Hn K1 K2.
  apply parseLine_header.
  - apply prefix_spec. unfold hunkHeaderLine. eexists. reflexivity.
  - pose proof (hunkHeaderAt_complete o k1 n k2 rest Ho Hn K1 K2) as H.
    unfold hunkHeaderLine in *.
    change ("@@ -" ++ o ++ k1 ++ " +" ++ n ++ k2 ++ " @@" ++ rest)%string
      with (String "@" ("@ -" ++ o ++ k1 ++ " +" ++ n ++ k2 ++ " @@" ++ rest)%string)
      in *.
    cbn [matchHunkHeader]. now rewrite H.
Qed.

Lemma X7_well_formed_header_sets_counters_witness :
  parseLine initialState (hunkHeaderLine "10" ",4" "20" EmptyString " function f() {")
  = mkParseState 0 0 [] (parseInt "10") (parseInt "20").
Proof.
  apply (X7_well_formed_header_sets_counters initialState
           "10" ",4" "20" EmptyString " function f() {").
  - split; [reflexivity | discriminate].
  - split; [reflexivity | discriminate].
  - right. exists "4". split; reflexivity.
  - left. reflexivity.
Defined.

(** * Further properties of the filter *)

Lemma filter_filter {A : Type} (f g : A -> bool) (l : list A) :
  filter g (filter f l) = filter (fun x => f x && g x) l.
Proof.
  induction l as [|x l IH]; [reflexivity|]. simpl.
  destruct (f x); simpl; [destruct (g x)|]; now rewrite IH.
Qed.

(** X8. The two filters compose: filtering by extension and then by
    exclude pattern, or the other way round, gives what one call with
    both lists gives, and filtering twice changes nothing. *)
Theorem X8_filters_compose
    (files : list FileChange) (extensions excludePatterns : option (list string)) :
  filterFiles (filterFiles files extensions None) None excludePatterns
    = filterFiles files extensions excludePatterns
  /\ filterFiles (filterFiles files None excludePatterns) extensions None
    = filterFiles files extensions excludePatterns
  /\ filterFiles (filterFiles files extensions excludePatterns)
       extensions excludePatterns
    = filterFiles files extensions excludePatterns.
Proof.
  unfold filterFiles. rewrite !filter_filter.
  repeat split; apply filter_ext; intros f; cbv zeta;
    destruct extensions as [[|e es]|], excludePatterns as [[|q qs]|];
    cbn [List.length Nat.ltb Nat.leb negb andb];
    repeat match goal with
    | |- context [existsb ?p ?l] => destruct (existsb p l)
    end; reflexivity.
Qed.

Lemma includes_empty (s : string) : includes s EmptyString = true.
Proof. destruct s; reflexivity. Qed.

(** X9. An exclude list that holds the empty string excludes every
    file: the empty string is a substring of every name. *)
Theorem X9_empty_exclude_pattern_drops_everything
    (files : list FileChange) (extensions : option (list string))
    (patterns : list string) :
  In EmptyString patterns ->
  filterFiles files extensions (Some patterns) = [].
Proof.
  intros Hin. unfold filterFiles.
  assert (L : (0 <? List.length patterns)%nat = true).
  { destruct patterns; [destruct Hin | reflexivity]. }
  rewrite L.
  induction files as [|f fs IH]; [reflexivity|]. simpl.
  assert (E : existsb (fun pattern => includes (toLowerCase (fileName f))
                                        (toLowerCase pattern)) patterns = true).
  { apply existsb_exists. exists EmptyString. split; [exact Hin | apply includes_empty]. }
  rewrite E. destruct (negb _); exact IH.
Qed.

Lemma X9_empty_exclude_pattern_drops_everything_witness :
  filterFiles [sampleFile] (Some [".ts"]) (Some ["test"; EmptyString]) = [].
Proof.
  apply (X9_empty_exclude_pattern_drops_everything [sampleFile] (Some [".ts"])
           ["test"; EmptyString]).
  right. left. reflexivity.
Defined.

(** * Further properties of the orchestrator *)

Lemma fold_analyzeStep (prompt : string) (files : list FileChange)
    (issues0 : list ReviewIssue) (a d : Z) :
  fold_left (analyzeStep prompt) files (issues0, a, d)
  = (issues0 ++ flat_map (fun f => analyzeFileChange f prompt) files,
     a + sumBy additions files, d + sumBy deletions files).
Proof.
  revert issues0 a d. induction files as [|f fs IH]; intros issues0 a d.
  - simpl. rewrite app_nil_r, !Z.add_0_r. reflexivity.
  - cbn [fold_left]. unfold analyzeStep at 2. rewrite IH.
    cbn [flat_map sumBy fold_right]. fold (sumBy additions fs) (sumBy deletions fs).
    rewrite <- app_assoc, !Z.add_assoc. reflexivity.
Qed.

Lemma parseDiff_counts (diff : string) (fc : FileChange) :
  In fc (parseDiff diff) ->
  additions fc = countIf isAddition (changes fc)
  /\ deletions fc = countIf isDeletion (changes fc).
Proof.
  intros Hin.
  pose proof (parseDiff_files
    (fun f => additions f = countIf isAddition (changes f)
              /\ deletions f = countIf isDeletion (changes f)) diff) as H.
  rewrite Forall_forall in H. apply H; [|exact Hin].
  intros hunk old new _. simpl.
  apply (parseLines_counts (splitLines hunk) initialState). split; reflexivity.
Qed.

Lemma sumBy_countIf (p : LineChange -> bool) (f : FileChange -> Z)
    (files : list FileChange) :
  Forall (fun fc => f fc = countIf p (changes fc)) files ->
  sumBy f files = countIf p (flat_map changes files).
Proof.
  induction 1 as [|fc fs Hfc _ IH]; [reflexivity|].
  cbn [sumBy fold_right flat_map]. fold (sumBy f fs).
  now rewrite countIf_app, Hfc, IH.
Qed.

(** X10. In every review result, [filesChanged] is the number of files
    that pass the filter, [linesAdded] and [linesRemoved] are the numbers
    of addition and deletion changes recorded in those files, the issues
    are the issues of those files in file order, sorted, and the summary
    is the one generated from those files and issues. *)
Theorem X10_result_reports_the_filtered_files
    (diff : string) (options : ReviewOptions) :
  let files := filteredFilesOf diff options in
  let emitted := flat_map (fun f => analyzeFileChange f (resolvePrompt options)) files in
  let result := analyzeDiff diff options in
  filesChanged result = Z.of_nat (List.length files)
  /\ linesAdded result = countIf isAddition (flat_map changes files)
  /\ linesRemoved result = countIf isDeletion (flat_map changes files)
  /\ issues result = sortIssues emitted
  /\ summary result = Some (generateSummary files emitted (resolvePrompt options)).
Proof.
  cbv zeta. unfold analyzeDiff. rewrite fold_analyzeStep. cbn [app].
  cbn [filesChanged linesAdded linesRemoved issues summary].
  assert (HF : Forall (fun fc => additions fc = countIf isAddition (changes fc)
                                 /\ deletions fc = countIf isDeletion (changes fc))
                      (filteredFilesOf diff options)).
  { apply Forall_forall. intros fc Hin. unfold filteredFilesOf, filterFiles in Hin.
    apply filter_In in Hin. destruct Hin as [Hin _].
    exact (parseDiff_counts diff fc Hin). }
  repeat split.
  - rewrite Z.add_0_l. apply sumBy_countIf.
    eapply Forall_impl; [|exact HF]. now intros fc [H _].
  - rewrite Z.add_0_l. apply sumBy_countIf.
    eapply Forall_impl; [|exact HF]. now intros fc [_ H].
Qed.

(** X11. The review prompt has no effect on the review: two option
    records that differ in the prompt only give the same result. *)
Theorem X11_prompt_does_not_change_the_result
    (diff : string) (p1 p2 : option string)
    (extensions excludePatterns0 : option (list string)) :
  analyzeDiff diff (mkReviewOptions p1 extensions excludePatterns0)
  = analyzeDiff diff (mkReviewOptions p2 extensions excludePatterns0).
Proof.
  unfold analyzeDiff. rewrite !fold_analyzeStep. reflexivity.
Qed.

(** X12. A diff text in which no line starts with the separator gives
    the empty review whatever the options: no file, no line, no issue,
    and the summary of a clean review. *)
Theorem X12_no_separator_gives_the_empty_review
    (diff : string) (options : ReviewOptions) :
  NoSeparatorAtLineStart diff ->
  analyzeDiff diff options = mkReviewResult 0 0 0 [] (Some emptySummary).
Proof.
  intros H. unfold analyzeDiff, filteredFilesOf.
  rewrite (parseDiff_noSeparator diff H). reflexivity.
Qed.

Lemma X12_no_separator_gives_the_empty_review_witness :
  analyzeDiff EmptyString (mkReviewOptions None (Some [".ts"]) None)
  = mkReviewResult 0 0 0 [] (Some emptySummary).
Proof.
  apply X12_no_separator_gives_the_empty_review.
  intros pre post E. destruct pre; discriminate E.
Defined.

(** * Further properties of the detectors *)

Lemma quality_follows (fc : FileChange) (i : ReviewIssue) :
  In i (analyzeCodeQuality fc) -> FollowsRule fc i.
Proof.
  unfold analyzeCodeQuality. intros H. apply in_flat_map in H.
  destruct H as (l & Hl & H). cbv beta in H. split_issue_blocks H.
  - destruct (120 <? String.length (content l))%nat; [|destruct H].
    destruct H as [<-|[]]. rule_instance l AnyFile. reflexivity.
  - destruct (testTodo false (content l)); [|destruct H].
    destruct H as [<-|[]]. rule_instance l AnyFile. reflexivity.
Qed.

Lemma security_follows (fc : FileChange) (i : ReviewIssue) :
  In i (analyzeSecurityIssues fc) -> FollowsRule fc i.
Proof.
  unfold analyzeSecurityIssues. intros H. apply in_flat_map in H.
  destruct H as (l & Hl & H). cbv beta in H.
  destruct (test secretPattern (toLowerCase (content l))); [|destruct H].
  destruct H as [<-|[]]. rule_instance l AnyFile. reflexivity.
Qed.

Lemma bestPractices_follows (fc : FileChange) (i : ReviewIssue) :
  In i (analyzeBestPractices fc) -> FollowsRule fc i.
Proof.
  unfold analyzeBestPractices. cbv zeta.
  destruct (String.eqb (getFileExtension (fileName fc)) ".ts"
            || String.eqb (getFileExtension (fileName fc)) ".js") eqn:E;
    [|intros []].
  intros H. apply in_flat_map in H. destruct H as (l & Hl & H). cbv beta in H.
  destruct (test looseEqualityPattern (content l)); [|destruct H].
  destruct H as [<-|[]]. rule_instance l ScriptFile.
  cbn [inScope]. now rewrite orb_comm.
Qed.

Lemma logicalBugs_follows (fc : FileChange) (i : ReviewIssue) :
  In i (analyzeLogicalBugs fc) -> FollowsRule fc i.
Proof.
  unfold analyzeLogicalBugs. cbv zeta. intros H. apply in_flat_map in H.
  destruct H as (l & Hl & H). unfold logicalBugsOfLine in H.
  unfold unboundedAccessTitle, unreachableTitle in H.
  split_issue_blocks H.
  - destruct (_ && _); [|destruct H]. destruct (_ && _); [|destruct H].
    destruct H as [<-|[]]. rule_instance l AnyFile. reflexivity.
  - destruct (_ || _); [|destruct H].
    destruct H as [<-|[]]. rule_instance l AnyFile. reflexivity.
  - destruct (test _ _); [|destruct H].
    destruct H as [<-|[]]. rule_instance l AnyFile. reflexivity.
  - destruct (test _ _); [|destruct H].
    destruct H as [<-|[]]. rule_instance l AnyFile. reflexivity.
  - destruct (test _ _); [|destruct H].
    destruct H as [<-|[]]. rule_instance l AnyFile. reflexivity.
  - destruct (_ && _) eqn:E; [|destruct H].
    destruct H as [<-|[]]. rule_instance l ScriptFile.
    apply andb_true_iff in E. cbn [inScope]. exact (proj1 E).
Qed.

Lemma performance_follows (fc : FileChange) (i : ReviewIssue) :
  In i (analyzePerformanceIssues fc) -> FollowsRule fc i.
Proof.
  unfold analyzePerformanceIssues. cbv zeta. intros H. apply in_flat_map in H.
  destruct H as (l & Hl & H). unfold performanceIssuesOfLine in H.
  split_issue_blocks H.
  - destruct (test _ _); [|destruct H].
    destruct H as [<-|[]]. rule_instance l AnyFile. reflexivity.
  - destruct (_ && _); [|destruct H].
    destruct H as [<-|[]]. rule_instance l AnyFile. reflexivity.
  - destruct (test _ _); [|destruct H].
    destruct H as [<-|[]]. rule_instance l AnyFile. reflexivity.
  - destruct (_ && _) eqn:E; [|destruct H].
    destruct H as [<-|[]]. rule_instance l ScriptFile.
    apply andb_true_iff in E. cbn [inScope]. exact (proj2 E).
  - destruct (_ && _); [|destruct H].
    destruct H as [<-|[]]. rule_instance l AnyFile. reflexivity.
Qed.

Lemma jsDocLoop_in (fc : FileChange) (added rest : list LineChange) (k : nat)
    (i : ReviewIssue) :
  In i (jsDocLoop fc added k rest) ->
  exists idx l, In l rest /\ In i (jsDocIssuesAt fc added idx l).
Proof.
  revert k. induction rest as [|l rest IH]; intros k H; [destruct H|].
  cbn [jsDocLoop] in H. apply in_app_or in H. destruct H as [H|H].
  - exists k, l. split; [now left | exact H].
  - destruct (IH _ H) as (idx & l' & Hl & Hi). exists idx, l'. split; [now right | exact Hi].
Qed.

Lemma jsDoc_follows (fc : FileChange) (i : ReviewIssue) :
  In i (analyzeJSDocIssues fc) -> FollowsRule fc i.
Proof.
  unfold analyzeJSDocIssues. cbv zeta.
  set (ext := getFileExtension (fileName fc)).
  destruct (negb (String.eqb ext ".js") && negb (String.eqb ext ".ts")
            && negb (String.eqb ext ".jsx") && negb (String.eqb ext ".tsx")) eqn:E;
    [intros []|].
  assert (S : inScope DocumentedFile ext = true).
  { cbn [inScope].
    destruct (String.eqb ext ".js"), (String.eqb ext ".ts"),
             (String.eqb ext ".jsx"), (String.eqb ext ".tsx");
      try reflexivity; discriminate. }
  intros H. apply jsDocLoop_in in H. destruct H as (idx & l & Hl & H).
  unfold jsDocIssuesAt in H. split_issue_blocks H.
  - destruct (isFunctionDeclaration _); [|destruct H].
    destruct (hasJSDocAbove _ _); cbn [negb] in H; [destruct H|].
    destruct H as [<-|[]]. rule_instance l DocumentedFile. exact S.
  - destruct (matchesAtStart _ _); [|destruct H].
    destruct (hasJSDocAbove _ _); cbn [negb] in H; [destruct H|].
    destruct H as [<-|[]]. rule_instance l DocumentedFile. exact S.
  - destruct (includes _ _); [|destruct H].
    destruct (findNextFunction _ _); [|destruct H].
    apply in_map_iff in H. destruct H as (x & <- & _).
    rule_instance l DocumentedFile. exact S.
Qed.

(** Every issue of a file instantiates a rule of the table at an added
    line of the file. *)
Lemma analyzeFileChange_follows (fc : FileChange) (prompt : string) (i : ReviewIssue) :
  In i (analyzeFileChange fc prompt) -> FollowsRule fc i.
Proof.
  unfold analyzeFileChange. intros H. split_issue_blocks H.
  - now apply quality_follows.
  - now apply security_follows.
  - now apply bestPractices_follows.
  - now apply logicalBugs_follows.
  - now apply jsDoc_follows.
  - now apply performance_follows.
Qed.

(** X13. Every issue the detectors emit for a file names that file and
    the line number of one of its addition changes. *)
Theorem X13_issues_point_at_added_lines
    (fc : FileChange) (prompt : string) (i : ReviewIssue) :
  In i (analyzeFileChange fc prompt) ->
  file i = fileName fc
  /\ exists l, In l (changes fc) /\ type l = addition
               /\ line i = Some (lineNumber l).
Proof.
  intros H. apply analyzeFileChange_follows in H.
  destruct H as (l & scope & Hl & Hf & Hn & _).
  split; [exact Hf|]. exists l.
  unfold addedLinesOf in Hl. apply filter_In in Hl. destruct Hl as [Hl Ht].
  split; [exact Hl|]. split; [|exact Hn].
  destruct (type l); try discriminate. reflexivity.
Qed.

Lemma X13_issues_point_at_added_lines_witness :
  file guardedIndexIssue = fileName guardedIndexFile
  /\ exists l, In l (changes guardedIndexFile) /\ type l = addition
               /\ line guardedIndexIssue = Some (lineNumber l).
Proof.
  apply (X13_issues_point_at_added_lines guardedIndexFile EmptyString guardedIndexIssue).
  vm_compute. left. reflexivity.
Defined.

(** X14. A file without addition changes gets no issue: removed and
    context lines are never flagged. *)
Theorem X14_no_additions_no_issues (fc : FileChange) (prompt : string) :
  (forall c, In c (changes fc) -> type c <> addition) ->
  analyzeFileChange fc prompt = [].
Proof.
  intros H. destruct (analyzeFileChange fc prompt) as [|i rest] eqn:E; [reflexivity|].
  assert (Hi : In i (analyzeFileChange fc prompt)) by (rewrite E; now left).
  apply analyzeFileChange_follows in Hi.
  destruct Hi as (l & scope & Hl & _).
  unfold addedLinesOf in Hl. apply filter_In in Hl. destruct Hl as [Hl Ht].
  exfalso. apply (H l Hl). destruct (type l); try discriminate. reflexivity.
Qed.

Lemma X14_no_additions_no_issues_witness :
  In removalFile (parseDiff removalDiff)
  /\ analyzeFileChange removalFile EmptyString = [].
Proof.
  split; [vm_compute; left; reflexivity|].
  apply X14_no_additions_no_issues.
  intros c Hc. vm_compute in Hc.
  destruct Hc as [<-|[<-|[]]]; discriminate.
Defined.

(** X15. Every issue carries the severity and the title of one rule of
    the table, and that rule's scope includes the extension of the
    file: the rules for script files stay silent on other files. *)
Theorem X15_issues_follow_the_rule_table
    (fc : FileChange) (prompt : string) (i : ReviewIssue) :
  In i (analyzeFileChange fc prompt) ->
  exists scope, In (severity i, title i, scope) ruleTable
                /\ inScope scope (getFileExtension (fileName fc)) = true.
Proof.
  intros H. apply analyzeFileChange_follows in H.
  destruct H as (l & scope & _ & _ & _ & Ht & Hs). now exists scope.
Qed.

Lemma X15_issues_follow_the_rule_table_witness :
  exists scope,
    In (severity guardedIndexIssue, title guardedIndexIssue, scope) ruleTable
    /\ inScope scope (getFileExtension (fileName guardedIndexFile)) = true.
Proof.
  apply (X15_issues_follow_the_rule_table guardedIndexFile EmptyString guardedIndexIssue).
  vm_compute. left. reflexivity.
Defined.

(** X16. An issue is critical exactly when it is a hard-coded-secret
    finding: no other rule assigns that severity. *)
Theorem X16_only_secrets_are_critical
    (fc : FileChange) (prompt : string) (i : ReviewIssue) :
  In i (analyzeFileChange fc prompt) ->
  (severity i = critical <-> title i = secretTitle).
Proof.
  intros H. apply analyzeFileChange_follows in H.
  destruct H as (l & scope & _ & _ & _ & Ht & _).
  unfold ruleTable in Ht. cbn [In] in Ht. unfold secretTitle.
  repeat (destruct Ht as [Ht|Ht];
          [injection Ht as <- <- _; split; intros Q; first [reflexivity | discriminate Q]|]).
  destruct Ht.
Qed.

Lemma X16_only_secrets_are_critical_witness :
  severity guardedIndexIssue = critical <-> title guardedIndexIssue = secretTitle.
Proof.
  apply (X16_only_secrets_are_critical guardedIndexFile EmptyString guardedIndexIssue).
  vm_compute. left. reflexivity.
Defined.

(** * Further properties of the context window *)

Lemma find_none_all {A : Type} (p : A -> bool) (l : list A) :
  (forall x, In x l -> p x = false) -> find p l = None.
Proof.
  induction l as [|x l IH]; intros H; [reflexivity|]. simpl.
  rewrite (H x (or_introl eq_refl)). apply IH. intros y Hy. apply H. now right.
Qed.

Lemma sliceFrom_length {A : Type} (n : Z) (l : list A) :
  0 < n -> (List.length (sliceFrom (- n) l) <= Z.to_nat n)%nat.
Proof.
  intros Hn. unfold sliceFrom.
  assert (E : (- n <? 0) = true) by (apply Z.ltb_lt; lia).
  rewrite E, length_skipn, Z.opp_involutive. lia.
Qed.

Lemma sliceTo_length {A : Type} (n : Z) (l : list A) :
  0 <= n -> (List.length (sliceTo n l) <= Z.to_nat n)%nat.
Proof.
  intros Hn. unfold sliceTo.
  assert (E : (n <? 0) = false) by (apply Z.ltb_ge; lia).
  rewrite E, length_firstn. lia.
Qed.

Lemma beforeLines_length (all : list LineChange) (t n : Z) :
  0 <= n -> (List.length (beforeLinesOf all t n) <= Z.to_nat n)%nat.
Proof.
  intros Hn. unfold beforeLinesOf.
  destruct (Z.eq_dec n 0) as [->|Hne].
  - assert (E : filter (fun l => (lineNumber l <? t) && (t - 0 <=? lineNumber l)) all = []).
    { induction all as [|x all IH]; [reflexivity|]. simpl.
      destruct (lineNumber x <? t) eqn:A, (t - 0 <=? lineNumber x) eqn:B;
        simpl; try exact IH.
      apply Z.ltb_lt in A. apply Z.leb_le in B. lia. }
    rewrite E. reflexivity.
  - apply sliceFrom_length. lia.
Qed.

(** X17. For a radius [n >= 0] and the number of any recorded change,
    that number and the radius together staying within the safe
    integers, the window exists, holds between one and [2n + 1] changes
    of the file, and every one of them is numbered within [n] of the
    target. *)
Theorem X17_window_is_found_and_bounded
    (fc : FileChange) (c : LineChange) (n : Z) :
  0 <= n -> In c (changes fc) ->
  Z.abs (lineNumber c) + n <= MAX_SAFE_INTEGER ->
  exists data,
    contextLinesData fc (lineNumber c) n = Some data
    /\ (1 <= List.length data <= 2 * Z.to_nat n + 1)%nat
    /\ forall x, In x data ->
         In x (changes fc) /\ Z.abs (lineNumber x - lineNumber c) <= n.
Proof.
  intros Hn Hc _. unfold contextLinesData. rewrite allLines_find.
  destruct (find_some_any (fun l => lineNumber l =? lineNumber c) (changes fc) c Hc
              (Z.eqb_refl _)) as [tgt F].
  rewrite F. eexists. split; [reflexivity|]. split.
  - rewrite !length_app. simpl.
    pose proof (beforeLines_length (allLinesOf fc) (lineNumber c) n Hn).
    pose proof (sliceTo_length n
      (filter (fun l => (lineNumber c <? lineNumber l)
                        && (lineNumber l <=? lineNumber c + n)) (allLinesOf fc)) Hn).
    unfold afterLinesOf. lia.
  - intros x Hx. apply in_app_or in Hx. destruct Hx as [Hx|Hx].
    + unfold beforeLinesOf in Hx. apply sliceFrom_incl, filter_In in Hx.
      destruct Hx as [Hx Hb]. split.
      * eapply Permutation_in; [apply Permutation_sym, allLines_perm | exact Hx].
      * apply andb_true_iff in Hb. destruct Hb as [A B].
        apply Z.ltb_lt in A. apply Z.leb_le in B. lia.
    + apply in_app_or in Hx. destruct Hx as [[<-|[]]|Hx].
      * apply find_some in F. destruct F as [Fi Fe]. split; [exact Fi|].
        apply Z.eqb_eq in Fe. lia.
      * unfold afterLinesOf in Hx. apply sliceTo_incl, filter_In in Hx.
        destruct Hx as [Hx Hb]. split.
        -- eapply Permutation_in; [apply Permutation_sym, allLines_perm | exact Hx].
        -- apply andb_true_iff in Hb. destruct Hb as [A B].
           apply Z.ltb_lt in A. apply Z.leb_le in B. lia.
Qed.

Lemma X17_window_is_found_and_bounded_witness :
  exists data,
    contextLinesData sampleFile (lineNumber (mkLineChange addition 21 "const b = 3;")) 2
      = Some data
    /\ (1 <= List.length data <= 2 * Z.to_nat 2 + 1)%nat
    /\ forall x, In x data ->
         In x (changes sampleFile)
         /\ Z.abs (lineNumber x - lineNumber (mkLineChange addition 21 "const b = 3;")) <= 2.
Proof.
  apply (X17_window_is_found_and_bounded sampleFile
           (mkLineChange addition 21 "const b = 3;") 2).
  - lia.
  - vm_compute. do 3 right. left. reflexivity.
  - vm_compute. discriminate.
Defined.

(** X18. For a number that no recorded change carries, the context is
    the not-found text, whatever the radius: the function never fails. *)
Theorem X18_unknown_line_gives_not_found_text
    (fc : FileChange) (target n : Z) :
  (forall c, In c (changes fc) -> lineNumber c <> target) ->
  getCodeContext fc target n = notFoundText target
  /\ contextLinesData fc target n = None.
Proof.
  intros H.
  assert (F : find (fun l => lineNumber l =? target) (allLinesOf fc) = None).
  { rewrite allLines_find. apply find_none_all. intros x Hx.
    apply Z.eqb_neq. now apply H. }
  unfold getCodeContext, contextLinesData. rewrite F. split; reflexivity.
Qed.

Lemma X18_unknown_line_gives_not_found_text_witness :
  getCodeContext removalFile 99 2 = notFoundText 99
  /\ contextLinesData removalFile 99 2 = None.
Proof.
  apply X18_unknown_line_gives_not_found_text.
  intros c Hc. vm_compute in Hc.
  destruct Hc as [<-|[<-|[]]]; discriminate.
Defined.

(** * Further properties of the sort and of the text helpers *)

Section SortedInput.
Context {A : Type} (key : A -> Z) (cmp : A -> A -> Z).
Hypothesis cmp_key : forall x y, cmp x y <= 0 <-> key x <= key y.

(** A sorted array is left as it is. *)
Lemma sortBy_sorted_input (l : list A) :
  StronglySorted (fun a b => key a <= key b) l -> sortBy cmp l = l.
Proof.
  induction 1 as [|x l HS IH Hall]; [reflexivity|].
  simpl. rewrite IH. destruct l as [|y l']; [reflexivity|].
  simpl. inversion Hall as [|? ? Hxy _]; subst.
  apply cmp_key, Z.leb_le in Hxy. now rewrite Hxy.
Qed.

Lemma sortBy_idempotent (l : list A) : sortBy cmp (sortBy cmp l) = sortBy cmp l.
Proof. apply sortBy_sorted_input, (sortBy_sorted key cmp cmp_key). Qed.
End SortedInput.

(** X19. Sorting issues that are already sorted changes nothing, so
    ranking twice is ranking once; and ranking neither drops nor adds an
    issue. *)
Theorem X19_ranking_is_idempotent (l : list ReviewIssue) :
  sortIssues (sortIssues l) = sortIssues l
  /\ List.length (sortIssues l) = List.length l.
Proof.
  split.
  - apply (sortBy_idempotent negWeight compareIssues compareIssues_key).
  - symmetry. apply Permutation_length, sortBy_perm.
Qed.

Lemma allChars_app (p : ascii -> bool) (a b : string) :
  allChars p (a ++ b)%string = allChars p a && allChars p b.
Proof.
  induction a as [|c a IH]; simpl; [reflexivity|]. now rewrite IH, andb_assoc.
Qed.

Lemma maskLiterals_pending (q q2 : ascii) (buf mid post : string) :
  allChars notQuote mid = true -> isQuote q2 = true ->
  maskLiterals (Some (q, buf)) (mid ++ String q2 post)
  = String q ("***" ++ String q2 (maskLiterals None post))%string.
Proof.
  revert buf. induction mid as [|c mid IH]; intros buf Hm Hq; simpl.
  - now rewrite Hq.
  - simpl in Hm. apply andb_true_iff in Hm. destruct Hm as [Hc Hm].
    unfold notQuote in Hc. apply negb_true_iff in Hc. rewrite Hc.
    now apply IH.
Qed.

Lemma maskLiterals_unclosed (q : ascii) (buf mid : string) :
  allChars notQuote mid = true ->
  maskLiterals (Some (q, buf)) mid = String q (buf ++ mid)%string.
Proof.
  revert buf. induction mid as [|c mid IH]; intros buf Hm; simpl.
  - now rewrite sapp_nil_r.
  - simpl in Hm. apply andb_true_iff in Hm. destruct Hm as [Hc Hm].
    unfold notQuote in Hc. apply negb_true_iff in Hc. rewrite Hc.
    rewrite (IH _ Hm), sapp_assoc. reflexivity.
Qed.

Lemma maskLiterals_plain (pre rest : string) :
  allChars notQuote pre = true ->
  maskLiterals None (pre ++ rest) = (pre ++ maskLiterals None rest)%string.
Proof.
  intros Hp. induction pre as [|c pre IH]; simpl; [reflexivity|].
  simpl in Hp. apply andb_true_iff in Hp. destruct Hp as [Hc Hp].
  unfold notQuote in Hc. apply negb_true_iff in Hc. rewrite Hc.
  now rewrite (IH Hp).
Qed.

(** X20. Masking a snippet replaces the text between a quote and the
    next quote by three stars and goes on after the closing quote; text
    without quotes, and a quote that is never closed, are left as they
    are. *)
Theorem X20_masking_hides_quoted_text
    (pre mid post : string) (q1 q2 : ascii) :
  allChars notQuote pre = true -> allChars notQuote mid = true ->
  isQuote q1 = true -> isQuote q2 = true ->
  maskLiterals None (pre ++ String q1 (mid ++ String q2 post))
    = (pre ++ String q1 ("***" ++ String q2 (maskLiterals None post)))%string
  /\ maskLiterals None (pre ++ String q1 mid) = (pre ++ String q1 mid)%string
  /\ maskLiterals None pre = pre.
Proof.
  intros Hp Hm H1 H2. split; [|split].
  - rewrite (maskLiterals_plain _ _ Hp). f_equal.
    cbn [maskLiterals]. rewrite H1. now apply maskLiterals_pending.
  - rewrite (maskLiterals_plain _ _ Hp). f_equal.
    cbn [maskLiterals]. rewrite H1. now rewrite (maskLiterals_unclosed _ _ _ Hm).
  - pose proof (maskLiterals_plain pre EmptyString Hp) as H.
    cbn [maskLiterals] in H. rewrite !sapp_nil_r in H. exact H.
Qed.

Lemma X20_masking_hides_quoted_text_witness :
  maskLiterals None ("const password = " ++ String "'" ("abc" ++ String "'" ";"))
    = ("const password = " ++ String "'" ("***" ++ String "'" (maskLiterals None ";")))%string
  /\ maskLiterals None ("const password = " ++ String "'" "abc")
     = ("const password = " ++ String "'" "abc")%string
  /\ maskLiterals None "const password = " = "const password = ".
Proof.
  apply (X20_masking_hides_quoted_text "const password = " "abc" ";" "'" "'");
    reflexivity.
Defined.

Lemma allChars_and (p q : ascii -> bool) (s : string) :
  allChars p s = true -> allChars q s = true ->
  allChars (fun c => p c && q c) s = true.
Proof.
  induction s as [|c s IH]; simpl; [reflexivity|]. intros Hp Hq.
  apply andb_true_iff in Hp, Hq. destruct Hp as [-> Hp], Hq as [-> Hq]. now apply IH.
Qed.

(** X21. A parameter name taken from a declaration holds no white
    space, no [=] and no [:], whatever the text of the parameter: default
    values and type annotations are cut off.  So it is for every
    parameter that [extractFunctionInfo] reports. *)
Theorem X21_parameter_names_are_bare (text : string) :
  allChars nameChar (paramName text) = true
  /\ forall p, In p (params (extractFunctionInfo text)) ->
       allChars nameChar p = true.
Proof.
  assert (G : forall p, allChars nameChar (paramName p) = true);
    [|split; [apply G|];
      intros p Hp; unfold extractFunctionInfo in Hp; cbn [params] in Hp;
      destruct (parenGroup text) as [inside|]; [|destruct Hp];
      destruct (String.eqb inside EmptyString); [destruct Hp|];
      apply in_map_iff in Hp; destruct Hp as (x & <- & _); apply G].
  intros p. unfold paramName, nameChar.
  destruct (spanWhile (fun c => negb (isWhiteSpace c)) (trim p)) as [token r] eqn:S1.
  cbn [fst].
  destruct (spanWhile (fun c => negb (Ascii.eqb c "=" || Ascii.eqb c ":")) token)
    as [nm r2] eqn:S2.
  cbn [fst].
  apply spanWhile_spec in S1, S2. destruct S1 as [_ H1], S2 as [E2 H2].
  subst token. rewrite allChars_app in H1. apply andb_true_iff in H1.
  apply (allChars_and _ _ nm (proj1 H1) H2).
Qed.

Lemma lastDotSuffix_spec (s : string) :
  match lastDotSuffix s with
  | None => hasChar "." s = false
  | Some e => exists pre rest,
      s = (pre ++ e)%string /\ e = String "." rest /\ hasChar "." rest = false
  end.
Proof.
  induction s as [|c s IH]; [reflexivity|]. cbn [lastDotSuffix].
  destruct (lastDotSuffix s) as [e|].
  - destruct IH as (pre & rest & -> & -> & Hr).
    exists (String c pre), rest. auto.
  - destruct (Ascii.eqb c ".") eqn:E.
    + apply Ascii.eqb_eq in E. subst c. exists EmptyString, s. auto.
    + simpl. now rewrite E.
Qed.

Lemma lowerChar_idempotent (c : ascii) : lowerChar (lowerChar c) = lowerChar c.
Proof. destruct c as [[] [] [] [] [] [] [] []]; vm_compute; reflexivity. Qed.

Lemma toLowerCase_idempotent (s : string) : toLowerCase (toLowerCase s) = toLowerCase s.
Proof.
  induction s as [|c s IH]; [reflexivity|]. simpl. now rewrite lowerChar_idempotent, IH.
Qed.

(** X22. The extension of a file name is empty when the lower-cased
    name holds no dot; otherwise it is the end of the lower-cased name
    from its last dot on.  It does not depend on the case of the name. *)
Theorem X22_extension_is_the_last_dot_suffix (fileName0 : string) :
  let ext := getFileExtension fileName0 in
  ((ext = EmptyString /\ hasChar "." (toLowerCase fileName0) = false)
   \/ exists pre rest,
        toLowerCase fileName0 = (pre ++ ext)%string
        /\ ext = String "." rest /\ hasChar "." rest = false)
  /\ getFileExtension (toLowerCase fileName0) = ext.
Proof.
  cbv zeta. split.
  - unfold getFileExtension.
    pose proof (lastDotSuffix_spec (toLowerCase fileName0)) as H.
    destruct (lastDotSuffix (toLowerCase fileName0)) as [e|]; [right | left]; auto.
  - unfold getFileExtension. now rewrite toLowerCase_idempotent.
Qed.

(** * Properties of the template store *)

Lemma ownGet_ownSet_same (t : Templates) (name v : string) :
  ownGet (ownSet t name v) name = Some v.
Proof.
  induction t as [|[k w] rest IH]; simpl.
  - now rewrite String.eqb_refl.
  - destruct (String.eqb k name) eqn:E; simpl; rewrite E; [reflexivity | exact IH].
Qed.

Lemma ownGet_ownSet_other (t : Templates) (name v other : string) :
  other <> name -> ownGet (ownSet t name v) other = ownGet t other.
Proof.
  intros Hne. induction t as [|[k w] rest IH]; simpl.
  - destruct (String.eqb name other) eqn:E; [|reflexivity].
    apply String.eqb_eq in E. congruence.
  - destruct (String.eqb k name) eqn:E; simpl.
    + apply String.eqb_eq in E. subst k.
      destruct (String.eqb name other) eqn:E2; [|reflexivity].
      apply String.eqb_eq in E2. congruence.
    + destruct (String.eqb k other); [reflexivity | exact IH].
Qed.

Lemma ownGet_ownDelete_same (t : Templates) (name : string) :
  ownGet (ownDelete t name) name = None.
Proof.
  induction t as [|[k w] rest IH]; simpl; [reflexivity|].
  destruct (String.eqb k name) eqn:E; simpl; [exact IH | now rewrite E].
Qed.

Lemma ownGet_ownDelete_other (t : Templates) (name other : string) :
  other <> name -> ownGet (ownDelete t name) other = ownGet t other.
Proof.
  intros Hne. induction t as [|[k w] rest IH]; simpl; [reflexivity|].
  destruct (String.eqb k name) eqn:E; simpl.
  - apply String.eqb_eq in E. subst k.
    destruct (String.eqb name other) eqn:E2; [|exact IH].
    apply String.eqb_eq in E2. congruence.
  - destruct (String.eqb k other); [reflexivity | exact IH].
Qed.

(** X23. A template added under a name other than [__proto__], with a
    text that is not empty, is what [getTemplate] returns for that name
    afterwards; every other name reads as before. *)
Theorem X23_added_template_is_returned
    (t : Templates) (name prompt : string) :
  name <> "__proto__" -> prompt <> EmptyString ->
  getTemplate (addTemplate t name prompt) name = Text prompt
  /\ forall other, other <> name ->
       lookup (addTemplate t name prompt) other = lookup t other.
Proof.
  intros Hn Hp. unfold addTemplate, assign.
  apply String.eqb_neq in Hn. rewrite Hn. split.
  - unfold getTemplate, lookup. rewrite ownGet_ownSet_same. simpl.
    apply String.eqb_neq in Hp. now rewrite Hp.
  - intros other Ho. unfold lookup. now rewrite ownGet_ownSet_other.
Qed.

Lemma X23_added_template_is_returned_witness :
  getTemplate (addTemplate twoTemplates "style" "Review style.") "style"
    = Text "Review style."
  /\ forall other, other <> "style" ->
       lookup (addTemplate twoTemplates "style" "Review style.") other
       = lookup twoTemplates other.
Proof.
  apply X23_added_template_is_returned; discriminate.
Defined.

(** X24. While the store holds a comprehensive template with a text
    that is not empty, [getTemplate] returns a usable value for every
    name, and for a name that is neither stored nor inherited from
    [Object.prototype] it returns the comprehensive text. *)
Theorem X24_unknown_names_fall_back (t : Templates) (fallback name : string) :
  ownGet t "comprehensive" = Some fallback -> fallback <> EmptyString ->
  truthy (getTemplate t name) = true
  /\ (lookup t name = Undefined -> getTemplate t name = Text fallback).
Proof.
  intros Hc Hf.
  assert (L : lookup t "comprehensive" = Text fallback)
    by (unfold lookup; now rewrite Hc).
  assert (T : truthy (Text fallback) = true).
  { simpl. apply String.eqb_neq in Hf. now rewrite Hf. }
  unfold getTemplate. split.
  - destruct (truthy (lookup t name)) eqn:E; [exact E | now rewrite L].
  - intros ->. simpl. exact L.
Qed.

Lemma X24_unknown_names_fall_back_witness :
  truthy (getTemplate twoTemplates "nonexistent") = true
  /\ (lookup twoTemplates "nonexistent" = Undefined ->
      getTemplate twoTemplates "nonexistent" = Text "Review everything.").
Proof.
  apply X24_unknown_names_fall_back; [reflexivity | discriminate].
Defined.

(** X25. [removeTemplate] answers [true] exactly when the name reads as
    a usable value; then the name is no longer stored and every other
    name is stored as before.  When it answers [false] the store is
    unchanged. *)
Theorem X25_remove_deletes_only_the_name (t : Templates) (name : string) :
  snd (removeTemplate t name) = truthy (lookup t name)
  /\ (snd (removeTemplate t name) = true ->
      ownGet (fst (removeTemplate t name)) name = None
      /\ forall other, other <> name ->
           ownGet (fst (removeTemplate t name)) other = ownGet t other)
  /\ (snd (removeTemplate t name) = false -> fst (removeTemplate t name) = t).
Proof.
  unfold removeTemplate. destruct (truthy (lookup t name)); simpl.
  - split; [reflexivity|]. split; [|discriminate]. intros _. split.
    + apply ownGet_ownDelete_same.
    + intros other Ho. now apply ownGet_ownDelete_other.
  - split; [reflexivity|]. split; [discriminate | reflexivity].
Qed.

(** X26. A template stored with an empty text reads as absent:
    [getTemplate] falls back to the comprehensive template, and
    [removeTemplate] and [updateTemplate] refuse it and leave the store
    as it is. *)
Theorem X26_empty_text_reads_as_absent (t : Templates) (name prompt : string) :
  name <> "__proto__" ->
  let t' := addTemplate t name EmptyString in
  getTemplate t' name = lookup t' "comprehensive"
  /\ removeTemplate t' name = (t', false)
  /\ updateTemplate t' name prompt = (t', false).
Proof.
  intros Hn. cbv zeta.
  assert (L : lookup (addTemplate t name EmptyString) name = Text EmptyString).
  { unfold addTemplate, assign, lookup. apply String.eqb_neq in Hn. rewrite Hn.
    now rewrite ownGet_ownSet_same. }
  unfold getTemplate, removeTemplate, updateTemplate. rewrite L. simpl.
  repeat split.
Qed.

Lemma X26_empty_text_reads_as_absent_witness :
  let t' := addTemplate twoTemplates "security" EmptyString in
  getTemplate t' "security" = lookup t' "comprehensive"
  /\ removeTemplate t' "security" = (t', false)
  /\ updateTemplate t' "security" "Review security again." = (t', false).
Proof.
  apply X26_empty_text_reads_as_absent. discriminate.
Defined.

(** * Properties of the function information *)

Lemma firstMatch_some {A : Type} (f : string -> option A) (s : string) (a : A) :
  firstMatch f s = Some a -> exists pre s', s = (pre ++ s')%string /\ f s' = Some a.
Proof.
  induction s as [|c s IH]; cbn [firstMatch].
  - destruct (f EmptyString) eqn:E; [|discriminate].
    intros H. injection H as ->. exists EmptyString, EmptyString. auto.
  - destruct (f (String c s)) eqn:E.
    + intros H. injection H as ->. exists EmptyString, (String c s). auto.
    + intros H. destruct (IH H) as (pre & s' & -> & Hs).
      exists (String c pre), s'. auto.
Qed.

Lemma wordAfter_word (kw s w : string) : wordAfter kw s = Some w -> isWord w.
Proof.
  unfold wordAfter. destruct (startsWith s kw); [|discriminate].
  destruct (spanWhile isWhiteSpace _) as [sp r].
  destruct (String.eqb sp EmptyString); [discriminate|].
  destruct (spanWhile isWordChar r) as [w' r'] eqn:S.
  destruct (String.eqb w' EmptyString) eqn:E; [discriminate|].
  intros H. injection H as <-. apply spanWhile_spec in S.
  split; [exact (proj2 S) | now apply String.eqb_neq].
Qed.

Lemma wordBefore_word (c : ascii) (s w : string) : wordBefore c s = Some w -> isWord w.
Proof.
  unfold wordBefore. destruct (spanWhile isWordChar s) as [w' r] eqn:S.
  destruct (String.eqb w' EmptyString) eqn:E; [discriminate|].
  destruct (spanWhile isWhiteSpace r) as [sp r'].
  destruct r' as [|c' r'']; [discriminate|].
  destruct (Ascii.eqb c' c); [|discriminate].
  intros H. injection H as <-. apply spanWhile_spec in S.
  split; [exact (proj2 S) | now apply String.eqb_neq].
Qed.

(** X27. The function name reported for a declaration is always a
    non-empty run of word characters: a word taken from the text, or
    [anonymous] when the text holds none in the expected places. *)
Theorem X27_function_name_is_a_word (text : string) :
  isWord (name (extractFunctionInfo text)).
Proof.
  unfold extractFunctionInfo. cbn [name].
  destruct (firstMatch functionNameAt text) as [n|] eqn:E;
    [|split; [reflexivity | discriminate]].
  apply firstMatch_some in E. destruct E as (pre & s' & _ & H).
  unfold functionNameAt in H.
  destruct (wordAfter "function" s') as [w|] eqn:E1.
  - injection H as <-. now apply wordAfter_word in E1.
  - destruct (wordBefore "(" s') as [w|] eqn:E2.
    + injection H as <-. now apply wordBefore_word in E2.
    + now apply wordBefore_word in H.
Qed.

(** * Composition *)

Lemma prefix_app_terminated (sep s d2 : string) :
  allChars (fun c => negb (isLineTerminator c)) sep = true ->
  endsLine s = true ->
  String.prefix sep (s ++ d2) = String.prefix sep s.
Proof.
  revert s. induction sep as [|a sep IH]; intros s Hs He.
  - now rewrite !prefix_empty.
  - destruct s as [|c s]; [discriminate|].
    simpl in Hs. apply andb_true_iff in Hs. destruct Hs as [Ha Hs].
    cbn [append String.prefix]. destruct (ascii_dec a c) as [->|Hne]; [|reflexivity].
    destruct s as [|c' s'].
    + simpl in He. rewrite He in Ha. discriminate.
    + apply IH; [exact Hs | exact He].
Qed.

Lemma endsLine_drop (k : nat) (s : string) :
  endsLine s = true -> (k < String.length s)%nat -> endsLine (drop k s) = true.
Proof.
  revert s. induction k as [|k IH]; intros s He Hk; [exact He|].
  destruct s as [|c s]; [discriminate|]. simpl in Hk. cbn [drop].
  destruct s as [|c' s']; [simpl in Hk; lia|].
  apply IH; [exact He | simpl in *; lia].
Qed.

Lemma splitOnDiffGit_app (n : nat) (s d2 : string) (bol : bool) :
  (String.length s <= n)%nat ->
  (s = EmptyString /\ bol = true) \/ endsLine s = true ->
  startsWith d2 "diff --git" = true ->
  splitOnDiffGit bol 0 (s ++ d2)
  = (fst (splitOnDiffGit bol 0 s),
     snd (splitOnDiffGit bol 0 s) ++ snd (splitOnDiffGit true 0 d2)).
Proof.
  revert s bol. induction n as [|n IH]; intros s bol Hn Hs Hd.
  - destruct s; [|simpl in Hn; lia]. destruct Hs as [[_ ->]|Hs]; [|discriminate].
    simpl. apply startsWith_split in Hd. rewrite Hd.
    now rewrite splitOnDiffGit_at_separator.
  - destruct s as [|c s'].
    + destruct Hs as [[_ ->]|Hs]; [|discriminate].
      simpl. apply startsWith_split in Hd. rewrite Hd.
      now rewrite splitOnDiffGit_at_separator.
    + destruct Hs as [[Hs _]|He]; [discriminate|].
      change (String c s' ++ d2)%string with (String c (s' ++ d2)).
      cbn [splitOnDiffGit].
      assert (P : startsWith (String c (s' ++ d2)) "diff --git"
                  = startsWith (String c s') "diff --git").
      { apply (prefix_app_terminated "diff --git" (String c s') d2 eq_refl He). }
      rewrite P.
      destruct (bol && startsWith (String c s') "diff --git") eqn:E.
      * apply andb_true_iff in E. destruct E as [-> E].
        pose proof E as E'. apply startsWith_split in E'. simpl String.length in E'.
        set (rest := drop 10 (String c s')) in *.
        assert (Hlen : String.length (String c s') = (10 + String.length rest)%nat).
        { pose proof (f_equal String.length E') as Q.
          rewrite string_length_app in Q. exact Q. }
        assert (Hr : endsLine rest = true).
        { apply endsLine_drop; [exact He|].
          destruct (Nat.lt_ge_cases 10 (String.length (String c s'))) as [L|L];
            [exact L|].
          exfalso. assert (R : rest = EmptyString).
          { destruct rest; [reflexivity|]. simpl in Hlen, L. lia. }
          rewrite R, sapp_nil_r in E'. rewrite E' in He. discriminate. }
        pose proof (splitOnDiffGit_at_separator rest) as A1.
        pose proof (splitOnDiffGit_at_separator (rest ++ d2)) as A2.
        rewrite <- sapp_assoc, <- E' in A2.
        rewrite <- E' in A1.
        change (String c s' ++ d2)%string with (String c (s' ++ d2)) in A2.
        cbn [splitOnDiffGit] in A1, A2. rewrite P in A2. rewrite E in A1, A2.
        cbn [andb] in A1, A2.
        destruct (splitOnDiffGit false 9 s') as [p1 ps1].
        destruct (splitOnDiffGit false 9 (s' ++ d2)) as [p2 ps2].
        injection A1 as -> ->. injection A2 as -> ->.
        simpl in Hn, Hlen.
        rewrite (IH rest false ltac:(lia) (or_intror Hr) Hd). reflexivity.
      * assert (Hs' : (s' = EmptyString /\ isLineTerminator c = true)
                      \/ endsLine s' = true).
        { destruct s' as [|c' s'']; [left; split; [reflexivity | exact He]|].
          right. exact He. }
        simpl in Hn.
        rewrite (IH s' (isLineTerminator c) ltac:(lia) Hs' Hd).
        destruct (splitOnDiffGit (isLineTerminator c) 0 s') as [p ps]. reflexivity.
Qed.

Lemma fold_parseHunk_app (hunks : list string) (files : list FileChange) :
  fold_left parseHunk hunks files = files ++ fold_left parseHunk hunks [].
Proof.
  revert files. induction hunks as [|h hs IH]; intros files; simpl.
  - now rewrite app_nil_r.
  - rewrite (IH (parseHunk files h)), (IH (parseHunk [] h)).
    rewrite app_assoc. f_equal.
    unfold parseHunk. destruct (fileMatch _) as [[old new]|]; simpl;
      [reflexivity | now rewrite app_nil_r].
Qed.

(** X28. Parsing works block by block: when a text made of whole lines
    (or no text) is followed by a text that starts with the separator,
    the files of the whole are the files of the first text followed by
    the files of the second. *)
Theorem X28_parsing_distributes_over_concatenation (d1 d2 : string) :
  wholeLines d1 = true -> startsWith d2 "diff --git" = true ->
  parseDiff (d1 ++ d2) = parseDiff d1 ++ parseDiff d2.
Proof.
  intros H1 H2. unfold parseDiff, splitHunks.
  rewrite (splitOnDiffGit_app (String.length d1) d1 d2 true); [| lia | | exact H2].
  - cbn [snd]. rewrite fold_left_app. apply fold_parseHunk_app.
  - destruct d1; [left; auto | right; exact H1].
Qed.

Lemma X28_parsing_distributes_over_concatenation_witness :
  parseDiff (removalDiff ++ farDiff) = parseDiff removalDiff ++ parseDiff farDiff.
Proof.
  apply X28_parsing_distributes_over_concatenation; reflexivity.
Defined.

Lemma fold_sum (f : FileChange -> Z) (files : list FileChange) (a : Z) :
  fold_left (fun sum x => sum + f x) files a = a + sumBy f files.
Proof.
  revert a. induction files as [|x xs IH]; intros a; simpl; [lia|].
  rewrite IH. unfold sumBy. simpl. lia.
Qed.

Lemma sumBy_perm (f : FileChange -> Z) (l l' : list FileChange) :
  Permutation l l' -> sumBy f l = sumBy f l'.
Proof.
  induction 1; unfold sumBy in *; simpl; lia.
Qed.

(** X29. The summary does not depend on the order of the issues nor on
    the order of the files: it is the same before and after the issues
    are ranked. *)
Theorem X29_summary_ignores_order
    (files files' : list FileChange) (issues0 issues1 : list ReviewIssue)
    (prompt : string) :
  Permutation files files' -> Permutation issues0 issues1 ->
  generateSummary files issues0 prompt = generateSummary files' issues1 prompt.
Proof.
  intros Hf Hi. unfold generateSummary.
  rewrite !fold_sum.
  rewrite (Permutation_length Hf), (Permutation_length Hi).
  rewrite (sumBy_perm additions _ _ Hf), (sumBy_perm deletions _ _ Hf).
  rewrite (Permutation_length
             (filter_perm (fun i => String.eqb (severityName (severity i)) "critical")
                _ _ Hi)).
  rewrite (Permutation_length
             (filter_perm (fun i => String.eqb (severityName (severity i)) "major")
                _ _ Hi)).
  reflexivity.
Qed.

Lemma X29_summary_ignores_order_witness :
  generateSummary [sampleFile; farFile] [guardedIndexIssue] EmptyString
  = generateSummary [farFile; sampleFile] (sortIssues [guardedIndexIssue]) EmptyString.
Proof.
  apply X29_summary_ignores_order.
  - apply perm_swap.
  - apply sortBy_perm.
Defined.
